(** * RAGCHAT: the document retrieval store (modules/vector_store.py)

    A shallow embedding of the [VectorStore] class: the embedding call with
    its provider fallback, batch ingestion, top-k similarity search, pickle
    persistence and clearing, followed by the properties of the store that
    the specification states.

    Conventions.
    - A Python method that mutates [self] or the file system is a function
      in the monad [M]: it takes the store and the world and returns a
      result (a value or a raised exception) together with the store and
      the world as the call leaves them.  A raised exception does not undo
      earlier assignments, exactly as in Python.
    - What the class imports (numpy, scikit-learn, the two embedding
      backends, the operating system) is not code of the repository.  Its
      operations are the interfaces [Scalar], [Numeric] and [Backend]; the
      part of the libraries' documented behaviour that a proof relies on is
      stated apart, in [ScalarOrder] and [NumericLaws], and is a hypothesis
      of that proof only.
    - Part 1 is the model, part 2 the vocabulary of the statements, part 3
      a test instance of every interface over the rationals, on which all
      concrete examples run, and part 4 the properties. *)

From Stdlib Require Import ZArith QArith Ascii String.
From stdpp Require Import base option list sorting strings pretty gmap.

Open Scope string_scope.
Open Scope list_scope.

(** * Part 1: the model *)

(** ** Exceptions *)

Inductive exn : Type :=
  | ValueError
  | IndexError
  | AttributeError
  | OSError
  | UnpicklingError
  | ProviderError.

Inductive Exc (A : Type) : Type :=
  | Ok (a : A)
  | Raise (e : exn).
Arguments Ok {A} a.
Arguments Raise {A} e.

(** ** Scalars: the float64 entries of vectors and the similarity scores.
    Only zero and the order of (non-NaN) floats are used. *)

Class Scalar (F : Type) : Type := {
  fzero : F;
  fle : F -> F -> bool
}.

Section WithScalar.
Context {F : Type} `{SF : Scalar F}.

Definition Vector : Type := list F.
(** A 2-D ndarray, as the list of its rows. *)
Definition Matrix : Type := list Vector.

(** [a <= b] on scores, as a proposition. *)
Definition fleP (a b : F) : Prop := fle a b = true.
(** Two scores tie when neither is smaller. *)
Definition ftie (a b : F) : bool := fle a b && fle b a.

(** ** numpy *)

(** All rows have the same length. *)
Definition uniform (m : Matrix) : bool :=
  match m with
  | [] => true
  | r :: rs => forallb (fun r' => Nat.eqb (length r') (length r)) rs
  end.

(** [np.zeros(n)] *)
Definition np_zeros (n : nat) : Vector := repeat fzero n.

(** [np.array(rows)] on a list of 1-D arrays: a ragged list is refused
    (ValueError, inhomogeneous shape; numpy 1.24 and later). *)
Definition np_array (rows : list Vector) : Exc Matrix :=
  if uniform rows then Ok rows else Raise ValueError.

(** [np.vstack([a, b])]: the row widths must agree. *)
Definition np_vstack (a b : Matrix) : Exc Matrix :=
  if uniform (a ++ b) then Ok (a ++ b) else Raise ValueError.

(** Python's [a[start:]] for any integer [start]. *)
Definition slice_from {A} (start : Z) (a : list A) : list A :=
  let n := Z.of_nat (length a) in
  let s := if (start <? 0)%Z then Z.max 0 (start + n) else Z.min start n in
  drop (Z.to_nat s) a.

(** [a[i]] for a list and a non-negative index. *)
Definition getitem {A} (a : list A) (i : nat) : Exc A :=
  match a !! i with
  | Some x => Ok x
  | None => Raise IndexError
  end.

(** What scikit-learn and numpy compute for [search]:
    [cosine_similarity(X, Y)], which raises on incompatible shapes, and
    [np.argsort(s)]. *)
Class Numeric : Type := {
  cosine_similarity : Matrix -> Matrix -> Exc Matrix;
  argsort : Vector -> list nat
}.

(** ** The embedding backends and the operating system *)

Inductive TaskType : Type := retrieval_document | retrieval_query.

(** What happens when [vector_db.pkl] is opened for writing and pickled. *)
Inductive WriteOutcome : Type :=
  | Written        (* the file now holds the pickle *)
  | OpenFails      (* [open] raises: the file is as before *)
  | DumpFails.     (* [pickle.dump] raises after [open] truncated the file *)

Class Backend : Type := {
  (** [genai.Embedding()] can be constructed. *)
  genai_available : bool;
  (** [genai_model.embed_content(content, task_type)["embedding"]] *)
  embed_content : string -> TaskType -> Exc Vector;
  (** [SentenceTransformer(name)] can be constructed. *)
  st_available : string -> bool;
  (** [SentenceTransformer(name).encode(text)] *)
  encode : string -> string -> Exc Vector;
  (** [str(uuid.uuid4())], by the number of ids drawn so far. *)
  uuid4 : nat -> string;
  (** [os.makedirs(dir, exist_ok=True)] succeeds. *)
  makedirs_ok : string -> bool;
  (** writing the file at a path *)
  write_outcome : string -> WriteOutcome;
  (** [os.remove(path)] succeeds on an existing file. *)
  remove_ok : string -> bool
}.

(** The object held in [self.embedding_model]. *)
Inductive Model : Type :=
  | GenaiEmbedding
  | SentenceTransformer (name : string).

(** ** Data *)

Inductive Value : Type :=
  | VNone
  | VStr (s : string)
  | VInt (z : Z).

(** A metadata dictionary. *)
Definition Metadata : Type := gmap string Value.

(** The dictionary that [save_database] pickles.  A key may be missing from
    a file written by something else: [load_database] reads with [.get]. *)
Record Database : Type := mkDatabase {
  db_documents : option (list string);
  db_document_metadata : option (list Metadata);
  db_embeddings : option Matrix;
  db_embedding_provider : option string;
  db_model_name : option string
}.

Inductive FileContent : Type :=
  | Pickle (db : Database)
  | Unreadable.   (* truncated, corrupt or not readable *)

Record World : Type := mkWorld {
  files : gmap string FileContent;
  uuids_drawn : nat
}.

Record VectorStore : Type := mkVectorStore {
  embedding_provider : string;
  model_name : string;
  storage_dir : string;
  documents : list string;
  document_metadata : list Metadata;
  embeddings : option Matrix;
  embedding_model : Model
}.

(** One entry of a search result. *)
Record Hit : Type := mkHit {
  text : string;
  score : F;
  metadata : Metadata
}.

(** ** The monad of methods *)

Definition State : Type := VectorStore * World.
Definition M (A : Type) : Type := State -> Exc A * State.

Definition ret {A} (a : A) : M A := fun s => (Ok a, s).
Definition raise {A} (e : exn) : M A := fun s => (Raise e, s).
Definition bind {A B} (m : M A) (k : A -> M B) : M B :=
  fun s => match m s with
           | (Ok a, s') => k a s'
           | (Raise e, s') => (Raise e, s')
           end.
(** [try: m except Exception: h] *)
Definition try_except {A} (m : M A) (h : exn -> M A) : M A :=
  fun s => match m s with
           | (Ok a, s') => (Ok a, s')
           | (Raise e, s') => h e s'
           end.
Definition lift {A} (r : Exc A) : M A := fun s => (r, s).
Definition get_self : M VectorStore := fun s => (Ok (fst s), s).
Definition set_self (f : VectorStore -> VectorStore) : M unit :=
  fun s => (Ok tt, (f (fst s), snd s)).
Definition get_world : M World := fun s => (Ok (snd s), s).
Definition set_world (f : World -> World) : M unit :=
  fun s => (Ok tt, (fst s, f (snd s))).

End WithScalar.

Arguments Vector F : clear implicits.
Arguments Matrix F : clear implicits.
Arguments Numeric F : clear implicits.
Arguments Backend F : clear implicits.
Arguments Database F : clear implicits.
Arguments FileContent F : clear implicits.
Arguments World F : clear implicits.
Arguments VectorStore F : clear implicits.
Arguments Hit F : clear implicits.
Arguments State F : clear implicits.
Arguments M F A : clear implicits.

Notation "'let*' x ':=' m 'in' k" := (bind m (fun x => k))
  (at level 10, x name, m at level 100, k at level 200).

(** ** The methods of [VectorStore] *)

Section Methods.
Context {F : Type} {SF : Scalar F} {NU : Numeric F} {BE : Backend F}.

Abbreviation Store := (VectorStore F).

(** Attribute assignments. *)
Definition with_embedding_provider (p : string) (self : Store) : Store :=
  mkVectorStore p (model_name self) (storage_dir self) (documents self)
    (document_metadata self) (embeddings self) (embedding_model self).
Definition with_embedding_model (m : Model) (self : Store) : Store :=
  mkVectorStore (embedding_provider self) (model_name self) (storage_dir self)
    (documents self) (document_metadata self) (embeddings self) m.
Definition with_documents (d : list string) (self : Store) : Store :=
  mkVectorStore (embedding_provider self) (model_name self) (storage_dir self)
    d (document_metadata self) (embeddings self) (embedding_model self).
Definition with_document_metadata (md : list Metadata) (self : Store) : Store :=
  mkVectorStore (embedding_provider self) (model_name self) (storage_dir self)
    (documents self) md (embeddings self) (embedding_model self).
Definition with_embeddings (e : option (Matrix F)) (self : Store) : Store :=
  mkVectorStore (embedding_provider self) (model_name self) (storage_dir self)
    (documents self) (document_metadata self) e (embedding_model self).
Definition with_files (f : gmap string (FileContent F)) (w : World F) : World F :=
  mkWorld f (uuids_drawn w).

(** [os.path.join(dir, name)] for a relative [name]. *)
Fixpoint ends_with_slash (s : string) : bool :=
  match s with
  | EmptyString => false
  | String c EmptyString => Ascii.eqb c "/"%char
  | String _ rest => ends_with_slash rest
  end.
Definition path_join (dir name : string) : string :=
  if String.eqb dir "" || ends_with_slash dir
  then String.append dir name
  else String.append dir (String.append "/" name).

Definition db_path (self : Store) : string :=
  path_join (storage_dir self) "vector_db.pkl".

(** Method calls on the duck-typed model object: a method the object does
    not have raises AttributeError. *)
Definition model_embed_content (m : Model) (content : string) (task : TaskType)
  : Exc (Vector F) :=
  match m with
  | GenaiEmbedding => embed_content content task
  | SentenceTransformer _ => Raise AttributeError
  end.
Definition model_encode (m : Model) (txt : string) : Exc (Vector F) :=
  match m with
  | SentenceTransformer name => encode name txt
  | GenaiEmbedding => Raise AttributeError
  end.
Definition new_SentenceTransformer (name : string) : M F Model :=
  if st_available name then ret (SentenceTransformer name) else raise OSError.
Definition is_SentenceTransformer (m : Model) : bool :=
  match m with SentenceTransformer _ => true | GenaiEmbedding => false end.

(** [embed_text(self, text)] (lines 59-84) *)
Definition embed_text (txt : string) : M F (Vector F) :=
  let* self := get_self in
  if String.eqb (embedding_provider self) "google" then
    try_except
      (lift (model_embed_content (embedding_model self) txt retrieval_document))
      (fun _ =>
         let* _ :=
           if negb (is_SentenceTransformer (embedding_model self)) then
             let* _ := set_self (with_embedding_provider "sentence_transformer") in
             let* m := new_SentenceTransformer (model_name self) in
             set_self (with_embedding_model m)
           else ret tt in
         let* self' := get_self in
         lift (model_encode (embedding_model self') txt))
  else
    lift (model_encode (embedding_model self) txt).

(** [save_database(self)] (lines 176-192) *)
Definition save_database : M F unit :=
  try_except
    (let* self := get_self in
     let database :=
       mkDatabase (Some (documents self)) (Some (document_metadata self))
         (embeddings self) (Some (embedding_provider self))
         (Some (model_name self)) in
     match write_outcome (db_path self) with
     | Written =>
         set_world (fun w => with_files (<[db_path self := Pickle database]> (files w)) w)
     | OpenFails => raise OSError
     | DumpFails =>
         let* _ := set_world (fun w =>
                     with_files (<[db_path self := Unreadable]> (files w)) w) in
         raise OSError
     end)
    (fun _ => ret tt).

(** [load_database(self)] (lines 194-210) *)
Definition load_database : M F bool :=
  try_except
    (let* self := get_self in
     let* w := get_world in
     match files w !! db_path self with
     | Some content =>
         let* database := match content with
                          | Pickle db => ret db
                          | Unreadable => raise UnpicklingError
                          end in
         let* _ := set_self (with_documents (default [] (db_documents database))) in
         let* _ := set_self (with_document_metadata
                               (default [] (db_document_metadata database))) in
         let* _ := set_self (with_embeddings (db_embeddings database)) in
         ret true
     | None => ret false
     end)
    (fun _ => ret false).

(** The metadata synthesised when none is given (line 99). *)
Definition default_metadata (drawn : nat) (n : nat) : list Metadata :=
  map (fun i => <["id" := VStr (uuid4 (drawn + i))]>
                  (<["index" := VInt (Z.of_nat i)]> (∅ : Metadata)))
      (seq 0 n).

(** The loop of lines 108-116: one vector per document, a zero vector of
    768 entries for a document whose embedding raises. *)
Fixpoint embed_documents (docs : list string) : M F (list (Vector F)) :=
  match docs with
  | [] => ret []
  | doc :: rest =>
      let* embedding := try_except (embed_text doc) (fun _ => ret (np_zeros 768)) in
      let* others := embed_documents rest in
      ret (embedding :: others)
  end.

(** [add_documents(self, documents, metadata=None)] (lines 86-128) *)
Definition add_documents (docs : list string) (md : option (list Metadata))
  : M F unit :=
  match docs with
  | [] => ret tt
  | _ :: _ =>
      let* md' :=
        match md with
        | None =>
            let* w := get_world in
            let* _ := set_world (fun w =>
                        mkWorld (files w) (uuids_drawn w + length docs)) in
            ret (default_metadata (uuids_drawn w) (length docs))
        | Some l =>
            if negb (Nat.eqb (length l) (length docs))
            then raise ValueError
            else ret l
        end in
      let* _ := set_self (fun self => with_documents (documents self ++ docs) self) in
      let* _ := set_self (fun self =>
                  with_document_metadata (document_metadata self ++ md') self) in
      let* new_embeddings := embed_documents docs in
      let* new_embeddings_array := lift (np_array new_embeddings) in
      let* self := get_self in
      let* _ :=
        match embeddings self with
        | None => set_self (with_embeddings (Some new_embeddings_array))
        | Some old =>
            let* stacked := lift (np_vstack old new_embeddings_array) in
            set_self (with_embeddings (Some stacked))
        end in
      save_database
  end.

(** The loop of lines 163-169. *)
Fixpoint collect_hits (self : Store) (similarities : Vector F)
    (top_indices : list nat) : Exc (list (Hit F)) :=
  match top_indices with
  | [] => Ok []
  | idx :: rest =>
      match getitem (documents self) idx,
            getitem similarities idx,
            getitem (document_metadata self) idx with
      | Ok t, Ok s, Ok m =>
          match collect_hits self similarities rest with
          | Ok hits => Ok (mkHit t s m :: hits)
          | Raise e => Raise e
          end
      | Raise e, _, _ => Raise e
      | _, Raise e, _ => Raise e
      | _, _, Raise e => Raise e
      end
  end.

(** [np.argsort(similarities)[-k:][::-1]] with [k = min(top_k, n)]
    (lines 159-160). *)
Definition top_indices_of (similarities : Vector F) (top_k : Z) (n : nat)
  : list nat :=
  let k := Z.min top_k (Z.of_nat n) in
  rev (slice_from (- k) (argsort similarities)).

(** The embedding of the query as a one-row matrix (lines 146-153). *)
Definition embed_query (self : Store) (query : string) : Exc (Matrix F) :=
  if String.eqb (embedding_provider self) "google" then
    match model_embed_content (embedding_model self) query retrieval_query with
    | Ok query_result => np_array [query_result]
    | Raise e => Raise e
    end
  else
    match model_encode (embedding_model self) query with
    | Ok encoded => np_array [encoded]
    | Raise e => Raise e
    end.

(** [search(self, query, top_k=5)] (lines 130-174) *)
Definition search (query : string) (top_k : Z) : M F (list (Hit F)) :=
  let* self := get_self in
  match documents self, embeddings self with
  | [], _ => ret []
  | _ :: _, None => ret []
  | _ :: _, Some [] => ret []
  | _ :: _, Some ((_ :: _) as stored) =>
      try_except
        (let* query_embedding := lift (embed_query self query) in
         let* sims := lift (cosine_similarity query_embedding stored) in
         let* similarities := lift (getitem sims 0) in
         lift (collect_hits self similarities
                 (top_indices_of similarities top_k (length (documents self)))))
        (fun _ => ret [])
  end.

(** [clear(self)] (lines 212-226) *)
Definition clear : M F unit :=
  let* _ := set_self (with_documents []) in
  let* _ := set_self (with_document_metadata []) in
  let* _ := set_self (with_embeddings None) in
  try_except
    (let* self := get_self in
     let* w := get_world in
     match files w !! db_path self with
     | Some _ =>
         if remove_ok (db_path self)
         then set_world (fun w => with_files (delete (db_path self) (files w)) w)
         else raise OSError
     | None => ret tt
     end)
    (fun _ => ret tt).

(** [is_empty(self)] (lines 228-235) *)
Definition is_empty : M F bool :=
  let* self := get_self in
  ret (Nat.eqb (length (documents self)) 0
       || match embeddings self with None => true | Some _ => false end).

(** The model chosen by [__init__] (lines 33-54): the provider name and the
    model name as recorded, and the model object. *)
Definition init_model (provider name : string) : Exc (string * string * Model) :=
  if String.eqb provider "google" then
    if genai_available then Ok (provider, name, GenaiEmbedding)
    else if st_available name
         then Ok ("sentence_transformer", name, SentenceTransformer name)
         else Raise OSError
  else
    if st_available name then Ok (provider, name, SentenceTransformer name)
    else if st_available "paraphrase-MiniLM-L3-v2"
         then Ok (provider, "paraphrase-MiniLM-L3-v2",
                  SentenceTransformer "paraphrase-MiniLM-L3-v2")
         else Raise ValueError.

(** [VectorStore(embedding_provider, model_name, storage_dir)]
    (lines 14-57): the new object, or the exception that leaves none. *)
Definition init (provider name dir : string) (w : World F)
  : Exc Store * World F :=
  if negb (makedirs_ok dir) then (Raise OSError, w)
  else
    match init_model provider name with
    | Raise e => (Raise e, w)
    | Ok (provider', name', model) =>
        let self := mkVectorStore provider' name' dir [] [] None model in
        match load_database (self, w) with
        | (Ok _, (self', w')) => (Ok self', w')
        | (Raise e, (_, w')) => (Raise e, w')
        end
    end.

End Methods.

(** * Part 1, continued: the callers of the store *)

(** A Python [str] is a [string], one character per element. *)

Definition nl : string := String "010"%char EmptyString.
Definition dquote : string := String "034"%char EmptyString.

(** [str(v)] of a metadata value. *)
Definition py_str (v : Value) : string :=
  match v with
  | VNone => "None"
  | VStr s => s
  | VInt z => pretty z
  end.

(** ** modules/rag_engine.py *)

(** The generative backend: [genai.GenerativeModel(name)], which may
    raise, [model.generate_content(prompt).text] of the model constructed
    from a name, and [str(e)] of an exception. *)
Class Generative : Type := {
  construct_model : string -> Exc unit;
  generate_content : string -> string -> Exc string;
  exception_text : exn -> string
}.

(** A [RAGEngine]: the name in [self.model_name] and the model object in
    [self.model], given by the name it was constructed from. *)
Record RAGEngine : Type := mkRAGEngine {
  rag_model_name : string;
  rag_model : string
}.

(** The provenance line of a chunk (lines 35-41): nothing for empty
    metadata, the source when there is one, then the page when there is
    one. *)
Definition source_info (meta : Metadata) : string :=
  if Nat.eqb (size meta) 0 then ""
  else
    String.append
      match meta !! "source" with
      | Some v => String.append "Source: " (py_str v)
      | None => ""
      end
      match meta !! "page_num" with
      | Some v => String.append ", Page: " (py_str v)
      | None => ""
      end.

(** [f"[Document {i+1}] {source_info}\n{chunk['text']}\n"] (line 43) *)
Definition formatted_chunk (i : nat) (txt : string) (meta : Metadata) : string :=
  String.concat "" ["[Document "; pretty (i + 1); "] "; source_info meta; nl; txt; nl].

(** The prompt of lines 50-66. *)
Definition rag_prompt (context_text query : string) : string :=
  String.concat "" [
    nl;
    "        You are an AI assistant that answers questions based on the provided document excerpts.";
    nl; "        "; nl; "        Document excerpts:"; nl; "        ";
    context_text; nl; "        "; nl; "        User question: "; query; nl;
    "        "; nl; "        Instructions:"; nl;
    "        1. Answer the question based ONLY on the information provided in the document excerpts. and fulfill any demands of the user";
    nl;
    "        2. If the document excerpts don't contain enough information to answer the question, say ";
    dquote;
    "I don't have enough information to answer this question from provided document.";
    dquote; " and answer it by your knowledge"; nl;
    "        3. If you use information from a specific document excerpt, mention which document you're referring to.";
    nl; "        4. Keep your answer concise and to the point."; nl;
    "        5. Do not make up information that is not in the document excerpts.";
    nl; "        "; nl; "        Answer:"; nl; "        "
  ].

Definition no_information : string :=
  "I don't have any relevant information to answer this question.".
Definition apology : string :=
  "I encountered an error while trying to answer your question. Please try again.".

Section RagEngine.
Context {F : Type} {GE : Generative}.

(** [RAGEngine(model_name)] (lines 8-16) *)
Definition rag_init (name : string) : Exc RAGEngine :=
  match construct_model name with
  | Ok _ => Ok (mkRAGEngine name name)
  | Raise e => Raise e
  end.

(** [generate_response(self, query, context_chunks)] (lines 18-74) *)
Definition generate_response (self : RAGEngine) (query : string)
    (context_chunks : list (Hit F)) : string :=
  match context_chunks with
  | [] => no_information
  | _ :: _ =>
      let formatted_context :=
        imap (fun i chunk => formatted_chunk i (text chunk) (metadata chunk))
          context_chunks in
      let context_text := String.concat nl formatted_context in
      match generate_content (rag_model self) (rag_prompt context_text query) with
      | Ok response_text => response_text
      | Raise _ => apology
      end
  end.

(** [update_model(self, model_name)] (lines 76-92): the name is assigned
    before the model is constructed. *)
Definition update_model (name : string) (self : RAGEngine) : bool * RAGEngine :=
  match construct_model name with
  | Ok _ => (true, mkRAGEngine name name)
  | Raise _ => (false, mkRAGEngine name (rag_model self))
  end.

End RagEngine.

(** ** modules/pdf_processor.py *)

(** One entry of [metadata["pages"]]. *)
Record Page : Type := mkPage {
  page_num : nat;
  page_text : string
}.

(** What the key ["pages"] of a document's metadata holds: the list of
    pages, or a value of the PDF's own metadata that was stored under
    that key. *)
Inductive PagesEntry : Type :=
  | PageList (pages : list Page)
  | NotPages (v : Value).

(** The metadata dictionary of a document: the key ["pages"] apart, every
    other key in [doc_fields]. *)
Record DocMetadata : Type := mkDocMetadata {
  doc_fields : gmap string Value;
  doc_pages : option PagesEntry
}.

(** [{"text": ..., "metadata": ...}] *)
Record TextData : Type := mkTextData {
  td_text : string;
  td_metadata : DocMetadata
}.

(** [metadata[key] = v] *)
Definition doc_set (key : string) (v : Value) (d : DocMetadata) : DocMetadata :=
  if String.eqb key "pages"
  then mkDocMetadata (doc_fields d) (Some (NotPages v))
  else mkDocMetadata (<[key := v]> (doc_fields d)) (doc_pages d).

(** What opening and parsing a PDF gives: a failure before any page is
    looked at, or the outcome of [extract_text()] page by page and of
    [pdf_reader.metadata] (no metadata is the empty list). *)
Inductive PdfFile : Type :=
  | PdfUnreadable
  | PdfDocument (pages : list (Exc string)) (info : Exc (list (string * Value))).

(** PyPDF2, [str.lower] and the text splitter of langchain, by chunk size
    and overlap. *)
Class PdfLibrary : Type := {
  read_pdf : string -> PdfFile;
  str_lower : string -> string;
  split_text : nat -> nat -> string -> Exc (list string)
}.

(** What a function of this module can raise: an exception of a library,
    or the TypeError of iterating or indexing a value that is not a list
    of pages. *)
Inductive failure : Type :=
  | LibraryError (e : exn)
  | TypeError.

Inductive Result (A : Type) : Type :=
  | Returned (a : A)
  | Failed (f : failure).
Arguments Returned {A} a.
Arguments Failed {A} f.

(** [os.path.basename(path)] *)
Fixpoint has_slash (s : string) : bool :=
  match s with
  | EmptyString => false
  | String c rest => Ascii.eqb c "/"%char || has_slash rest
  end.
Fixpoint basename (path : string) : string :=
  match path with
  | EmptyString => EmptyString
  | String c rest =>
      if has_slash rest then basename rest
      else if Ascii.eqb c "/"%char then rest else path
  end.

(** [chunk in text] *)
Definition occurs_in (chunk txt : string) : bool :=
  match index 0 chunk txt with Some _ => true | None => false end.

(** The loop of lines 30-37 from page number [k+1] on: the text and the
    pages gathered, or [None] when a page raises. *)
Fixpoint read_pages (k : nat) (pages : list (Exc string)) (txt : string)
    (gathered : list Page) : string * option (list Page) :=
  match pages with
  | [] => (txt, Some gathered)
  | Raise _ :: _ => (txt, None)
  | Ok page_text :: rest =>
      read_pages (S k) rest
        (String.append txt (String.append page_text (String.append nl nl)))
        (gathered ++ [mkPage (k + 1) page_text])
  end.

(** The loop of lines 43-46. *)
Fixpoint copy_info {PL : PdfLibrary} (items : list (string * Value))
    (d : DocMetadata) : DocMetadata :=
  match items with
  | [] => d
  | (key, value) :: rest =>
      copy_info rest
        match key with
        | String "/" clean => doc_set (str_lower clean) value d
        | _ => d
        end
  end.

Section PdfProcessor.
Context {F : Type} {BE : Backend F} {PL : PdfLibrary}.

(** [extract_text_from_pdf(pdf_path)] (lines 6-50) *)
Definition extract_text_from_pdf (pdf_path : string) (w : World F)
  : TextData * World F :=
  let base :=
    mkDocMetadata
      (<["id" := VStr (uuid4 (uuids_drawn w))]>
         (<["path" := VStr pdf_path]>
            (<["source" := VStr (basename pdf_path)]> ∅)))
      None in
  let w' := mkWorld (files w) (uuids_drawn w + 1) in
  match read_pdf pdf_path with
  | PdfUnreadable => (mkTextData "" base, w')
  | PdfDocument pages info =>
      let counted := doc_set "total_pages" (VInt (Z.of_nat (length pages))) base in
      match read_pages 0 pages "" [] with
      | (txt, None) => (mkTextData txt counted, w')
      | (txt, Some gathered) =>
          let paged :=
            mkDocMetadata (doc_fields counted) (Some (PageList gathered)) in
          match info with
          | Raise _ => (mkTextData txt paged, w')
          | Ok items => (mkTextData txt (copy_info items paged), w')
          end
      end
  end.

(** The page number recorded for a chunk (lines 87-93): of the first page
    whose text contains the chunk. *)
Definition page_of (chunk : string) (pages : list Page) : option nat :=
  page_num <$> List.find (fun p => occurs_in chunk (page_text p)) pages.

(** The metadata of chunk [i] of [n], its id drawn as number [drawn]
    (lines 78-95); a ["pages"] entry that is not a list of pages raises
    unless it is the empty string. *)
Definition chunk_metadata (doc : DocMetadata) (drawn i n : nat) (chunk : string)
  : Result Metadata :=
  let chunk_md : Metadata :=
    <["chunk_id" := VStr (uuid4 drawn)]>
      (<["chunk_index" := VInt (Z.of_nat i)]>
         (<["document_id" := default VNone (doc_fields doc !! "id")]>
            (<["source" := default VNone (doc_fields doc !! "source")]>
               (<["total_chunks" := VInt (Z.of_nat n)]> ∅)))) in
  match doc_pages doc with
  | None => Returned chunk_md
  | Some (PageList pages) =>
      match page_of chunk pages with
      | Some k => Returned (<["page_num" := VInt (Z.of_nat k)]> chunk_md)
      | None => Returned chunk_md
      end
  | Some (NotPages (VStr EmptyString)) => Returned chunk_md
  | Some (NotPages _) => Failed TypeError
  end.

(** The loop of lines 77-95 from chunk [i] on. *)
Fixpoint chunks_metadata (doc : DocMetadata) (i n : nat) (chunks : list string)
    (w : World F) : Result (list Metadata) * World F :=
  match chunks with
  | [] => (Returned [], w)
  | chunk :: rest =>
      let w' := mkWorld (files w) (uuids_drawn w + 1) in
      match chunk_metadata doc (uuids_drawn w) i n chunk with
      | Failed f => (Failed f, w')
      | Returned md =>
          match chunks_metadata doc (S i) n rest w' with
          | (Returned mds, w'') => (Returned (md :: mds), w'')
          | (Failed f, w'') => (Failed f, w'')
          end
      end
  end.

(** [split_text_into_chunks(text_data, chunk_size, chunk_overlap)]
    (lines 52-97) *)
Definition split_text_into_chunks (text_data : TextData)
    (chunk_size chunk_overlap : nat) (w : World F)
  : Result (list string * list Metadata) * World F :=
  match split_text chunk_size chunk_overlap (td_text text_data) with
  | Raise e => (Failed (LibraryError e), w)
  | Ok chunks =>
      match chunks_metadata (td_metadata text_data) 0 (length chunks) chunks w with
      | (Returned metadata_list, w') => (Returned (chunks, metadata_list), w')
      | (Failed f, w') => (Failed f, w')
      end
  end.

End PdfProcessor.

(** ** app.py *)

(** An entry of the sources shown under an answer (lines 214-219). *)
Record Source (F : Type) : Type := mkSource {
  src_text : string;
  src_score : F;
  src_source : Value;
  src_page : Value
}.
Arguments mkSource {F}.
Arguments src_text {F}.
Arguments src_score {F}.
Arguments src_source {F}.
Arguments src_page {F}.

(** What [generate_response] of the app returns. *)
Record Reply (F : Type) : Type := mkReply {
  reply_text : string;
  reply_sources : option (list (Source F))
}.
Arguments mkReply {F}.
Arguments reply_text {F}.
Arguments reply_sources {F}.

(** A message of the chat history. *)
Record Message (F : Type) : Type := mkMessage {
  msg_role : string;
  msg_content : string;
  msg_sources : option (list (Source F))
}.
Arguments mkMessage {F}.
Arguments msg_role {F}.
Arguments msg_content {F}.
Arguments msg_sources {F}.

(** [st.session_state] *)
Record Session (F : Type) : Type := mkSession {
  vector_store : VectorStore F;
  rag_engine : RAGEngine;
  chat_history : list (Message F);
  current_model : string;
  uploaded_pdfs : list string;
  chat_mode : string;
  available_models : list string;
  processing_status : option string
}.
Arguments mkSession {F}.
Arguments vector_store {F}.
Arguments rag_engine {F}.
Arguments chat_history {F}.
Arguments current_model {F}.
Arguments uploaded_pdfs {F}.
Arguments chat_mode {F}.
Arguments available_models {F}.
Arguments processing_status {F}.

Definition upload_first : string :=
  "I don't have any relevant information to answer this question. Please upload a PDF with relevant content.".

Definition default_models : list string :=
  ["gemini-1.5-flash"; "gemini-1.5-pro"; "gemini-pro"].

(** What [requests.get("http://localhost:8000/models", timeout=5)] gives:
    an exception, or a status code with the outcome of
    [response.json()]. *)
Inductive ModelsEndpoint : Type :=
  | EndpointRaises
  | EndpointAnswers (status : Z) (json : Exc (list string)).

(** The temporary file of an upload: [NamedTemporaryFile] and the write
    give its path or raise; [os.unlink(path)] may raise. *)
Class TempFiles : Type := {
  write_temp : string -> Exc string;
  unlink : string -> Exc unit
}.

Section App.
Context {F : Type} {SF : Scalar F} {NU : Numeric F} {BE : Backend F}.
Context {GE : Generative} {PL : PdfLibrary} {TF : TempFiles}.

Definition with_vector_store (v : VectorStore F) (ses : Session F) : Session F :=
  mkSession v (rag_engine ses) (chat_history ses) (current_model ses)
    (uploaded_pdfs ses) (chat_mode ses) (available_models ses)
    (processing_status ses).
Definition with_rag_engine (r : RAGEngine) (ses : Session F) : Session F :=
  mkSession (vector_store ses) r (chat_history ses) (current_model ses)
    (uploaded_pdfs ses) (chat_mode ses) (available_models ses)
    (processing_status ses).
Definition with_current_model (m : string) (ses : Session F) : Session F :=
  mkSession (vector_store ses) (rag_engine ses) (chat_history ses) m
    (uploaded_pdfs ses) (chat_mode ses) (available_models ses)
    (processing_status ses).
Definition with_uploaded_pdfs (l : list string) (ses : Session F) : Session F :=
  mkSession (vector_store ses) (rag_engine ses) (chat_history ses)
    (current_model ses) l (chat_mode ses) (available_models ses)
    (processing_status ses).
Definition with_chat_mode (m : string) (ses : Session F) : Session F :=
  mkSession (vector_store ses) (rag_engine ses) (chat_history ses)
    (current_model ses) (uploaded_pdfs ses) m (available_models ses)
    (processing_status ses).
Definition with_available_models (l : list string) (ses : Session F) : Session F :=
  mkSession (vector_store ses) (rag_engine ses) (chat_history ses)
    (current_model ses) (uploaded_pdfs ses) (chat_mode ses) l
    (processing_status ses).
Definition with_processing_status (p : option string) (ses : Session F) : Session F :=
  mkSession (vector_store ses) (rag_engine ses) (chat_history ses)
    (current_model ses) (uploaded_pdfs ses) (chat_mode ses)
    (available_models ses) p.

(** The store that the app starts with (lines 87-92): the hosted provider
    is asked for first, the local one when that construction raises. *)
Definition app_new_store (w : World F) : Exc (VectorStore F) * World F :=
  match init "google" "all-MiniLM-L6-v2" "./vector_db" w with
  | (Ok store, w') => (Ok store, w')
  | (Raise _, w') =>
      init "sentence_transformer" "all-MiniLM-L6-v2" "./vector_db" w'
  end.

(** [get_available_models()] (lines 116-135) *)
Definition get_available_models (endpoint : ModelsEndpoint) (ses : Session F)
  : list string * Session F :=
  let cached_or_default :=
    match available_models ses with
    | [] => default_models
    | _ :: _ => available_models ses
    end in
  match endpoint with
  | EndpointRaises => (cached_or_default, ses)
  | EndpointAnswers status json =>
      if Z.eqb status 200 then
        match json with
        | Ok models => (models, with_available_models models ses)
        | Raise _ => (cached_or_default, ses)
        end
      else (cached_or_default, ses)
  end.

(** What [process_pdf] leaves when an exception reaches its handler
    (lines 173-178). *)
Definition process_failed (ses : Session F) (w : World F)
  : bool * (Session F * World F) :=
  (false, (with_processing_status None ses, w)).

(** [process_pdf(uploaded_file)] (lines 138-178), by the name of the
    uploaded file. *)
Definition process_pdf (name : string) (st : Session F * World F)
  : bool * (Session F * World F) :=
  let ses := fst st in
  match write_temp name with
  | Raise _ => process_failed ses (snd st)
  | Ok pdf_path =>
      let (text_data, w1) := extract_text_from_pdf pdf_path (snd st) in
      match split_text_into_chunks text_data 1000 200 w1 with
      | (Failed _, w2) => process_failed ses w2
      | (Returned (chunks, metadata_list), w2) =>
          match add_documents chunks (Some metadata_list) (vector_store ses, w2) with
          | (Raise _, (store, w3)) =>
              process_failed (with_vector_store store ses) w3
          | (Ok _, (store, w3)) =>
              let ses1 := with_vector_store store ses in
              let ses2 :=
                if bool_decide (name ∈ uploaded_pdfs ses1) then ses1
                else with_uploaded_pdfs (uploaded_pdfs ses1 ++ [name]) ses1 in
              match unlink pdf_path with
              | Raise _ => process_failed ses2 w3
              | Ok _ =>
                  (true,
                   (with_processing_status None (with_chat_mode "pdf" ses2), w3))
              end
          end
      end
  end.

(** [update_model(model_name)] of the app (lines 181-186): the result of
    the engine's [update_model] is not looked at. *)
Definition app_update_model (name : string) (ses : Session F) : bool * Session F :=
  if negb (String.eqb name (current_model ses)) then
    let ses1 := with_current_model name ses in
    (true, with_rag_engine (snd (update_model name (rag_engine ses1))) ses1)
  else (false, ses).

(** The source shown for a chunk (lines 212-220): none for a chunk whose
    metadata is empty. *)
Definition source_of (chunk : Hit F) : option (Source F) :=
  if Nat.eqb (size (metadata chunk)) 0 then None
  else
    Some (mkSource (String.append (substring 0 100 (text chunk)) "...")
            (score chunk)
            (default (VStr "Unknown") (metadata chunk !! "source"))
            (default (VStr "Unknown") (metadata chunk !! "page_num"))).

Definition error_reply (e : exn) : Reply F :=
  mkReply (String.append "Error generating response: " (exception_text e)) None.

(** [generate_response(user_question)] of the app (lines 189-225), on the
    session and the world; [None] is Python's [None], returned when the
    chat mode is neither of the two. *)
Definition app_generate_response (user_question : string)
    (st : Session F * World F) : option (Reply F) * (Session F * World F) :=
  let ses := fst st in
  if String.eqb (chat_mode ses) "general" then
    match construct_model (current_model ses) with
    | Raise e => (Some (error_reply e), st)
    | Ok _ =>
        match generate_content (current_model ses) user_question with
        | Ok response_text => (Some (mkReply response_text None), st)
        | Raise e => (Some (error_reply e), st)
        end
    end
  else if String.eqb (chat_mode ses) "pdf" then
    match search user_question 5 (vector_store ses, snd st) with
    | (Raise e, (store, w)) =>
        (Some (error_reply e), (with_vector_store store ses, w))
    | (Ok relevant_chunks, (store, w)) =>
        let ses' := with_vector_store store ses in
        match relevant_chunks with
        | [] => (Some (mkReply upload_first None), (ses', w))
        | _ :: _ =>
            let response_text :=
              generate_response (rag_engine ses') user_question relevant_chunks in
            let sources := omap source_of relevant_chunks in
            (Some (mkReply response_text (Some sources)), (ses', w))
        end
    end
  else (None, st).



End App.

(** * Part 2: the vocabulary of the statements *)

(** The order of scores is total and transitive. *)
Class ScalarOrder (F : Type) {SF : Scalar F} : Prop := {
  fle_total : forall a b : F, fle a b = true \/ fle b a = true;
  fle_trans : forall a b c : F,
    fle a b = true -> fle b c = true -> fle a c = true
}.

(** The documented behaviour of the two library functions.
    [cosine_similarity(X, Y)] has one row per row of [X] and one column per
    row of [Y].  [np.argsort(s)] is a permutation of the indices of [s]
    along which the values ascend; which of two equal values comes first
    is not part of the contract of the default sort kind. *)
Class NumericLaws (F : Type) {SF : Scalar F} {NU : Numeric F} : Prop := {
  cosine_similarity_shape : forall X Y S : Matrix F,
    cosine_similarity X Y = Ok S ->
    length S = length X /\ Forall (fun r => length r = length Y) S;
  argsort_perm : forall s : Vector F, argsort s ≡ₚ seq 0 (length s);
  argsort_sorted : forall s : Vector F,
    Sorted fleP (map (fun i => nth i s fzero) (argsort s))
}.

Section Vocabulary.
Context {F : Type} {SF : Scalar F} {NU : Numeric F} {BE : Backend F}.
Implicit Types (s : State F) (self : VectorStore F) (w : World F).
Implicit Types (query txt : string) (top_k : Z).

(** The store as [clear] leaves it. *)
Definition cleared self : VectorStore F :=
  with_embeddings None (with_document_metadata [] (with_documents [] self)).

(** The store [other] after it has read the dictionary [db]. *)
Definition installed (db : Database F) (other : VectorStore F) : VectorStore F :=
  with_embeddings (db_embeddings db)
    (with_document_metadata (default [] (db_document_metadata db))
       (with_documents (default [] (db_documents db)) other)).

(** The dictionary that [save_database] writes for a store. *)
Definition database_of self : Database F :=
  mkDatabase (Some (documents self)) (Some (document_metadata self))
    (embeddings self) (Some (embedding_provider self)) (Some (model_name self)).

(** The store after the downgrade to the local model. *)
Definition downgraded self : VectorStore F :=
  with_embedding_model (SentenceTransformer (model_name self))
    (with_embedding_provider "sentence_transformer" self).

(** Two store objects hold the same collection on the same directory: all
    that an embedding call may change is the provider and its model. *)
Definition same_collection (a b : VectorStore F) : Prop :=
  documents a = documents b /\
  document_metadata a = document_metadata b /\
  embeddings a = embeddings b /\
  storage_dir a = storage_dir b /\
  model_name a = model_name b.

(** The metadata that [add_documents] appends, and the world after the
    ids were drawn. *)
Definition appended_metadata (docs : list string) (md : option (list Metadata)) w
  : list Metadata * World F :=
  match md with
  | None => (default_metadata (uuids_drawn w) (length docs),
             mkWorld (files w) (uuids_drawn w + length docs))
  | Some l => (l, w)
  end.

(** [len(self.embeddings)], 0 when there is no matrix. *)
Definition rows (e : option (Matrix F)) : nat :=
  match e with Some m => length m | None => 0 end.

(** The score at an index of the similarity vector. *)
Definition score_at (sims : Vector F) (i : nat) : F := nth i sims fzero.

(** The hit [h] is the record stored at index [i], scored by [sims]. *)
Definition hit_of self (sims : Vector F) (i : nat) (h : Hit F) : Prop :=
  documents self !! i = Some (text h) /\
  sims !! i = Some (score h) /\
  document_metadata self !! i = Some (metadata h).

(** The similarity vector of a query against the stored matrix: the first
    row of the pairwise similarities, one score per stored vector. *)
Definition similarities_of self query (similarities : Vector F) : Prop :=
  exists qe stored sims,
    embeddings self = Some stored /\
    embed_query self query = Ok qe /\
    cosine_similarity qe stored = Ok sims /\
    sims !! 0 = Some similarities /\
    length similarities = length stored.

(** What a positive [top_k] guarantees of the hits of a search: at most
    [min(top_k, number of texts)] of them, in non-increasing order of
    score; unless there is none, they are the records at distinct indices
    [idxs], each with its own text, metadata and similarity score, as many
    as [min(min(top_k, number of texts), number of stored vectors)], and no
    stored record left out scores higher than a returned one; and they are
    exactly [min(top_k, number of texts)] when the texts, the metadata and
    the scored vectors are equally many. *)
Definition top_k_descending query top_k s (hits : list (Hit F)) : Prop :=
  length hits <= Z.to_nat (Z.min top_k (Z.of_nat (length (documents (fst s))))) /\
  StronglySorted (fun a b => fleP (score b) (score a)) hits /\
  (hits = [] \/
   exists similarities idxs,
     similarities_of (fst s) query similarities /\
     NoDup idxs /\
     Forall2 (hit_of (fst s) similarities) idxs hits /\
     length hits =
       Nat.min (Z.to_nat (Z.min top_k (Z.of_nat (length (documents (fst s))))))
               (length similarities) /\
     (forall j i, j < length similarities -> j ∉ idxs -> i ∈ idxs ->
                  fleP (score_at similarities j) (score_at similarities i))) /\
  (forall similarities,
     similarities_of (fst s) query similarities ->
     length (documents (fst s)) = length similarities ->
     length (document_metadata (fst s)) = length similarities ->
     length hits =
       Z.to_nat (Z.min top_k (Z.of_nat (length (documents (fst s)))))).

End Vocabulary.

(** ** Calls and well-formed states *)

(** A call of a method of the store. *)
Inductive Call : Type :=
  | call_embed_text (txt : string)
  | call_add_documents (docs : list string) (md : option (list Metadata))
  | call_search (query : string) (top_k : Z)
  | call_save_database
  | call_load_database
  | call_clear
  | call_is_empty.

(** The only method that mutates the store before a step that may still
    raise. *)
Definition may_abort_midway (c : Call) : bool :=
  match c with call_add_documents _ _ => true | _ => false end.

Definition is_ok {A} (r : Exc A) : bool :=
  match r with Ok _ => true | Raise _ => false end.

Section CallVocabulary.
Context {F : Type} {SF : Scalar F} {NU : Numeric F} {BE : Backend F}.
Implicit Types (s : State F) (self : VectorStore F) (w : World F).

(** The outcome of a call with its value forgotten. *)
Definition outcome {A} (r : Exc A * State F) : Exc unit * State F :=
  (match fst r with Ok _ => Ok tt | Raise e => Raise e end, snd r).

Definition run (c : Call) s : Exc unit * State F :=
  match c with
  | call_embed_text txt => outcome (embed_text txt s)
  | call_add_documents docs md => outcome (add_documents docs md s)
  | call_search query top_k => outcome (search query top_k s)
  | call_save_database => outcome (save_database s)
  | call_load_database => outcome (load_database s)
  | call_clear => outcome (clear s)
  | call_is_empty => outcome (is_empty s)
  end.

(** A sequence of calls, one after the other; [None] when an
    [add_documents] of the sequence raises. *)
Fixpoint run_all (cs : list Call) s : option (State F) :=
  match cs with
  | [] => Some s
  | c :: rest =>
      if may_abort_midway c && negb (is_ok (fst (run c s)))
      then None
      else run_all rest (snd (run c s))
  end.

(** As many metadata as texts, as many rows as texts, rows of one
    width. *)
Definition well_formed_collection (docs : list string) (md : list Metadata)
    (e : option (Matrix F)) : Prop :=
  length md = length docs /\
  rows e = length docs /\
  (forall m, e = Some m -> uniform m = true).

Definition well_formed self : Prop :=
  well_formed_collection (documents self) (document_metadata self)
    (embeddings self).

(** A file is well formed when it is unreadable or pickles a well-formed
    collection, as [load_database] would read it. *)
Definition well_formed_file (c : FileContent F) : Prop :=
  match c with
  | Pickle db =>
      well_formed_collection (default [] (db_documents db))
        (default [] (db_document_metadata db)) (db_embeddings db)
  | Unreadable => True
  end.

Definition well_formed_world w : Prop :=
  forall p c, files w !! p = Some c -> well_formed_file c.

Definition well_formed_state s : Prop :=
  well_formed (fst s) /\ well_formed_world (snd s).

(** How a call may change the provider: not at all, or from the hosted one
    to the local one. *)
Definition provider_step (a b : VectorStore F) : Prop :=
  (embedding_provider b = embedding_provider a /\
   embedding_model b = embedding_model a) \/
  (embedding_provider a = "google" /\
   embedding_provider b = "sentence_transformer").

(** The models that [__init__] can fall back on, by the provider asked
    for. *)
Definition some_model_available (provider name : string) : bool :=
  if String.eqb provider "google"
  then genai_available || st_available name
  else st_available name || st_available "paraphrase-MiniLM-L3-v2".

(** What the embedding loop stores for a text while the local model is
    active. *)
Definition local_row self (doc : string) : Vector F :=
  match model_encode (embedding_model self) doc with
  | Ok v => v
  | Raise _ => np_zeros 768
  end.

End CallVocabulary.

(** ** The callers *)

Section CallerVocabulary.
Context {PL : PdfLibrary}.

(** The value that the PDF's own metadata leaves under the key [k]: of
    the last entry whose name starts with ['/'] and is [k] once the slash
    is dropped and the rest lowered. *)
Fixpoint info_value (k : string) (items : list (string * Value)) : option Value :=
  match items with
  | [] => None
  | (key, value) :: rest =>
      match info_value k rest with
      | Some later => Some later
      | None =>
          match key with
          | String "/" clean =>
              if String.eqb (str_lower clean) k then Some value else None
          | _ => None
          end
      end
  end.

(** The keys that the metadata of a chunk can have. *)
Definition chunk_keys : list string :=
  ["chunk_id"; "chunk_index"; "document_id"; "source"; "total_chunks";
   "page_num"].

(** [chunk] is a substring of [txt]. *)
Definition substring_of (chunk txt : string) : Prop :=
  exists m, substring m (String.length chunk) txt = chunk.

(** The text of a PDF whose pages are [texts] (line 37). *)
Definition joined_pages (texts : list string) : string :=
  fold_right
    (fun t rest => String.append t (String.append nl (String.append nl rest)))
    "" texts.

(** The pages of a PDF whose pages are [texts], numbered from 1. *)
Definition numbered_pages (texts : list string) : list Page :=
  imap (fun i t => mkPage (i + 1) t) texts.

End CallerVocabulary.

(** * Part 3: a test instance over the rationals *)

(** ** A stable argsort

    The order that an insertion sort gives (the one numpy's default sort
    uses on short arrays): among equal values the smaller index first. *)

Section StableArgsort.
Context {F : Type} {SF : Scalar F}.

Fixpoint insert_index (s : Vector F) (i : nat) (sorted : list nat) : list nat :=
  match sorted with
  | [] => [i]
  | j :: rest =>
      if fle (nth i s fzero) (nth j s fzero)
      then i :: j :: rest
      else j :: insert_index s i rest
  end.

Fixpoint sort_indices (s : Vector F) (idxs : list nat) : list nat :=
  match idxs with
  | [] => []
  | i :: rest => insert_index s i (sort_indices s rest)
  end.

Definition stable_argsort (s : Vector F) : list nat :=
  sort_indices s (seq 0 (length s)).

(** Another ascending argsort: among equal values the larger index
    first. *)
Definition reversed_argsort (s : Vector F) : list nat :=
  sort_indices s (rev (seq 0 (length s))).

End StableArgsort.

(** ** Rational scalars and a rational cosine similarity *)

#[export] Instance Q_Scalar : Scalar Q := {|
  fzero := 0%Q;
  fle := Qle_bool
|}.

(** The square root of a rational whose numerator and denominator are
    squares (rounded down on each otherwise). *)
Definition Qsqrt (q : Q) : Q := Z.sqrt (Qnum q) # Pos.sqrt (Qden q).

Fixpoint dot (x y : Vector Q) : Q :=
  match x, y with
  | a :: x', b :: y' => (a * b + dot x' y')%Q
  | _, _ => 0%Q
  end.

(** The norm, with scikit-learn's convention that a zero norm divides
    as 1. *)
Definition norm (x : Vector Q) : Q :=
  let n := Qsqrt (Qred (dot x x)) in
  if Qeq_bool n 0 then 1%Q else n.

Definition cosine (x y : Vector Q) : Q := Qred (dot x y / (norm x * norm y)).

Definition pairwise_cosine (X Y : Matrix Q) : Exc (Matrix Q) :=
  if Nat.ltb 0 (length X) && Nat.ltb 0 (length Y) && uniform (X ++ Y)
  then Ok (map (fun x => map (cosine x) Y) X)
  else Raise ValueError.

#[export] Instance Q_Numeric : Numeric Q := {|
  cosine_similarity := pairwise_cosine;
  argsort := stable_argsort
|}.

(** The same library with the other argsort. *)
Definition Q_Numeric_reversed : Numeric Q := {|
  cosine_similarity := pairwise_cosine;
  argsort := reversed_argsort
|}.

(** ** A deterministic test backend

    Two local models: ["all-MiniLM-L6-v2"], whose vectors have 384 entries,
    and ["test-2d"], which maps texts about cats and animals to [[1,0]]
    and every other text to [[0,1]].  Both refuse the text
    ["corrupt chunk"].  The hosted model returns vectors of 768 entries and
    refuses texts that start with ["[offline]"].  Every file operation
    succeeds. *)

Definition demo_encode (name txt : string) : Exc (Vector Q) :=
  if String.eqb txt "corrupt chunk" then Raise ProviderError
  else if String.eqb name "all-MiniLM-L6-v2" then Ok (repeat 1%Q 384)
  else if String.prefix "cats" txt || String.eqb txt "tell me about animals"
       then Ok [1%Q; 0%Q]
       else Ok [0%Q; 1%Q].

Definition demo_embed_content (txt : string) (task : TaskType)
  : Exc (Vector Q) :=
  if String.prefix "[offline]" txt then Raise ProviderError
  else Ok (repeat 1%Q 768).

#[export] Instance demo_backend : Backend Q := {|
  genai_available := true;
  embed_content := demo_embed_content;
  st_available := fun _ => true;
  encode := demo_encode;
  uuid4 := fun n => String.append "uuid-" (pretty n);
  makedirs_ok := fun _ => true;
  write_outcome := fun _ => Written;
  remove_ok := fun _ => true
|}.

(** The same backend on a file system that refuses every write and every
    removal. *)
Definition readonly_backend : Backend Q := {|
  genai_available := true;
  embed_content := demo_embed_content;
  st_available := fun _ => true;
  encode := demo_encode;
  uuid4 := fun n => String.append "uuid-" (pretty n);
  makedirs_ok := fun _ => true;
  write_outcome := fun _ => OpenFails;
  remove_ok := fun _ => false
|}.

Definition empty_world : World Q := mkWorld ∅ 0.

(** A new store on the 2-entry test model, on the default local model and
    on the hosted model. *)
Definition test_store : VectorStore Q :=
  mkVectorStore "sentence_transformer" "test-2d" "./vector_db" [] [] None
    (SentenceTransformer "test-2d").
Definition minilm_store : VectorStore Q :=
  mkVectorStore "sentence_transformer" "all-MiniLM-L6-v2" "./vector_db" [] [] None
    (SentenceTransformer "all-MiniLM-L6-v2").
Definition google_store : VectorStore Q :=
  mkVectorStore "google" "all-MiniLM-L6-v2" "./vector_db" [] [] None
    GenaiEmbedding.

Definition source (name : string) : Metadata := {[ "source" := VStr name ]}.

(** ** Stores of the examples *)

(** Two texts about cats, which the test model embeds to the same vector,
    ingested with explicit metadata into a new store. *)
Definition twin_state : State Q :=
  snd (add_documents ["cats are mammals"; "cats purr"]
         (Some [source "a.pdf"; source "b.pdf"]) (test_store, empty_world)).

(** The scenario of the specification: a text about cats and a text about
    the stock market. *)
Definition pets_state : State Q :=
  snd (add_documents ["cats are mammals"; "the stock market fell today"]
         (Some [source "pets.pdf"; source "news.pdf"]) (test_store, empty_world)).

(** Two ordinary texts in a store on the default local model. *)
Definition minilm_state : State Q :=
  snd (add_documents ["alpha"; "beta"]
         (Some [source "a.pdf"; source "b.pdf"]) (minilm_store, empty_world)).

(** One ordinary text in a store on the default local model. *)
Definition minilm_one_state : State Q :=
  snd (add_documents ["alpha"] (Some [source "a.pdf"]) (minilm_store, empty_world)).

(** One text in a store on the hosted model. *)
Definition google_state : State Q :=
  snd (add_documents ["alpha"] (Some [source "a.pdf"]) (google_store, empty_world)).

(** A directory that holds a collection of one 3-entry vector, written
    under another model. *)
Definition foreign_database : Database Q :=
  mkDatabase (Some ["old text"]) (Some [source "old.pdf"])
    (Some [[1%Q; 0%Q; 0%Q]]) (Some "sentence_transformer") (Some "three-d").
Definition foreign_world : World Q :=
  mkWorld {[ "./vector_db/vector_db.pkl" := Pickle foreign_database ]} 0.

(** The rule of the specification for equal scores: of two hits whose
    scores tie, the one listed first was inserted first. *)
Definition ties_by_insertion_order (self : VectorStore Q) (hits : list (Hit Q))
  : Prop :=
  forall a b ha hb i j,
    a < b ->
    hits !! a = Some ha -> hits !! b = Some hb ->
    documents self !! i = Some (text ha) ->
    documents self !! j = Some (text hb) ->
    ftie (score ha) (score hb) = true ->
    i < j.

(** ** A test instance of the callers *)

(** The same backend on a file system on which every write is cut off
    after the file was opened. *)
Definition dumpfail_backend : Backend Q := {|
  genai_available := true;
  embed_content := demo_embed_content;
  st_available := fun _ => true;
  encode := demo_encode;
  uuid4 := fun n => String.append "uuid-" (pretty n);
  makedirs_ok := fun _ => true;
  write_outcome := fun _ => DumpFails;
  remove_ok := fun _ => true
|}.

(** A generative backend that knows every model but ["broken-model"] and
    answers with the name of the model. *)
#[export] Instance demo_generative : Generative := {|
  construct_model := fun name =>
    if String.eqb name "broken-model" then Raise ProviderError else Ok tt;
  generate_content := fun model prompt =>
    Ok (String.append "answer of " model);
  exception_text := fun _ => "model not found"
|}.

Definition lower_char (c : ascii) : ascii :=
  let n := nat_of_ascii c in
  if Nat.leb 65 n && Nat.leb n 90 then ascii_of_nat (n + 32) else c.

Fixpoint lower (s : string) : string :=
  match s with
  | EmptyString => EmptyString
  | String c rest => String (lower_char c) (lower rest)
  end.

(** A splitter that cuts at every blank line and drops empty pieces,
    whatever the sizes asked for. *)
Fixpoint paragraphs (s current : string) : list string :=
  match s with
  | EmptyString =>
      match current with EmptyString => [] | _ => [current] end
  | String "010" (String "010" rest) =>
      match current with
      | EmptyString => paragraphs rest ""
      | _ => current :: paragraphs rest ""
      end
  | String c rest => paragraphs rest (String.append current (String c ""))
  end.

(** Four files: a PDF of two pages with an author, a file that is no PDF,
    a PDF whose second page cannot be read, and a PDF whose own metadata
    has an entry [/Pages]. *)
Definition demo_read_pdf (path : string) : PdfFile :=
  if String.eqb path "/tmp/broken.pdf" then PdfUnreadable
  else if String.eqb path "/tmp/scan.pdf" then
    PdfDocument [Ok "cats are mammals"; Raise ProviderError; Ok "cats purr"]
      (Ok [("/Author", VStr "A. Writer")])
  else if String.eqb path "/tmp/pages.pdf" then
    PdfDocument [Ok "cats purr"] (Ok [("/Pages", VInt 1)])
  else
    PdfDocument [Ok "cats are mammals"; Ok "the stock market fell today"]
      (Ok [("/Author", VStr "A. Writer"); ("Producer", VStr "none")]).

#[export] Instance demo_pdf : PdfLibrary := {|
  read_pdf := demo_read_pdf;
  str_lower := lower;
  split_text := fun _ _ txt => Ok (paragraphs txt "")
|}.

(** Temporary files under [/tmp]; an upload named ["locked.pdf"] cannot be
    written, and the temporary file of ["keep.pdf"] cannot be removed. *)
#[export] Instance demo_temp : TempFiles := {|
  write_temp := fun name =>
    if String.eqb name "locked.pdf" then Raise OSError
    else Ok (String.append "/tmp/" name);
  unlink := fun path =>
    if String.eqb path "/tmp/keep.pdf" then Raise OSError else Ok tt
|}.

(** The session as the app creates it, over a store. *)
Definition session_over (store : VectorStore Q) : Session Q :=
  mkSession store (mkRAGEngine "gemini-1.5-flash" "gemini-1.5-flash") []
    "gemini-1.5-flash" [] "general" [] None.

Definition demo_session : Session Q := session_over test_store.

(** A session in PDF mode over the store of the scenario, and one over an
    empty store. *)
Definition pets_session : Session Q :=
  with_chat_mode "pdf" (session_over (fst pets_state)).
Definition empty_pdf_session : Session Q :=
  with_chat_mode "pdf" demo_session.

(** The extraction of the two-page PDF. *)
Definition notes_text_data : TextData :=
  fst (extract_text_from_pdf "/tmp/notes.pdf" empty_world).

(** The world after that extraction, and the chunks of the PDF with the
    metadata that the split gives them. *)
Definition notes_world : World Q :=
  snd (extract_text_from_pdf "/tmp/notes.pdf" empty_world).
Definition notes_chunks : list string :=
  ["cats are mammals"; "the stock market fell today"].
Definition cats_metadata : Metadata :=
  {[ "chunk_id" := VStr "uuid-1"; "chunk_index" := VInt 0;
     "document_id" := VStr "uuid-0"; "source" := VStr "notes.pdf";
     "total_chunks" := VInt 2; "page_num" := VInt 1 ]}.
Definition market_metadata : Metadata :=
  {[ "chunk_id" := VStr "uuid-2"; "chunk_index" := VInt 1;
     "document_id" := VStr "uuid-0"; "source" := VStr "notes.pdf";
     "total_chunks" := VInt 2; "page_num" := VInt 2 ]}.
Definition notes_metadata : list Metadata := [cats_metadata; market_metadata].
Definition notes_pages : list Page :=
  [mkPage 1 "cats are mammals"; mkPage 2 "the stock market fell today"].

(** * Part 4: properties *)

(** Unfolds the monad so that a method becomes a nest of matches. *)
Ltac run_monad :=
  unfold bind, ret, raise, try_except, lift, get_self, set_self,
    get_world, set_world in *; simpl in *.

Section Properties.
Context {F : Type} {SF : Scalar F} {NU : Numeric F} {BE : Backend F}.
Implicit Types (s : State F) (self : VectorStore F) (w : World F).
Implicit Types (query txt : string) (top_k : Z).

(** ** Search: frame and failure absorption *)

(** C10. For every store state, query and top_k, [search] leaves the store
    (texts, metadata, embedding matrix, provider name, model name, model
    object) and the world (every persisted file) exactly as they were,
    whether it returns hits or absorbs an internal failure. *)
Theorem search_leaves_state_unchanged query top_k s :
  snd (search query top_k s) = s /\
  documents (fst (snd (search query top_k s))) = documents (fst s) /\
  document_metadata (fst (snd (search query top_k s))) = document_metadata (fst s) /\
  embeddings (fst (snd (search query top_k s))) = embeddings (fst s) /\
  embedding_provider (fst (snd (search query top_k s))) = embedding_provider (fst s) /\
  model_name (fst (snd (search query top_k s))) = model_name (fst s) /\
  files (snd (snd (search query top_k s))) = files (snd s).
Proof.
  assert (snd (search query top_k s) = s) as ->; [|done].
  destruct s as [self w]. unfold search. run_monad.
  destruct (documents self); [done|].
  destruct (embeddings self) as [[|row stored]|]; [done| |done].
  destruct (embed_query self query) as [qe|]; [|done].
  destruct (cosine_similarity qe (row :: stored)) as [sims|]; [|done].
  destruct (getitem sims 0) as [similarities|]; [|done].
  by destruct (collect_hits _ _ _).
Qed.

(** C6. [search] never raises.  It returns the empty list on a store with
    no texts, on a store with no embedding matrix, when embedding the
    query fails and when the similarity computation fails. *)
Theorem search_never_raises query top_k s :
  (exists hits, fst (search query top_k s) = Ok hits) /\
  (documents (fst s) = [] -> fst (search query top_k s) = Ok []) /\
  (embeddings (fst s) = None -> fst (search query top_k s) = Ok []) /\
  (forall e, embed_query (fst s) query = Raise e ->
             fst (search query top_k s) = Ok []) /\
  (forall qe stored e,
     embeddings (fst s) = Some stored ->
     embed_query (fst s) query = Ok qe ->
     cosine_similarity qe stored = Raise e ->
     fst (search query top_k s) = Ok []).
Proof.
  destruct s as [self w]. unfold search. run_monad.
  destruct (documents self) as [|d ds]; [by eauto 10|].
  destruct (embeddings self) as [[|row stored]|]; [by eauto 10| |by eauto 10].
  destruct (embed_query self query) as [qe|eq] eqn:Hq; simpl.
  2:{ repeat split; eauto; done. }
  destruct (cosine_similarity qe (row :: stored)) as [sims|ec] eqn:Hc; simpl.
  2:{ repeat split; eauto; done. }
  assert (forall qe' stored' (e : exn),
            Some (row :: stored) = Some stored' -> Ok qe = Ok qe' ->
            cosine_similarity qe' stored' = Raise e -> False) as Hno.
  { intros ? ? ? [= <-] [= <-]. by rewrite Hc. }
  destruct (getitem sims 0) as [similarities|]; simpl.
  2:{ repeat split; eauto; try done; intros; by exfalso; eauto. }
  destruct (collect_hits _ _ _) as [hits|]; simpl;
    repeat split; eauto; try done; intros; by exfalso; eauto.
Qed.

(** ** Ingestion with explicit metadata of the wrong length *)

Lemma add_documents_rejects docs md s :
  length md <> length docs ->
  add_documents docs (Some md) s =
    (match docs with [] => Ok tt | _ :: _ => Raise ValueError end, s).
Proof.
  intros Hlen. unfold add_documents. destruct docs as [|d docs]; [done|].
  run_monad.
  destruct (Nat.eqb (length md) (S (length docs))) eqn:E; [|done].
  apply Nat.eqb_eq in E. simpl in Hlen. lia.
Qed.

(** C5 (amended). When the metadata given to [add_documents] differs in
    length from the texts, nothing is mutated: the texts, the metadata, the
    matrix, the provider and every file are as before.  The call raises
    ValueError when there is at least one text; with no text it returns
    normally, the emptiness test coming first. *)
Theorem add_documents_length_mismatch docs md s :
  length md <> length docs ->
  snd (add_documents docs (Some md) s) = s /\
  (docs <> [] -> fst (add_documents docs (Some md) s) = Raise ValueError) /\
  (docs = [] -> fst (add_documents docs (Some md) s) = Ok tt).
Proof.
  intros Hlen. rewrite (add_documents_rejects _ _ _ Hlen). simpl.
  split; [done|]. split.
  - intros Hne. by destruct docs.
  - by intros ->.
Qed.

(** ** Clearing *)

Lemma with_files_same w : with_files (files w) w = w.
Proof. by destruct w. Qed.

Lemma clear_removes self w :
  remove_ok (db_path self) = true ->
  clear (self, w) =
    (Ok tt, (cleared self, with_files (delete (db_path self) (files w)) w)).
Proof.
  intros Hrm. unfold clear. run_monad.
  change (db_path (with_embeddings None _)) with (db_path self).
  destruct (files w !! db_path self) eqn:Hfile.
  - by rewrite Hrm.
  - by rewrite delete_id, with_files_same.
Qed.

Lemma load_database_missing self w :
  files w !! db_path self = None ->
  load_database (self, w) = (Ok false, (self, w)).
Proof. intros Hfile. unfold load_database. run_monad. by rewrite Hfile. Qed.

Lemma search_no_documents query top_k self w :
  documents self = [] -> search query top_k (self, w) = (Ok [], (self, w)).
Proof. intros Hd. unfold search. run_monad. by rewrite Hd. Qed.

(** C9. After [clear], provided the operating system does not refuse the
    removal of the file: the texts, the metadata and the matrix are empty,
    [is_empty] answers true, the persisted file is gone, a load finds
    nothing and leaves the store empty, and every search returns the empty
    list. *)
Theorem clear_empties_store_and_file s :
  remove_ok (db_path (fst s)) = true ->
  fst (clear s) = Ok tt /\
  documents (fst (snd (clear s))) = [] /\
  document_metadata (fst (snd (clear s))) = [] /\
  embeddings (fst (snd (clear s))) = None /\
  is_empty (snd (clear s)) = (Ok true, snd (clear s)) /\
  files (snd (snd (clear s))) !! db_path (fst (snd (clear s))) = None /\
  load_database (snd (clear s)) = (Ok false, snd (clear s)) /\
  (forall query top_k,
     search query top_k (snd (clear s)) = (Ok [], snd (clear s))).
Proof.
  destruct s as [self w]. simpl. intros Hrm.
  rewrite (clear_removes _ _ Hrm). simpl.
  assert (files (with_files (delete (db_path self) (files w)) w)
            !! db_path (cleared self) = None) as Hgone.
  { simpl. apply lookup_delete_eq. }
  repeat split;
    first [ done
          | by apply load_database_missing
          | intros; by apply search_no_documents ].
Qed.

(** ** Persistence *)

Lemma save_database_written self w :
  write_outcome (db_path self) = Written ->
  save_database (self, w) =
    (Ok tt, (self, with_files (<[db_path self := Pickle (database_of self)]> (files w)) w)).
Proof. intros Hw. unfold save_database. run_monad. by rewrite Hw. Qed.

(** What [load_database] does, by what is at the path: a readable pickle is
    installed as it is, anything else leaves the store alone. *)
Lemma load_database_cases self w :
  load_database (self, w) =
    match files w !! db_path self with
    | Some (Pickle db) => (Ok true, (installed db self, w))
    | Some Unreadable => (Ok false, (self, w))
    | None => (Ok false, (self, w))
    end.
Proof.
  unfold load_database. run_monad.
  by destruct (files w !! db_path self) as [[db|]|].
Qed.

(** C7. Save then load.  When the write succeeds, [save_database] leaves
    the store as it is, and loading the file into any other store object
    on the same storage directory, in particular into a newly constructed
    one, gives the same texts, the same metadata and the same matrix, in
    the same order. *)
Theorem save_then_load_roundtrip s :
  write_outcome (db_path (fst s)) = Written ->
  fst (save_database s) = Ok tt /\
  fst (snd (save_database s)) = fst s /\
  (forall other,
     storage_dir other = storage_dir (fst s) ->
     let loaded := load_database (other, snd (snd (save_database s))) in
     fst loaded = Ok true /\
     documents (fst (snd loaded)) = documents (fst s) /\
     document_metadata (fst (snd loaded)) = document_metadata (fst s) /\
     embeddings (fst (snd loaded)) = embeddings (fst s) /\
     snd (snd loaded) = snd (snd (save_database s))) /\
  (forall provider name fresh w',
     init provider name (storage_dir (fst s)) (snd (snd (save_database s)))
       = (Ok fresh, w') ->
     documents fresh = documents (fst s) /\
     document_metadata fresh = document_metadata (fst s) /\
     embeddings fresh = embeddings (fst s) /\
     w' = snd (snd (save_database s))).
Proof.
  destruct s as [self w]. simpl. intros Hw.
  rewrite (save_database_written _ _ Hw). simpl.
  assert (forall other, storage_dir other = storage_dir self ->
            load_database
              (other, with_files (<[db_path self := Pickle (database_of self)]> (files w)) w)
            = (Ok true, (installed (database_of self) other,
                 with_files (<[db_path self := Pickle (database_of self)]> (files w)) w)))
    as Hload.
  { intros other Hdir. rewrite load_database_cases. simpl.
    unfold db_path. rewrite Hdir. fold (db_path self).
    by rewrite lookup_insert_eq. }
  split; [done|]. split; [done|]. split.
  - intros other Hdir. rewrite (Hload other Hdir). by repeat split.
  - intros provider name fresh w'. unfold init.
    destruct (makedirs_ok _); simpl; [|done].
    destruct (init_model provider name) as [[[p n] m]|]; [|done].
    rewrite Hload by done. by intros [= <- <-].
Qed.

(** ** The provider fallback of [embed_text] *)

Lemma embed_text_local txt self w :
  String.eqb (embedding_provider self) "google" = false ->
  embed_text txt (self, w) = (model_encode (embedding_model self) txt, (self, w)).
Proof. intros Hp. unfold embed_text. run_monad. by rewrite Hp. Qed.

(** C4 (amended). A document embedding through [embed_text] while the
    hosted provider is active: if the hosted call raises and the local
    model can be constructed, the store switches to the local model, the
    text is embedded again with it (the result, value or exception, is the
    local model's), and nothing else changes.  The switch is permanent:
    every later [embed_text] goes to the local model and leaves the store
    as it is. *)
Theorem embed_text_downgrades_once txt s e :
  embedding_provider (fst s) = "google" ->
  embedding_model (fst s) = GenaiEmbedding ->
  embed_content txt retrieval_document = Raise e ->
  st_available (model_name (fst s)) = true ->
  embed_text txt s =
    (encode (model_name (fst s)) txt, (downgraded (fst s), snd s)) /\
  embedding_provider (downgraded (fst s)) = "sentence_transformer" /\
  forall txt',
    embed_text txt' (downgraded (fst s), snd s) =
      (encode (model_name (fst s)) txt', (downgraded (fst s), snd s)).
Proof.
  destruct s as [self w]. simpl. intros Hp Hm He Hst.
  split; [|split; [done|]].
  - unfold embed_text, new_SentenceTransformer. run_monad.
    rewrite Hp, Hm. simpl. rewrite He, Hst. simpl.
    by destruct (encode (model_name self) txt).
  - intros txt'. by rewrite embed_text_local.
Qed.

(** ** Ingestion *)

Lemma same_collection_refl self : same_collection self self.
Proof. by repeat split. Qed.

Lemma same_collection_trans (a b c : VectorStore F) :
  same_collection a b -> same_collection b c -> same_collection a c.
Proof.
  intros (?&?&?&?&?) (?&?&?&?&?). repeat split; congruence.
Qed.

Lemma embed_text_frame txt self w :
  exists r self',
    embed_text txt (self, w) = (r, (self', w)) /\ same_collection self' self.
Proof.
  unfold embed_text, new_SentenceTransformer. run_monad.
  destruct (String.eqb (embedding_provider self) "google").
  2:{ eauto using same_collection_refl. }
  destruct (model_embed_content _ _ _).
  { eauto using same_collection_refl. }
  destruct (is_SentenceTransformer (embedding_model self)); simpl.
  { eauto using same_collection_refl. }
  destruct (st_available (model_name self)); simpl.
  - do 2 eexists. split; [reflexivity|]. by repeat split.
  - do 2 eexists. split; [reflexivity|]. by repeat split.
Qed.

(** The embedding loop never raises and yields one vector per text. *)
Lemma embed_documents_total docs self w :
  exists rows self',
    embed_documents docs (self, w) = (Ok rows, (self', w)) /\
    length rows = length docs /\
    same_collection self' self.
Proof.
  revert self. induction docs as [|doc docs IH]; intros self; simpl.
  { exists [], self. eauto using same_collection_refl. }
  run_monad.
  destruct (embed_text_frame doc self w) as (r & self1 & -> & Hsame1).
  destruct (IH self1) as (rows & self2 & Hrows & Hlen & Hsame2).
  destruct r as [v|e]; simpl; rewrite Hrows; simpl;
    eexists (_ :: rows), self2;
    (split; [reflexivity|]); (split; [simpl; by rewrite Hlen|]);
    eauto using same_collection_trans.
Qed.

(** Saving never raises and never touches the store object. *)
Lemma save_database_frame self w :
  exists w', save_database (self, w) = (Ok tt, (self, w')) /\
             uuids_drawn w' = uuids_drawn w.
Proof.
  unfold save_database. run_monad.
  destruct (write_outcome (db_path self)); simpl; eauto.
Qed.

Lemma np_array_uniform (rows m : Matrix F) :
  np_array rows = Ok m -> m = rows /\ uniform m = true.
Proof.
  unfold np_array. destruct (uniform rows) eqn:Hu; [|done].
  by intros [= <-].
Qed.

Lemma np_vstack_uniform (a b m : Matrix F) :
  np_vstack a b = Ok m -> m = a ++ b /\ uniform m = true.
Proof.
  unfold np_vstack. destruct (uniform (a ++ b)) eqn:Hu; [|done].
  by intros [= <-].
Qed.

Lemma np_array_raises (rows : Matrix F) e :
  np_array rows = Raise e -> e = ValueError.
Proof. unfold np_array. destruct (uniform rows); congruence. Qed.

Lemma np_vstack_raises (a b : Matrix F) e :
  np_vstack a b = Raise e -> e = ValueError.
Proof. unfold np_vstack. destruct (uniform (a ++ b)); congruence. Qed.

(** [add_documents] on a non-empty batch with acceptable metadata, read off
    the outcome of its embedding loop. *)
Lemma add_documents_unfold docs md self w rows self2 :
  docs <> [] ->
  (forall l, md = Some l -> length l = length docs) ->
  let md' := fst (appended_metadata docs md w) in
  let w1 := snd (appended_metadata docs md w) in
  embed_documents docs
    (with_document_metadata (document_metadata self ++ md')
       (with_documents (documents self ++ docs) self), w1)
    = (Ok rows, (self2, w1)) ->
  add_documents docs md (self, w) =
    match np_array rows with
    | Raise e => (Raise e, (self2, w1))
    | Ok arr =>
        match embeddings self2 with
        | None => save_database (with_embeddings (Some arr) self2, w1)
        | Some old =>
            match np_vstack old arr with
            | Raise e => (Raise e, (self2, w1))
            | Ok stacked => save_database (with_embeddings (Some stacked) self2, w1)
            end
        end
    end.
Proof.
  intros Hne Hmd md' w1 Hloop. subst md' w1.
  unfold add_documents. destruct docs as [|d docs]; [done|].
  run_monad.
  destruct md as [l|]; simpl in *.
  - rewrite (Hmd l eq_refl), Nat.eqb_refl. simpl. rewrite Hloop.
    destruct (np_array rows) as [arr|]; [simpl|done].
    destruct (embeddings self2) as [old|]; [|done].
    by destruct (np_vstack old arr).
  - rewrite Hloop.
    destruct (np_array rows) as [arr|]; [simpl|done].
    destruct (embeddings self2) as [old|]; [|done].
    by destruct (np_vstack old arr).
Qed.

(** The same, with the embedding loop run: the loop gives one row per
    text and leaves the collection as the two appends made it. *)
Lemma add_documents_outcome docs md self w :
  docs <> [] ->
  (forall l, md = Some l -> length l = length docs) ->
  let md' := fst (appended_metadata docs md w) in
  let w1 := snd (appended_metadata docs md w) in
  exists rows self2,
    length rows = length docs /\
    documents self2 = documents self ++ docs /\
    document_metadata self2 = document_metadata self ++ md' /\
    embeddings self2 = embeddings self /\
    storage_dir self2 = storage_dir self /\
    files w1 = files w /\
    add_documents docs md (self, w) =
      match np_array rows with
      | Raise e => (Raise e, (self2, w1))
      | Ok arr =>
          match embeddings self2 with
          | None => save_database (with_embeddings (Some arr) self2, w1)
          | Some old =>
              match np_vstack old arr with
              | Raise e => (Raise e, (self2, w1))
              | Ok stacked =>
                  save_database (with_embeddings (Some stacked) self2, w1)
              end
          end
      end.
Proof.
  intros Hne Hmd md' w1.
  destruct (embed_documents_total docs
              (with_document_metadata (document_metadata self ++ md')
                 (with_documents (documents self ++ docs) self)) w1)
    as (rows & self2 & Hloop & Hlen & Hd & Hm & He & Hdir & _).
  exists rows, self2. repeat split; try done.
  - subst w1. by destruct md.
  - by apply add_documents_unfold.
Qed.

(** Replaces the final [save_database] of a goal by its outcome. *)
Ltac saved :=
  match goal with
  | |- context [save_database (?a, ?b)] =>
      let w' := fresh "w'" in
      destruct (save_database_frame a b) as (w' & -> & _)
  end.

(** Either the metadata is acceptable or the call is the rejected one. *)
Lemma metadata_acceptable_dec (docs : list string) (md : option (list Metadata)) :
  (forall l, md = Some l -> length l = length docs) \/
  (exists l, md = Some l /\ length l <> length docs).
Proof.
  destruct md as [l|]; [|by left].
  destruct (decide (length l = length docs)) as [Heq|Hne].
  - left. by intros ? [= <-].
  - right. eauto.
Qed.

(** C8 (amended). Dimensions are never compared with the active provider.
    [load_database] installs a readable persisted collection exactly as it
    is, whatever the width of its vectors, and reports success.  On append
    a mismatch is met only by numpy: [add_documents] raises nothing but
    ValueError, and when it raises the matrix and the files are as before
    the call; when it returns on a non-empty batch the stored matrix has
    rows of one width. *)
Theorem dimensions_checked_only_by_stacking :
  (forall self w db,
     files w !! db_path self = Some (Pickle db) ->
     load_database (self, w) = (Ok true, (installed db self, w)) /\
     embeddings (installed db self) = db_embeddings db) /\
  (forall docs md s e,
     fst (add_documents docs md s) = Raise e ->
     e = ValueError /\
     embeddings (fst (snd (add_documents docs md s))) = embeddings (fst s) /\
     files (snd (snd (add_documents docs md s))) = files (snd s)) /\
  (forall docs md s,
     docs <> [] ->
     fst (add_documents docs md s) = Ok tt ->
     exists m, embeddings (fst (snd (add_documents docs md s))) = Some m /\
               uniform m = true).
Proof.
  split; [|split].
  - intros self w db Hfile. rewrite load_database_cases, Hfile. done.
  - intros docs md [self w] e. simpl.
    destruct docs as [|d docs]; [done|].
    destruct (metadata_acceptable_dec (d :: docs) md) as [Hmd|(l & -> & Hl)].
    2:{ rewrite add_documents_rejects by done. by intros [= <-]. }
    destruct (add_documents_outcome (d :: docs) md self w) as
      (rows & self2 & _ & _ & _ & He & _ & Hf & ->); [done|done|].
    destruct (np_array rows) as [arr|e'] eqn:Harr; simpl.
    2:{ intros [= <-]. apply np_array_raises in Harr. by repeat split. }
    destruct (embeddings self2) as [old|] eqn:Hold.
    + destruct (np_vstack old arr) as [stacked|e'] eqn:Hst; simpl.
      * saved.
        done.
      * intros [= <-]. apply np_vstack_raises in Hst.
        repeat split; congruence.
    + saved.
      done.
  - intros docs md [self w] Hne. simpl.
    destruct (metadata_acceptable_dec docs md) as [Hmd|(l & -> & Hl)].
    2:{ rewrite add_documents_rejects by done. by destruct docs. }
    destruct (add_documents_outcome docs md self w) as
      (rows & self2 & _ & _ & _ & He & _ & Hf & ->); [done|done|].
    destruct (np_array rows) as [arr|e'] eqn:Harr; simpl; [|done].
    apply np_array_uniform in Harr as [-> Hu].
    destruct (embeddings self2) as [old|] eqn:Hold.
    + destruct (np_vstack old rows) as [stacked|e'] eqn:Hst; simpl; [|done].
      apply np_vstack_uniform in Hst as [-> Hu'].
      saved.
      simpl. eauto.
    + saved.
      simpl. eauto.
Qed.

(** ** Growth of the collection *)

Lemma default_metadata_length drawn n : length (default_metadata drawn n) = n.
Proof. unfold default_metadata. by rewrite List.length_map, length_seq. Qed.

(** When [add_documents] returns normally on a non-empty batch, the texts,
    the metadata and the matrix have each grown by the size of the batch,
    the new texts at the end and in order. *)
Theorem add_documents_grows_by_batch docs md s :
  docs <> [] ->
  fst (add_documents docs md s) = Ok tt ->
  documents (fst (snd (add_documents docs md s))) = documents (fst s) ++ docs /\
  length (document_metadata (fst (snd (add_documents docs md s))))
    = length (document_metadata (fst s)) + length docs /\
  rows (embeddings (fst (snd (add_documents docs md s))))
    = rows (embeddings (fst s)) + length docs.
Proof.
  destruct s as [self w]. simpl. intros Hne.
  destruct (metadata_acceptable_dec docs md) as [Hmd|(l & -> & Hl)].
  2:{ rewrite add_documents_rejects by done. by destruct docs. }
  destruct (add_documents_outcome docs md self w) as
    (new & self2 & Hlen & Hd & Hm & He & _ & _ & ->); [done|done|].
  assert (length (fst (appended_metadata docs md w)) = length docs) as Hmdlen.
  { destruct md as [l|]; simpl; [by apply Hmd|apply default_metadata_length]. }
  destruct (np_array new) as [arr|e'] eqn:Harr; simpl; [|done].
  apply np_array_uniform in Harr as [-> _].
  destruct (embeddings self2) as [old|] eqn:Hold.
  - destruct (np_vstack old new) as [stacked|e'] eqn:Hst; simpl; [|done].
    apply np_vstack_uniform in Hst as [-> _].
    saved. simpl. intros _. rewrite Hd, Hm, <- He. simpl.
    by rewrite !length_app, Hmdlen, Hlen.
  - saved. simpl. intros _. rewrite Hd, Hm, <- He. simpl.
    by rewrite !length_app, Hmdlen, Hlen.
Qed.

(** An empty batch is a no-op. *)
Theorem add_documents_empty_batch md s : add_documents [] md s = (Ok tt, s).
Proof. done. Qed.

(** ** Ranking *)

Section Ranking.
Context {SO : ScalarOrder F} {NL : NumericLaws F}.

#[local] Instance fleP_transitive : Transitive (fleP (F := F)).
Proof. intros a b c. apply fle_trans. Qed.

Lemma slice_from_last {A} (k : Z) (l : list A) :
  (1 <= k)%Z ->
  slice_from (- k) l = drop (length l - Z.to_nat k) l.
Proof.
  intros Hk. unfold slice_from.
  destruct (Z.ltb_spec (- k) 0) as [_|?]; [|lia].
  f_equal. lia.
Qed.

Lemma StronglySorted_rev {A} (R : relation A) (l : list A) :
  StronglySorted R l -> StronglySorted (flip R) (rev l).
Proof.
  induction 1 as [|x l Hl IH Hx]; simpl; [constructor|].
  apply StronglySorted_app_2; [|done|by repeat constructor].
  intros x1 x2 Hx1 ->%list_elem_of_singleton.
  apply list_elem_of_In, in_rev, list_elem_of_In in Hx1.
  unfold flip. by eapply Forall_forall in Hx.
Qed.

Lemma argsort_length (sims : Vector F) : length (argsort sims) = length sims.
Proof. by rewrite (Permutation_length (argsort_perm sims)), length_seq. Qed.

Lemma argsort_elem_of (sims : Vector F) i :
  i ∈ argsort sims <-> i < length sims.
Proof. rewrite (argsort_perm sims), elem_of_seq. lia. Qed.

Lemma argsort_strongly_sorted (sims : Vector F) :
  StronglySorted fleP (map (score_at sims) (argsort sims)).
Proof. apply Sorted_StronglySorted; [apply _|]. apply argsort_sorted. Qed.

(** The indices that [search] reports, for a positive [top_k] and a
    non-empty store. *)
Lemma top_indices_of_spec (sims : Vector F) top_k n :
  (1 <= top_k)%Z -> 1 <= n ->
  let idxs := top_indices_of sims top_k n in
  length idxs = Nat.min (Z.to_nat (Z.min top_k (Z.of_nat n))) (length sims) /\
  NoDup idxs /\
  (forall i, i ∈ idxs -> i < length sims) /\
  StronglySorted (flip fleP) (map (score_at sims) idxs) /\
  (forall j i, j < length sims -> j ∉ idxs -> i ∈ idxs ->
               fleP (score_at sims j) (score_at sims i)).
Proof.
  intros Hk Hn idxs. subst idxs. unfold top_indices_of.
  set (k := Z.min top_k (Z.of_nat n)).
  assert (1 <= k)%Z as Hk' by lia.
  rewrite slice_from_last by done.
  set (d := length (argsort sims) - Z.to_nat k).
  pose proof (argsort_strongly_sorted sims) as Hsorted.
  rewrite <- (take_drop d (argsort sims)), map_app in Hsorted.
  apply StronglySorted_app in Hsorted as (Hcross & _ & Hsuffix).
  assert (forall i, i ∈ rev (drop d (argsort sims)) <-> i ∈ drop d (argsort sims))
    as Hrev.
  { intros i. by rewrite !list_elem_of_In, <- in_rev. }
  repeat split.
  - rewrite length_rev, length_drop. subst d. rewrite argsort_length. lia.
  - rewrite <- Permutation_rev.
    apply (sublist_NoDup _ (argsort sims)); [|apply sublist_drop].
    rewrite (argsort_perm sims). apply NoDup_seq.
  - intros i Hi%Hrev. apply argsort_elem_of.
    rewrite <- (take_drop d (argsort sims)). apply elem_of_app. by right.
  - rewrite map_rev. by apply StronglySorted_rev.
  - intros j i Hj Hnot Hi%Hrev.
    apply Hcross.
    + apply list_elem_of_In, in_map, list_elem_of_In.
      assert (j ∈ take d (argsort sims) ++ drop d (argsort sims)) as Hin.
      { rewrite take_drop. by apply argsort_elem_of. }
      apply elem_of_app in Hin as [Hin|Hin]; [done|].
      exfalso. apply Hnot. by apply Hrev.
    + by apply list_elem_of_In, in_map, list_elem_of_In.
Qed.

Lemma getitem_Ok {A} (l : list A) i x : getitem l i = Ok x <-> l !! i = Some x.
Proof. unfold getitem. destruct (l !! i); split; congruence. Qed.

Lemma collect_hits_Ok self sims idxs hits :
  collect_hits self sims idxs = Ok hits ->
  Forall2 (hit_of self sims) idxs hits.
Proof.
  revert hits. induction idxs as [|i idxs IH]; simpl; intros hits.
  { intros [= <-]. constructor. }
  destruct (getitem (documents self) i) as [t|] eqn:Ht; [|done].
  destruct (getitem sims i) as [x|] eqn:Hx; [|done].
  destruct (getitem (document_metadata self) i) as [m|] eqn:Hm; [|done].
  destruct (collect_hits self sims idxs) as [rest|]; [|done].
  intros [= <-]. constructor; [|by apply IH].
  apply getitem_Ok in Ht, Hx, Hm. by repeat split.
Qed.

Lemma collect_hits_in_range self sims idxs :
  (forall i, i ∈ idxs ->
     i < length (documents self) /\ i < length sims /\
     i < length (document_metadata self)) ->
  exists hits, collect_hits self sims idxs = Ok hits.
Proof.
  induction idxs as [|i idxs IH]; simpl; intros Hrange; [eauto|].
  destruct (Hrange i) as (Hd & Hs & Hm); [by left|].
  apply lookup_lt_is_Some in Hd as [t Ht], Hs as [x Hx], Hm as [m Hm'].
  unfold getitem. rewrite Ht, Hx, Hm'.
  destruct IH as [rest ->]; [|eauto].
  intros j Hj. apply Hrange. by right.
Qed.

Lemma hits_scores self sims idxs hits :
  Forall2 (hit_of self sims) idxs hits ->
  map score hits = map (score_at sims) idxs.
Proof.
  induction 1 as [|i h idxs hits (_ & Hs & _) _ IH]; simpl; [done|].
  f_equal; [|done]. unfold score_at. by rewrite (nth_lookup_Some _ _ _ _ Hs).
Qed.

Lemma StronglySorted_map {A B} (R : relation B) (f : A -> B) (l : list A) :
  StronglySorted R (map f l) -> StronglySorted (fun a b => R (f a) (f b)) l.
Proof.
  induction l as [|a l IH]; simpl; intros Hs; [constructor|].
  apply StronglySorted_cons in Hs as [Hall Hs].
  constructor; [by apply IH|].
  apply Forall_forall. intros b Hb.
  eapply Forall_forall in Hall; [done|].
  by apply list_elem_of_In, in_map, list_elem_of_In.
Qed.

Lemma embed_query_one_row self query qe :
  embed_query self query = Ok qe -> length qe = 1.
Proof.
  unfold embed_query.
  destruct (String.eqb _ _);
    [destruct (model_embed_content _ _ _)|destruct (model_encode _ _)];
    try done; by intros [= <-].
Qed.

(** What [search] returns, case by case. *)
Lemma search_result query top_k self w :
  fst (search query top_k (self, w)) =
    match documents self, embeddings self with
    | _ :: _, Some ((_ :: _) as stored) =>
        match embed_query self query with
        | Ok qe =>
            match cosine_similarity qe stored with
            | Ok sims =>
                match getitem sims 0 with
                | Ok similarities =>
                    match collect_hits self similarities
                            (top_indices_of similarities top_k
                               (length (documents self))) with
                    | Ok hits => Ok hits
                    | Raise _ => Ok []
                    end
                | Raise _ => Ok []
                end
            | Raise _ => Ok []
            end
        | Raise _ => Ok []
        end
    | _, _ => Ok []
    end.
Proof.
  unfold search. run_monad.
  destruct (documents self); [done|].
  destruct (embeddings self) as [[|row stored]|]; [done| |done].
  destruct (embed_query self query) as [qe|]; [|done].
  destruct (cosine_similarity qe (row :: stored)) as [sims|]; [|done].
  destruct (getitem sims 0) as [similarities|]; [|done].
  by destruct (collect_hits _ _ _).
Qed.

(** C1 (amended). For every store state, every query and every positive
    [top_k], the hits that [search] returns are at most
    [min(top_k, number of texts)], in non-increasing order of score; they
    are records of the store at distinct indices, no record left out
    scoring higher than a returned one; and they are exactly
    [min(top_k, size)] on a store whose three sequences have one length
    once the query embedding and the similarity computation succeed.
    Nothing is promised on the order of equal scores. *)
Theorem search_returns_top_k_descending query top_k s hits :
  (1 <= top_k)%Z ->
  fst (search query top_k s) = Ok hits ->
  top_k_descending query top_k s hits.
Proof.
  unfold top_k_descending.
  destruct s as [self w]. intros Hk. rewrite search_result. simpl.
  assert (forall h : list (Hit F), h = [] ->
            length h <= Z.to_nat (Z.min top_k (Z.of_nat (length (documents self)))) /\
            StronglySorted (fun a b => fleP (score b) (score a)) h /\
            (h = [] \/
             exists similarities idxs,
               similarities_of self query similarities /\
               NoDup idxs /\
               Forall2 (hit_of self similarities) idxs h /\
               length h =
                 Nat.min (Z.to_nat (Z.min top_k (Z.of_nat (length (documents self)))))
                         (length similarities) /\
               (forall j i, j < length similarities -> j ∉ idxs -> i ∈ idxs ->
                  fleP (score_at similarities j) (score_at similarities i))))
    as Hnil.
  { intros h ->. simpl. split; [lia|]. split; [constructor|by left]. }
  destruct (documents self) as [|d ds] eqn:Hdocs.
  { intros [= <-]. destruct (Hnil [] eq_refl) as (?&?&?).
    repeat split; try done.
    intros sims' _ _ _. simpl. lia. }
  destruct (embeddings self) as [[|row stored]|] eqn:Hemb.
  { intros [= <-]. destruct (Hnil [] eq_refl) as (?&?&?).
    repeat split; try done.
    intros sims' (qe & st & S & He & _ & _ & _ & Hl) Hlen _.
    rewrite Hemb in He. injection He as <-. simpl in *. lia. }
  2:{ intros [= <-]. destruct (Hnil [] eq_refl) as (?&?&?).
      repeat split; try done.
      intros sims' (qe & st & S & He & _). by rewrite Hemb in He. }
  destruct (embed_query self query) as [qe|] eqn:Hq.
  2:{ intros [= <-]. destruct (Hnil [] eq_refl) as (?&?&?).
      repeat split; try done.
      intros sims' (qe & st & S & _ & He & _). by rewrite Hq in He. }
  destruct (cosine_similarity qe (row :: stored)) as [sims|] eqn:Hc.
  2:{ intros [= <-]. destruct (Hnil [] eq_refl) as (?&?&?).
      repeat split; try done.
      intros sims' (qe' & st & S & He & He' & Hc' & _).
      rewrite Hemb in He. rewrite Hq in He'.
      injection He as <-. injection He' as <-. congruence. }
  destruct (cosine_similarity_shape _ _ _ Hc) as [Hrows Hcols].
  rewrite (embed_query_one_row _ _ _ Hq) in Hrows.
  destruct sims as [|similarities [|? ?]]; try done. simpl.
  apply Forall_inv in Hcols.
  assert (similarities_of self query similarities) as Hsims.
  { by exists qe, (row :: stored), [similarities]. }
  assert (forall sims', similarities_of self query sims' -> sims' = similarities)
    as Huniq.
  { intros sims' (qe' & st & S & He & He' & Hc' & HS & _).
    rewrite Hemb in He. rewrite Hq in He'.
    injection He as <-. injection He' as <-.
    rewrite Hc in Hc'. injection Hc' as <-. by injection HS. }
  pose proof (top_indices_of_spec similarities top_k (length (d :: ds)) Hk
                ltac:(simpl; lia)) as (Hlen & Hnodup & Hrange & Hsorted & Htop).
  cbn [length] in *.
  destruct (collect_hits self similarities _) as [found|] eqn:Hcollect.
  - intros [= <-]. apply collect_hits_Ok in Hcollect.
    pose proof (Forall2_length _ _ _ Hcollect) as Hsame.
    repeat split.
    + rewrite <- Hsame, Hlen. lia.
    + apply StronglySorted_map with (R := flip fleP) (f := score).
      by rewrite (hits_scores _ _ _ _ Hcollect).
    + right. exists similarities, (top_indices_of similarities top_k (S (length ds))).
      repeat split; try done. by rewrite <- Hsame, Hlen.
    + intros sims' ->%Huniq Hd _. rewrite <- Hsame, Hlen. lia.
  - intros [= <-]. destruct (Hnil [] eq_refl) as (?&?&?).
    repeat split; try done.
    intros sims' ->%Huniq Hd Hm. exfalso.
    destruct (collect_hits_in_range self similarities
                (top_indices_of similarities top_k (S (length ds))))
      as [found Hfound]; [|congruence].
    intros i Hi%Hrange. rewrite Hdocs. simpl. lia.
Qed.

End Ranking.

End Properties.

(** ** Invariants and frames of the calls *)

Section CallProperties.
Context {F : Type} {SF : Scalar F} {NU : Numeric F} {BE : Backend F}.
Implicit Types (s : State F) (self : VectorStore F) (w : World F).
Implicit Types (query txt : string) (top_k : Z) (c : Call).

Lemma search_frame query top_k s : snd (search query top_k s) = s.
Proof.
  destruct s as [self w]. unfold search. run_monad.
  destruct (documents self); [done|].
  destruct (embeddings self) as [[|row stored]|]; [done| |done].
  destruct (embed_query self query) as [qe|]; [|done].
  destruct (cosine_similarity qe (row :: stored)) as [sims|]; [|done].
  destruct (getitem sims 0) as [similarities|]; [|done].
  by destruct (collect_hits _ _ _).
Qed.

(** The three things a save can do to the files. *)
Lemma save_database_files self w :
  exists w',
    save_database (self, w) = (Ok tt, (self, w')) /\
    uuids_drawn w' = uuids_drawn w /\
    (files w' = files w \/
     files w' = <[db_path self := Pickle (database_of self)]> (files w) \/
     files w' = <[db_path self := Unreadable]> (files w)).
Proof.
  unfold save_database. run_monad.
  destruct (write_outcome (db_path self)); simpl; eauto 10.
Qed.

Lemma clear_outcome self w :
  exists w',
    clear (self, w) = (Ok tt, (cleared self, w')) /\
    (files w' = files w \/ files w' = delete (db_path self) (files w)).
Proof.
  unfold clear. run_monad.
  change (db_path (with_embeddings None _)) with (db_path self).
  destruct (files w !! db_path self); simpl; [|eauto].
  destruct (remove_ok (db_path self)); simpl; eauto.
Qed.

Lemma well_formed_same_collection (a b : VectorStore F) :
  same_collection a b -> well_formed b -> well_formed a.
Proof.
  intros (Hd & Hm & He & _) Hwf. unfold well_formed in *.
  by rewrite Hd, Hm, He.
Qed.

Lemma well_formed_world_insert w p (fc : FileContent F) :
  well_formed_world w -> well_formed_file fc ->
  forall w', files w' = <[p := fc]> (files w) -> well_formed_world w'.
Proof.
  intros Hw Hc w' Hfiles q c' Hq. rewrite Hfiles in Hq.
  destruct (decide (p = q)) as [->|Hne].
  - rewrite lookup_insert_eq in Hq. by injection Hq as <-.
  - rewrite lookup_insert_ne in Hq by done. by eapply Hw.
Qed.

Lemma well_formed_world_same w w' :
  well_formed_world w -> files w' = files w -> well_formed_world w'.
Proof. intros Hw Hfiles q fc Hq. rewrite Hfiles in Hq. by eapply Hw. Qed.

Lemma save_database_well_formed self w :
  well_formed self -> well_formed_world w ->
  well_formed_state (snd (save_database (self, w))).
Proof.
  intros Hs Hw.
  destruct (save_database_files self w) as (w' & -> & _ & Hfiles). simpl.
  split; [done|simpl]. destruct Hfiles as [Hf|[Hf|Hf]].
  - by eapply well_formed_world_same.
  - exact (well_formed_world_insert w _ (Pickle (database_of self)) Hw Hs w' Hf).
  - exact (well_formed_world_insert w _ Unreadable Hw I w' Hf).
Qed.

Lemma add_documents_well_formed docs md s :
  well_formed_state s ->
  fst (add_documents docs md s) = Ok tt ->
  well_formed_state (snd (add_documents docs md s)).
Proof.
  destruct s as [self w]. intros [Hs Hw].
  destruct docs as [|d docs]; [done|].
  destruct (metadata_acceptable_dec (d :: docs) md) as [Hmd|(l & -> & Hl)].
  2:{ by rewrite add_documents_rejects by done. }
  destruct (add_documents_outcome (d :: docs) md self w) as
    (new & self2 & Hlen & Hd & Hm & He & _ & Hf & ->); [done|done|].
  assert (length (fst (appended_metadata (d :: docs) md w)) = length (d :: docs))
    as Hmdlen.
  { destruct md as [l|]; simpl; [by apply Hmd|].
    apply (default_metadata_length _ (S (length docs))). }
  assert (well_formed_world (snd (appended_metadata (d :: docs) md w))) as Hw1.
  { by eapply well_formed_world_same. }
  destruct Hs as (Hs1 & Hs2 & Hs3).
  destruct (np_array new) as [arr|e'] eqn:Harr; simpl; [|done].
  apply np_array_uniform in Harr as [-> Hu].
  destruct (embeddings self2) as [old|] eqn:Hold.
  - destruct (np_vstack old new) as [stacked|e'] eqn:Hst; simpl; [|done].
    apply np_vstack_uniform in Hst as [-> Hu'].
    intros _. apply save_database_well_formed; [|done].
    simpl in *. rewrite <- He in Hs2. simpl in Hs2.
    repeat split; simpl; rewrite ?Hd, ?Hm, ?length_app, ?Hmdlen, ?Hlen;
      simpl; [lia|lia|by intros m [= <-]].
  - intros _. apply save_database_well_formed; [|done].
    simpl in *. rewrite <- He in Hs2. simpl in Hs2.
    repeat split; simpl; rewrite ?Hd, ?Hm, ?length_app, ?Hmdlen, ?Hlen;
      simpl; [lia|lia|by intros m [= <-]].
Qed.

Lemma run_preserves_well_formed c s :
  well_formed_state s ->
  (may_abort_midway c = true -> fst (run c s) = Ok tt) ->
  well_formed_state (snd (run c s)).
Proof.
  intros Hwf Hok. destruct c; simpl in *.
  - destruct s as [self w]. destruct Hwf as [Hs Hw].
    destruct (embed_text_frame txt self w) as (r & self' & -> & Hsame).
    split; [by eapply well_formed_same_collection|done].
  - apply add_documents_well_formed; [done|].
    specialize (Hok eq_refl). by destruct (fst (add_documents docs md s)) as [[]|].
  - by rewrite search_frame.
  - destruct s as [self w]. destruct Hwf. by apply save_database_well_formed.
  - destruct s as [self w]. destruct Hwf as [Hs Hw].
    rewrite load_database_cases.
    destruct (files w !! db_path self) as [[db|]|] eqn:Hfile; simpl; try done.
    split; [|done]. exact (Hw _ _ Hfile).
  - destruct s as [self w]. destruct Hwf as [Hs Hw].
    destruct (clear_outcome self w) as (w' & -> & Hfiles). simpl.
    split; [by repeat split|].
    destruct Hfiles as [Hf|Hf]; [by eapply well_formed_world_same|].
    intros q fc Hq. simpl in Hq. rewrite Hf in Hq.
    apply lookup_delete_Some in Hq as [_ Hq]. by eapply Hw.
  - done.
Qed.

Lemma load_database_world s : snd (snd (load_database s)) = snd s.
Proof.
  destruct s as [self w]. rewrite load_database_cases.
  by destruct (files w !! db_path self) as [[db|]|].
Qed.

Lemma load_database_returns s : exists b, fst (load_database s) = Ok b.
Proof.
  destruct s as [self w]. rewrite load_database_cases.
  destruct (files w !! db_path self) as [[db|]|]; eauto.
Qed.

(** A construction that succeeds is a load into the empty store of the
    chosen model. *)
Lemma init_outcome provider name dir w fresh w' :
  init provider name dir w = (Ok fresh, w') ->
  w' = w /\
  makedirs_ok dir = true /\
  exists p n m,
    init_model provider name = Ok (p, n, m) /\
    fresh = fst (snd (load_database (mkVectorStore p n dir [] [] None m, w))).
Proof.
  unfold init. destruct (makedirs_ok dir); simpl; [|done].
  destruct (init_model provider name) as [[[p n] m]|]; [|done].
  rewrite load_database_cases.
  destruct (files w !! _) as [[db|]|] eqn:Hfile; simpl; intros [= <- <-];
    (split; [done|]); (split; [done|]); exists p, n, m;
    (split; [done|]); by rewrite load_database_cases, Hfile.
Qed.

(** X3. From a construction over files that are well formed, through any
    sequence of calls in which every [add_documents] returns normally, the
    store has as many metadata and as many matrix rows as texts, and rows
    of one width; and so has every file. *)
Theorem reachable_states_well_formed provider name dir w fresh w' cs s :
  well_formed_world w ->
  init provider name dir w = (Ok fresh, w') ->
  run_all cs (fresh, w') = Some s ->
  well_formed_state s.
Proof.
  intros Hw Hinit.
  assert (well_formed_state (fresh, w')) as Hstart.
  { apply init_outcome in Hinit as (-> & _ & p & n & m & _ & ->).
    pose proof (run_preserves_well_formed call_load_database
                  (mkVectorStore p n dir [] [] None m, w)) as Hstep.
    simpl in Hstep.
    rewrite <- (load_database_world (mkVectorStore p n dir [] [] None m, w)) at 2.
    rewrite <- surjective_pairing. apply Hstep; [|done].
    split; [by repeat split|done]. }
  clear Hinit. revert Hstart. generalize (fresh, w'). clear fresh w'.
  induction cs as [|c cs IH]; intros s0 Hs0; simpl.
  { by intros [= <-]. }
  destruct (may_abort_midway c && negb (is_ok (fst (run c s0)))) eqn:Hgo; [done|].
  apply IH, run_preserves_well_formed; [done|].
  intros Hab. rewrite Hab in Hgo. simpl in Hgo.
  by destruct (fst (run c s0)) as [[]|].
Qed.

(** ** What a call leaves alone *)

Lemma provider_step_refl self : provider_step self self.
Proof. by left. Qed.

Lemma provider_step_trans (a b c : VectorStore F) :
  provider_step a b -> provider_step b c -> provider_step a c.
Proof.
  intros [[Hp Hm]|[Hg Hl]] [[Hp' Hm']|[Hg' Hl']].
  - left. split; congruence.
  - right. split; congruence.
  - right. split; congruence.
  - rewrite Hl in Hg'. discriminate.
Qed.

Lemma embed_text_step txt self w :
  exists r self',
    embed_text txt (self, w) = (r, (self', w)) /\
    same_collection self' self /\ provider_step self self'.
Proof.
  unfold embed_text, new_SentenceTransformer. run_monad.
  destruct (String.eqb (embedding_provider self) "google") eqn:Hp.
  2:{ eauto 10 using same_collection_refl, provider_step_refl. }
  apply String.eqb_eq in Hp.
  destruct (model_embed_content _ _ _).
  { eauto 10 using same_collection_refl, provider_step_refl. }
  destruct (is_SentenceTransformer (embedding_model self)); simpl.
  { eauto 10 using same_collection_refl, provider_step_refl. }
  destruct (st_available (model_name self)); simpl;
    do 2 eexists; (split; [reflexivity|]); (split; [by repeat split|]);
    by right.
Qed.

Lemma embed_documents_step docs self w :
  exists new self',
    embed_documents docs (self, w) = (Ok new, (self', w)) /\
    length new = length docs /\
    same_collection self' self /\ provider_step self self'.
Proof.
  revert self. induction docs as [|doc docs IH]; intros self; simpl.
  { exists [], self. eauto 10 using same_collection_refl, provider_step_refl. }
  run_monad.
  destruct (embed_text_step doc self w) as (r & self1 & -> & Hsame1 & Hstep1).
  destruct (IH self1) as (new & self2 & Hrows & Hlen & Hsame2 & Hstep2).
  destruct r as [v|e]; simpl; rewrite Hrows; simpl;
    eexists (_ :: new), self2;
    (split; [reflexivity|]); (split; [simpl; by rewrite Hlen|]);
    eauto using same_collection_trans, provider_step_trans.
Qed.

(** Where [add_documents] leaves the store and the files, whatever its
    outcome: texts and metadata extended at the end or not at all, the
    directory and the model name as before, the provider as before or
    downgraded, and no file touched but its own. *)
Lemma add_documents_final docs md self w :
  exists self' w',
    snd (add_documents docs md (self, w)) = (self', w') /\
    storage_dir self' = storage_dir self /\
    model_name self' = model_name self /\
    provider_step self self' /\
    (exists tail, documents self' = documents self ++ tail) /\
    (exists tail, document_metadata self' = document_metadata self ++ tail) /\
    (files w' = files w \/
     files w' = <[db_path self := Pickle (database_of self')]> (files w) \/
     files w' = <[db_path self := Unreadable]> (files w)).
Proof.
  assert (exists tail : list string, documents self = documents self ++ tail)
    as Hd0 by (exists []; by rewrite app_nil_r).
  assert (exists tail : list Metadata,
            document_metadata self = document_metadata self ++ tail)
    as Hm0 by (exists []; by rewrite app_nil_r).
  destruct docs as [|d docs].
  { exists self, w. eauto 10 using provider_step_refl. }
  destruct (metadata_acceptable_dec (d :: docs) md) as [Hmd|(l & -> & Hl)].
  2:{ rewrite add_documents_rejects by done.
      exists self, w. eauto 10 using provider_step_refl. }
  set (md' := fst (appended_metadata (d :: docs) md w)).
  set (w1 := snd (appended_metadata (d :: docs) md w)).
  destruct (embed_documents_step (d :: docs)
              (with_document_metadata (document_metadata self ++ md')
                 (with_documents (documents self ++ d :: docs) self)) w1)
    as (new & self2 & Hloop & Hlen & (Hd & Hm & He & Hdir & Hname) & Hstep).
  rewrite (add_documents_unfold (d :: docs) md self w new self2) by done.
  fold md' w1. simpl in Hd, Hm, He, Hdir, Hname.
  assert (files w1 = files w) as Hf by (subst w1; by destruct md).
  assert (provider_step self self2) as Hstep'.
  { destruct Hstep as [[? ?]|[? ?]]; [left|right]; by split. }
  assert (forall e, exists self' w',
            save_database (with_embeddings e self2, w1) = (Ok tt, (self', w')) /\
            self' = with_embeddings e self2 /\
            (files w' = files w \/
             files w' = <[db_path self := Pickle (database_of self')]> (files w) \/
             files w' = <[db_path self := Unreadable]> (files w))) as Hsave.
  { intros e.
    destruct (save_database_files (with_embeddings e self2) w1)
      as (w' & -> & _ & Hfiles).
    exists (with_embeddings e self2), w'. split; [done|]. split; [done|].
    assert (db_path (with_embeddings e self2) = db_path self) as Hpath.
    { unfold db_path. simpl. by rewrite Hdir. }
    rewrite Hpath, Hf in Hfiles. done. }
  destruct (np_array new) as [arr|e'].
  2:{ exists self2, w1. simpl. rewrite Hd, Hm. eauto 15. }
  destruct (embeddings self2) as [old|].
  - destruct (np_vstack old arr) as [stacked|e'].
    + destruct (Hsave (Some stacked)) as (self' & w' & -> & -> & Hfiles).
      exists (with_embeddings (Some stacked) self2), w'. simpl.
      rewrite Hd, Hm. eauto 15.
    + exists self2, w1. simpl. rewrite Hd, Hm. eauto 15.
  - destruct (Hsave (Some arr)) as (self' & w' & -> & -> & Hfiles).
    exists (with_embeddings (Some arr) self2), w'. simpl.
    rewrite Hd, Hm. eauto 15.
Qed.

(** X4. No call changes the storage directory or the model name of the
    store, and no call touches a file other than the store's own
    [vector_db.pkl]: stores on different directories do not interfere. *)
Theorem calls_touch_only_own_file c s :
  storage_dir (fst (snd (run c s))) = storage_dir (fst s) /\
  model_name (fst (snd (run c s))) = model_name (fst s) /\
  forall p, p <> db_path (fst s) ->
            files (snd (snd (run c s))) !! p = files (snd s) !! p.
Proof.
  destruct s as [self w]. destruct c; simpl.
  - destruct (embed_text_step txt self w)
      as (r & self' & -> & (_ & _ & _ & Hdir & Hname) & _). done.
  - destruct (add_documents_final docs md self w)
      as (self' & w' & -> & Hdir & Hname & _ & _ & _ & Hfiles). simpl.
    split; [done|]. split; [done|]. intros p Hp.
    destruct Hfiles as [->|[Hf|Hf]]; [done| |];
      rewrite Hf; by rewrite lookup_insert_ne.
  - by rewrite search_frame.
  - destruct (save_database_files self w) as (w' & -> & _ & Hfiles). simpl.
    split; [done|]. split; [done|]. intros p Hp.
    destruct Hfiles as [->|[Hf|Hf]]; [done| |];
      rewrite Hf; by rewrite lookup_insert_ne.
  - rewrite load_database_cases.
    by destruct (files w !! db_path self) as [[db|]|].
  - destruct (clear_outcome self w) as (w' & -> & Hfiles). simpl.
    split; [done|]. split; [done|]. intros p Hp.
    destruct Hfiles as [->|Hf]; [done|].
    rewrite Hf. by rewrite lookup_delete_ne.
  - done.
Qed.

(** X5. A call leaves the provider and its model as they are or moves
    from the hosted provider to the local one, never the other way: once
    the provider is not ["google"], every call leaves provider and model
    unchanged. *)
Theorem provider_only_downgrades c s :
  provider_step (fst s) (fst (snd (run c s))) /\
  (String.eqb (embedding_provider (fst s)) "google" = false ->
   embedding_provider (fst (snd (run c s))) = embedding_provider (fst s) /\
   embedding_model (fst (snd (run c s))) = embedding_model (fst s)).
Proof.
  assert (provider_step (fst s) (fst (snd (run c s)))) as Hstep.
  { destruct s as [self w]. destruct c; simpl.
    - by destruct (embed_text_step txt self w) as (r & self' & -> & _ & Hstep).
    - by destruct (add_documents_final docs md self w)
        as (self' & w' & -> & _ & _ & Hstep & _).
    - rewrite search_frame. apply provider_step_refl.
    - destruct (save_database_files self w) as (w' & -> & _). by left.
    - rewrite load_database_cases.
      destruct (files w !! db_path self) as [[db|]|]; by left.
    - destruct (clear_outcome self w) as (w' & -> & _). by left.
    - by left. }
  split; [done|]. intros Hlocal.
  destruct Hstep as [?|[Hg _]]; [done|].
  rewrite Hg in Hlocal. discriminate.
Qed.

(** ** Loading and construction *)


Lemma init_model_available provider name :
  is_ok (init_model provider name) = some_model_available provider name.
Proof.
  unfold init_model, some_model_available.
  destruct (String.eqb provider "google").
  - destruct genai_available; [done|]. by destruct (st_available name).
  - destruct (st_available name); [done|].
    by destruct (st_available "paraphrase-MiniLM-L3-v2").
Qed.

Lemma init_model_consistent provider name p n m :
  init_model provider name = Ok (p, n, m) ->
  (p = "google" <-> m = GenaiEmbedding) /\
  (m = GenaiEmbedding \/ m = SentenceTransformer n).
Proof.
  unfold init_model.
  destruct (String.eqb provider "google") eqn:Hp.
  - apply String.eqb_eq in Hp. subst provider.
    destruct genai_available.
    { intros [= <- <- <-]. split; [done|by left]. }
    destruct (st_available name); [|done].
    intros [= <- <- <-]. split; [|by right]. by split.
  - apply String.eqb_neq in Hp.
    destruct (st_available name).
    { intros [= <- <- <-]. split; [|by right]. by split. }
    destruct (st_available "paraphrase-MiniLM-L3-v2"); [|done].
    intros [= <- <- <-]. split; [|by right]. by split.
Qed.

(** X7. The constructor fails exactly when the directory cannot be
    created or no embedding model can be constructed: the hosted model or
    the named local model when ["google"] is asked for, the named local
    model or ["paraphrase-MiniLM-L3-v2"] otherwise.  It never fails
    because of the persisted file, and it never touches a file.  The store
    it returns is on the directory asked for, names ["google"] as its
    provider exactly when it holds the hosted model, and is empty when the
    file is missing or unreadable. *)
Theorem init_fails_only_without_model provider name dir w :
  is_ok (fst (init provider name dir w))
    = makedirs_ok dir && some_model_available provider name /\
  snd (init provider name dir w) = w /\
  forall fresh,
    fst (init provider name dir w) = Ok fresh ->
    storage_dir fresh = dir /\
    (embedding_provider fresh = "google"
     <-> embedding_model fresh = GenaiEmbedding) /\
    (files w !! path_join dir "vector_db.pkl" = None \/
     files w !! path_join dir "vector_db.pkl" = Some Unreadable ->
     documents fresh = [] /\ document_metadata fresh = [] /\
     embeddings fresh = None).
Proof.
  rewrite <- init_model_available. unfold init.
  destruct (makedirs_ok dir); simpl; [|done].
  destruct (init_model provider name) as [[[p n] m]|] eqn:Hmodel; [|done].
  apply init_model_consistent in Hmodel as [Hcons _].
  rewrite load_database_cases. simpl.
  change (db_path (mkVectorStore p n dir [] [] None m))
    with (path_join dir "vector_db.pkl").
  destruct (files w !! path_join dir "vector_db.pkl") as [[db|]|]; simpl;
    (split; [done|]); (split; [done|]); intros fresh [= <-]; simpl;
    (split; [done|]); (split; [done|]); try done.
  by intros [|].
Qed.

(** X8. A write that fails after the file was opened leaves it
    unreadable, whatever it held: the store in memory is as it was, a
    load then answers False without changing the store, and a store
    constructed afterwards on the same directory starts empty. *)
Theorem interrupted_write_loses_file s :
  write_outcome (db_path (fst s)) = DumpFails ->
  fst (save_database s) = Ok tt /\
  fst (snd (save_database s)) = fst s /\
  files (snd (snd (save_database s))) !! db_path (fst s) = Some Unreadable /\
  load_database (snd (save_database s)) = (Ok false, snd (save_database s)) /\
  (forall provider name fresh w',
     init provider name (storage_dir (fst s)) (snd (snd (save_database s)))
       = (Ok fresh, w') ->
     documents fresh = [] /\ document_metadata fresh = [] /\
     embeddings fresh = None).
Proof.
  destruct s as [self w]. simpl. intros Hw.
  assert (save_database (self, w) =
            (Ok tt, (self, with_files (<[db_path self := Unreadable]> (files w)) w)))
    as ->.
  { unfold save_database. run_monad. by rewrite Hw. }
  simpl.
  assert (files (with_files (<[db_path self := Unreadable]> (files w)) w)
            !! db_path self = Some (Unreadable (F := F))) as Hfile.
  { simpl. apply lookup_insert_eq. }
  split; [done|]. split; [done|]. split; [done|]. split.
  - rewrite load_database_cases. by rewrite Hfile.
  - intros provider name fresh w' Hinit.
    destruct (init_fails_only_without_model provider name (storage_dir self)
                (with_files (<[db_path self := Unreadable]> (files w)) w))
      as (_ & _ & Hfresh).
    destruct (Hfresh fresh) as (_ & _ & Hempty); [by rewrite Hinit|].
    apply Hempty. by right.
Qed.

(** X9. Durability of ingestion.  When [add_documents] returns normally on
    a non-empty batch and the write succeeds, the file holds the whole
    collection as the call leaves it, earlier records included: a store
    constructed afterwards on the same directory has the same texts,
    metadata and matrix. *)
Theorem add_documents_persists docs md s :
  docs <> [] ->
  fst (add_documents docs md s) = Ok tt ->
  write_outcome (db_path (fst s)) = Written ->
  files (snd (snd (add_documents docs md s))) !! db_path (fst s)
    = Some (Pickle (database_of (fst (snd (add_documents docs md s))))) /\
  (forall provider name fresh w',
     init provider name (storage_dir (fst s))
       (snd (snd (add_documents docs md s))) = (Ok fresh, w') ->
     documents fresh = documents (fst (snd (add_documents docs md s))) /\
     document_metadata fresh
       = document_metadata (fst (snd (add_documents docs md s))) /\
     embeddings fresh = embeddings (fst (snd (add_documents docs md s)))).
Proof.
  destruct s as [self w]. simpl. intros Hne Hok Hw.
  assert (exists self' w1,
            add_documents docs md (self, w) = save_database (self', w1) /\
            storage_dir self' = storage_dir self) as (self' & w1 & Hadd & Hdir).
  { destruct (metadata_acceptable_dec docs md) as [Hmd|(l & -> & Hl)].
    2:{ rewrite add_documents_rejects in Hok by done. by destruct docs. }
    destruct (add_documents_outcome docs md self w) as
      (new & self2 & _ & _ & _ & _ & Hdir & _ & Hadd); [done|done|].
    rewrite Hadd in Hok |- *.
    destruct (np_array new) as [arr|]; [|done].
    destruct (embeddings self2) as [old|]; [|by eauto].
    destruct (np_vstack old arr); [by eauto|done]. }
  assert (db_path self' = db_path self) as Hpath.
  { unfold db_path. by rewrite Hdir. }
  rewrite Hadd, save_database_written by (by rewrite Hpath).
  simpl. rewrite Hpath.
  assert (files (with_files (<[db_path self := Pickle (database_of self')]> (files w1)) w1)
            !! db_path self = Some (Pickle (database_of self'))) as Hfile.
  { simpl. apply lookup_insert_eq. }
  split; [done|].
  intros provider name fresh w'. unfold init.
  destruct (makedirs_ok _); simpl; [|done].
  destruct (init_model provider name) as [[[p n] m]|]; [|done].
  rewrite load_database_cases.
  change (db_path (mkVectorStore p n (storage_dir self) [] [] None m))
    with (db_path self).
  rewrite Hfile. by intros [= <- <-].
Qed.

(** ** Emptiness *)

(** X10. When [is_empty] answers True every search returns the empty
    list; and after an [add_documents] that returned normally on a
    non-empty batch [is_empty] answers False. *)
Theorem is_empty_agrees_with_search s :
  (fst (is_empty s) = Ok true ->
   forall query top_k, search query top_k s = (Ok [], s)) /\
  (forall docs md,
     docs <> [] ->
     fst (add_documents docs md s) = Ok tt ->
     fst (is_empty (snd (add_documents docs md s))) = Ok false).
Proof.
  split.
  - destruct s as [self w]. unfold is_empty, search. run_monad.
    destruct (documents self) as [|d ds]; [done|]. simpl.
    by destruct (embeddings self) as [[|]|].
  - intros docs md Hne Hok.
    destruct s as [self w].
    destruct (metadata_acceptable_dec docs md) as [Hmd|(l & -> & Hl)].
    2:{ rewrite add_documents_rejects in Hok by done. by destruct docs. }
    destruct (add_documents_outcome docs md self w) as
      (new & self2 & _ & Hd & _ & _ & _ & _ & Hadd); [done|done|].
    rewrite Hadd in Hok |- *.
    assert (forall e w1,
              fst (is_empty (snd (save_database
                                    (with_embeddings (Some e) self2, w1))))
              = Ok false) as Hsaved.
    { intros e w1.
      destruct (save_database_files (with_embeddings (Some e) self2) w1)
        as (w' & -> & _).
      unfold is_empty. run_monad. rewrite Hd.
      destruct (documents self); by destruct docs. }
    destruct (np_array new) as [arr|]; [|done].
    destruct (embeddings self2) as [old|]; [|by apply Hsaved].
    destruct (np_vstack old arr); [by apply Hsaved|done].
Qed.

(** ** The rows of a batch on the local provider *)

(** Replaces the [save_database] that ends an ingestion by its outcome. *)
Ltac after_save :=
  match goal with
  | |- context [save_database (?a, ?b)] =>
      let w' := fresh "w'" in
      destruct (save_database_files a b) as (w' & -> & _)
  end.

(** What a call of [add_documents] that returns has appended. *)
Lemma add_documents_appends docs md self w self' w' :
  docs <> [] ->
  add_documents docs md (self, w) = (Ok tt, (self', w')) ->
  documents self' = documents self ++ docs /\
  document_metadata self'
    = document_metadata self ++ fst (appended_metadata docs md w) /\
  rows (embeddings self') = rows (embeddings self) + length docs.
Proof.
  intros Hne.
  destruct (metadata_acceptable_dec docs md) as [Hmd|(l & -> & Hl)].
  2:{ rewrite add_documents_rejects by done. by destruct docs. }
  destruct (add_documents_outcome docs md self w) as
    (new & self2 & Hlen & Hd & Hm & He & _ & _ & ->); [done|done|].
  destruct (np_array new) as [arr|e'] eqn:Harr; simpl; [|done].
  apply np_array_uniform in Harr as [-> _].
  destruct (embeddings self2) as [old|] eqn:Hold.
  - destruct (np_vstack old new) as [stacked|e'] eqn:Hst; simpl; [|done].
    apply np_vstack_uniform in Hst as [-> _].
    after_save. intros [= <- <-]. simpl. rewrite Hd, Hm, <- He. simpl.
    by rewrite length_app, Hlen.
  - after_save. intros [= <- <-]. simpl. rewrite Hd, Hm, <- He. simpl.
    by rewrite Hlen.
Qed.

Lemma embed_documents_local docs self w :
  String.eqb (embedding_provider self) "google" = false ->
  embed_documents docs (self, w) = (Ok (map (local_row self) docs), (self, w)).
Proof.
  intros Hp. induction docs as [|doc docs IH]; simpl; [done|].
  run_monad. rewrite embed_text_local by done.
  unfold local_row at 1.
  destruct (model_encode (embedding_model self) doc); simpl;
    by rewrite IH.
Qed.

(** X11. While the provider is not ["google"], an [add_documents] that
    returns normally on a non-empty batch appends to the matrix one row
    per text, in order: the model's vector of the text, or 768 zeros when
    the model refused it.  The metadata appended are the ones given, or
    the generated ones, and provider and model are as before.  So on a
    store with as many rows as texts, the text, the metadata and the row
    of a new record share one index. *)
Theorem add_documents_rows_on_local_provider docs md s :
  String.eqb (embedding_provider (fst s)) "google" = false ->
  docs <> [] ->
  fst (add_documents docs md s) = Ok tt ->
  documents (fst (snd (add_documents docs md s))) = documents (fst s) ++ docs /\
  document_metadata (fst (snd (add_documents docs md s)))
    = document_metadata (fst s)
      ++ match md with
         | Some given => given
         | None => default_metadata (uuids_drawn (snd s)) (length docs)
         end /\
  embeddings (fst (snd (add_documents docs md s)))
    = Some (default [] (embeddings (fst s)) ++ map (local_row (fst s)) docs) /\
  embedding_provider (fst (snd (add_documents docs md s)))
    = embedding_provider (fst s) /\
  embedding_model (fst (snd (add_documents docs md s)))
    = embedding_model (fst s).
Proof.
  destruct s as [self w]. simpl. intros Hp Hne.
  destruct (metadata_acceptable_dec docs md) as [Hmd|(l & -> & Hl)].
  2:{ rewrite add_documents_rejects by done. by destruct docs. }
  set (md' := fst (appended_metadata docs md w)).
  set (w1 := snd (appended_metadata docs md w)).
  set (self1 := with_document_metadata (document_metadata self ++ md')
                  (with_documents (documents self ++ docs) self)).
  assert (embed_documents docs (self1, w1)
            = (Ok (map (local_row self1) docs), (self1, w1))) as Hloop.
  { by apply embed_documents_local. }
  rewrite (add_documents_unfold docs md self w _ self1) by done.
  change (local_row self1) with (local_row self).
  assert (md' = match md with
                | Some given => given
                | None => default_metadata (uuids_drawn w) (length docs)
                end) as Hmd' by (subst md'; by destruct md).
  destruct (np_array (map (local_row self) docs)) as [arr|e'] eqn:Harr;
    simpl; [|done].
  apply np_array_uniform in Harr as [-> _].
  change (embeddings self1) with (embeddings self).
  destruct (embeddings self) as [old|] eqn:Hold.
  - destruct (np_vstack old (map (local_row self) docs)) as [stacked|e'] eqn:Hst;
      simpl; [|done].
    apply np_vstack_uniform in Hst as [-> _].
    after_save. simpl. by rewrite Hmd'.
  - after_save. simpl. by rewrite Hmd'.
Qed.

End CallProperties.

(** ** Search with a [top_k] that is not positive *)

Section RankingEdge.
Context {F : Type} {SF : Scalar F} {NU : Numeric F} {BE : Backend F}.
Context {SO : ScalarOrder F} {NL : NumericLaws F}.
Implicit Types (s : State F) (self : VectorStore F) (w : World F).
Implicit Types (query : string) (top_k : Z).

#[local] Instance fleP_transitive_edge : Transitive (fleP (F := F)).
Proof. intros a b c. apply fle_trans. Qed.

(** The indices left when the [d] lowest of the ascending order are
    dropped, highest first. *)
Lemma dropped_lowest_spec (sims : Vector F) (d : nat) :
  let idxs := rev (drop d (argsort sims)) in
  length idxs = length sims - d /\
  NoDup idxs /\
  (forall i, i ∈ idxs -> i < length sims) /\
  StronglySorted (flip fleP) (map (score_at sims) idxs) /\
  (forall j i, j < length sims -> j ∉ idxs -> i ∈ idxs ->
               fleP (score_at sims j) (score_at sims i)).
Proof.
  intros idxs. subst idxs.
  pose proof (argsort_strongly_sorted sims) as Hsorted.
  rewrite <- (take_drop d (argsort sims)), map_app in Hsorted.
  apply StronglySorted_app in Hsorted as (Hcross & _ & Hsuffix).
  assert (forall i, i ∈ rev (drop d (argsort sims)) <-> i ∈ drop d (argsort sims))
    as Hrev.
  { intros i. by rewrite !list_elem_of_In, <- in_rev. }
  repeat split.
  - by rewrite length_rev, length_drop, argsort_length.
  - rewrite <- Permutation_rev.
    apply (sublist_NoDup _ (argsort sims)); [|apply sublist_drop].
    rewrite (argsort_perm sims). apply NoDup_seq.
  - intros i Hi%Hrev. apply argsort_elem_of.
    rewrite <- (take_drop d (argsort sims)). apply elem_of_app. by right.
  - rewrite map_rev. by apply StronglySorted_rev.
  - intros j i Hj Hnot Hi%Hrev.
    apply Hcross.
    + apply list_elem_of_In, in_map, list_elem_of_In.
      assert (j ∈ take d (argsort sims) ++ drop d (argsort sims)) as Hin.
      { rewrite take_drop. by apply argsort_elem_of. }
      apply elem_of_app in Hin as [Hin|Hin]; [done|].
      exfalso. apply Hnot. by apply Hrev.
    + by apply list_elem_of_In, in_map, list_elem_of_In.
Qed.

Lemma top_indices_of_nonpositive (sims : Vector F) top_k n :
  (top_k <= 0)%Z ->
  top_indices_of sims top_k n =
    rev (drop (Nat.min (Z.to_nat (- top_k)) (length sims)) (argsort sims)).
Proof.
  intros Hk. unfold top_indices_of, slice_from.
  rewrite Z.min_l by lia.
  destruct (Z.ltb_spec (- top_k) 0) as [?|_]; [lia|].
  rewrite argsort_length. do 2 f_equal. lia.
Qed.

(** X12. With [top_k <= 0] nothing limits the result to [top_k] records:
    on a store with as many texts and metadata as scored vectors, a
    search whose query embedding and similarity computation succeed
    returns every record but the [-top_k] lowest-scoring ones, highest
    score first; with [top_k = 0], every record. *)
Theorem search_nonpositive_top_k query top_k s hits similarities :
  (top_k <= 0)%Z ->
  fst (search query top_k s) = Ok hits ->
  similarities_of (fst s) query similarities ->
  length (documents (fst s)) = length similarities ->
  length (document_metadata (fst s)) = length similarities ->
  length hits = length (documents (fst s)) - Z.to_nat (- top_k) /\
  StronglySorted (fun a b => fleP (score b) (score a)) hits /\
  exists idxs,
    NoDup idxs /\
    Forall2 (hit_of (fst s) similarities) idxs hits /\
    (forall j i, j < length similarities -> j ∉ idxs -> i ∈ idxs ->
                 fleP (score_at similarities j) (score_at similarities i)).
Proof.
  destruct s as [self w]. simpl.
  intros Hk Hsearch (qe & stored & sims & Hemb & Hq & Hc & Hrow & Hlen) Hd Hm.
  rewrite search_result in Hsearch.
  destruct (documents self) as [|d ds] eqn:Hdocs.
  { injection Hsearch as <-. simpl in *.
    split; [done|]. split; [constructor|].
    exists []. split; [constructor|]. split; [constructor|].
    intros j i Hj. lia. }
  rewrite Hemb in Hsearch.
  destruct stored as [|row stored].
  { simpl in *. lia. }
  rewrite Hq, Hc in Hsearch.
  assert (getitem sims 0 = Ok similarities) as Hget by by apply getitem_Ok.
  rewrite Hget, top_indices_of_nonpositive in Hsearch by done.
  set (drop_count := Nat.min (Z.to_nat (- top_k)) (length similarities)) in *.
  pose proof (dropped_lowest_spec similarities drop_count)
    as (Hcount & Hnodup & Hrange & Hsorted & Htop).
  destruct (collect_hits_in_range self similarities
              (rev (drop drop_count (argsort similarities))))
    as [found Hfound].
  { intros i Hi%Hrange. rewrite Hdocs. lia. }
  rewrite Hfound in Hsearch. injection Hsearch as <-.
  apply collect_hits_Ok in Hfound.
  pose proof (Forall2_length _ _ _ Hfound) as Hsame.
  split; [|split].
  - rewrite <- Hsame, Hcount, Hd. subst drop_count. lia.
  - apply StronglySorted_map with (R := flip fleP) (f := score).
    by rewrite (hits_scores _ _ _ _ Hfound).
  - eauto.
Qed.

End RankingEdge.

(** ** The RAG engine and the app *)

Lemma substring_length_le (n m : nat) (s : string) :
  String.length (substring n m s) <= m.
Proof.
  revert n m. induction s as [|c s IH]; intros [|n] [|m]; simpl; try lia.
  - specialize (IH 0 m). lia.
  - apply (IH n 0).
  - apply (IH n (S m)).
Qed.

Lemma string_length_append (a b : string) :
  String.length (String.append a b) = String.length a + String.length b.
Proof. induction a as [|c a IH]; simpl; [done|]. by rewrite IH. Qed.




Section AppProperties.
Context {F : Type} {SF : Scalar F} {NU : Numeric F} {BE : Backend F}.
Context {GE : Generative} {PL : PdfLibrary} {TF : TempFiles}.
Implicit Types (ses : Session F) (w : World F) (self : VectorStore F).
Implicit Types (q name : string) (hits : list (Hit F)).

Lemma with_vector_store_same ses : with_vector_store (vector_store ses) ses = ses.
Proof. by destruct ses. Qed.

(** [search] returns at most [top_k] hits, whatever the similarity and
    the sort do. *)
Lemma search_at_most q top_k self w hits :
  (1 <= top_k)%Z ->
  fst (search q top_k (self, w)) = Ok hits ->
  length hits <= Z.to_nat top_k.
Proof.
  intros Hk. rewrite search_result.
  destruct (documents self) as [|d ds] eqn:Hdocs.
  { intros [= <-]. simpl. lia. }
  destruct (embeddings self) as [[|row stored]|]; try (intros [= <-]; simpl; lia).
  destruct (embed_query self q) as [qe|]; [|intros [= <-]; simpl; lia].
  destruct (cosine_similarity qe (row :: stored)) as [sims|];
    [|intros [= <-]; simpl; lia].
  destruct (getitem sims 0) as [similarities|]; [|intros [= <-]; simpl; lia].
  destruct (collect_hits _ _ _) as [found|] eqn:Hfound;
    [|intros [= <-]; simpl; lia].
  intros [= <-].
  apply collect_hits_Ok, Forall2_length in Hfound. rewrite <- Hfound.
  unfold top_indices_of. rewrite length_rev, slice_from_last by (simpl; lia).
  rewrite length_drop. simpl length. lia.
Qed.

(** The answer in PDF mode, by what [search] returned. *)
Lemma app_generate_response_pdf q ses w :
  chat_mode ses = "pdf" ->
  fst (app_generate_response q (ses, w)) =
    match fst (search q 5 (vector_store ses, w)) with
    | Ok [] => Some (mkReply upload_first None)
    | Ok hits =>
        Some (mkReply (generate_response (rag_engine ses) q hits)
                (Some (omap source_of hits)))
    | Raise e => Some (error_reply e)
    end.
Proof.
  intros Hmode. unfold app_generate_response. simpl. rewrite Hmode. simpl.
  destruct (search q 5 (vector_store ses, w)) as [[hits|e] [store w']]; simpl;
    [|done].
  by destruct hits.
Qed.

Lemma app_generate_response_frame q (st : Session F * World F) :
  snd (app_generate_response q st) = st.
Proof.
  destruct st as [ses w]. unfold app_generate_response. simpl.
  destruct (String.eqb (chat_mode ses) "general").
  { destruct (construct_model _); [|done]. by destruct (generate_content _ _). }
  destruct (String.eqb (chat_mode ses) "pdf"); [|done].
  pose proof (search_frame q 5 (vector_store ses, w)) as Hframe.
  destruct (search q 5 (vector_store ses, w)) as [[hits|e] [store w']];
    simpl in Hframe; injection Hframe as -> ->;
    rewrite with_vector_store_same; [by destruct hits|done].
Qed.


Lemma answer_modes q ses w :
  is_Some (fst (app_generate_response q (ses, w)))
  <-> chat_mode ses = "general" \/ chat_mode ses = "pdf".
Proof.
  unfold app_generate_response. simpl.
  destruct (String.eqb (chat_mode ses) "general") eqn:Hg.
  { apply String.eqb_eq in Hg. split; [by left|intros _].
    destruct (construct_model _); [|done]. by destruct (generate_content _ _). }
  apply String.eqb_neq in Hg.
  destruct (String.eqb (chat_mode ses) "pdf") eqn:Hp.
  { apply String.eqb_eq in Hp. split; [by right|intros _].
    destruct (search q 5 (vector_store ses, w)) as [[hits|e] [store w']];
      [|done].
    by destruct hits. }
  apply String.eqb_neq in Hp. simpl. split; [by intros [? [=]]|].
  by intros [?|?].
Qed.

(** X13. Answering a question changes nothing: the session (the store,
    the engine, the history, the mode) and the files are after
    [generate_response] of the app as before it; in one of the two chat
    modes there is always an answer, and in any other mode there is
    none. *)
Theorem answering_changes_nothing q (st : Session F * World F) :
  snd (app_generate_response q st) = st /\
  (is_Some (fst (app_generate_response q st))
   <-> chat_mode (fst st) = "general" \/ chat_mode (fst st) = "pdf").
Proof.
  split; [apply app_generate_response_frame|].
  destruct st as [ses w]. apply answer_modes.
Qed.

(** X14. In PDF mode a question is answered with the request to upload a
    PDF, and with no sources, whenever the store has no text or no
    matrix, and also whenever the embedding of the question or the
    similarity computation raises on a store that holds documents; the
    generative model is not asked. *)
Theorem pdf_mode_asks_for_upload q ses w :
  chat_mode ses = "pdf" ->
  fst (is_empty (vector_store ses, w)) = Ok true \/
  (exists e, embed_query (vector_store ses) q = Raise e) \/
  (exists qe e,
     embed_query (vector_store ses) q = Ok qe /\
     cosine_similarity qe (default [] (embeddings (vector_store ses))) = Raise e) ->
  fst (app_generate_response q (ses, w)) = Some (mkReply upload_first None).
Proof.
  intros Hmode Hcause. rewrite app_generate_response_pdf by done.
  rewrite search_result.
  destruct (documents (vector_store ses)) as [|d ds] eqn:Hdocs; [done|].
  destruct (embeddings (vector_store ses)) as [[|row stored]|] eqn:Hemb;
    [done| |done].
  destruct Hcause as [Hempty|[[e He]|(qe & e & Hq & Hc)]].
  - unfold is_empty in Hempty. revert Hempty. run_monad.
    by rewrite Hdocs, Hemb.
  - by rewrite He.
  - simpl in Hc. by rewrite Hq, Hc.
Qed.

Lemma omap_length_le {A B} (f : A -> option B) (l : list A) :
  length (omap f l) <= length l.
Proof.
  induction l as [|a l IH]; csimpl; [done|]. destruct (f a); simpl; lia.
Qed.

Lemma elem_of_omap_source (src : Source F) hits :
  src ∈ omap source_of hits ->
  exists h, h ∈ hits /\ source_of h = Some src.
Proof.
  intros (h & Hh & Hsrc)%list_elem_of_omap. eauto.
Qed.

(** X15. In PDF mode the answer never carries the app's error text and
    shows at most five sources, whatever the similarity and the sort
    return: one source for each hit with metadata, in the order of the
    hits, each with the hit's score, with a preview of at most 103
    characters that starts as the hit's text, and with ["Unknown"] where
    the metadata has no source or no page. *)
Theorem pdf_mode_sources q ses w :
  chat_mode ses = "pdf" ->
  exists hits,
    fst (search q 5 (vector_store ses, w)) = Ok hits /\
    length hits <= 5 /\
    fst (app_generate_response q (ses, w)) =
      Some (match hits with
            | [] => mkReply upload_first None
            | _ :: _ =>
                mkReply (generate_response (rag_engine ses) q hits)
                  (Some (omap source_of hits))
            end) /\
    length (omap source_of hits) <= length hits /\
    forall src, src ∈ omap source_of hits ->
      String.length (src_text src) <= 103 /\
      exists h, h ∈ hits /\ metadata h <> ∅ /\
        src_score src = score h /\
        src_text src = String.append (substring 0 100 (text h)) "..." /\
        src_source src = default (VStr "Unknown") (metadata h !! "source") /\
        src_page src = default (VStr "Unknown") (metadata h !! "page_num").
Proof.
  intros Hmode.
  destruct (fst (search q 5 (vector_store ses, w))) as [hits|e] eqn:Hsearch.
  2:{ rewrite search_result in Hsearch.
      destruct (documents _); [done|].
      destruct (embeddings _) as [[|row stored]|]; try done.
      destruct (embed_query _ _); [|done].
      destruct (cosine_similarity _ _); [|done].
      destruct (getitem _ _); [|done].
      by destruct (collect_hits _ _ _). }
  exists hits. split; [done|]. split.
  { by apply (search_at_most q 5 (vector_store ses) w). }
  split.
  { rewrite app_generate_response_pdf, Hsearch by done. by destruct hits. }
  split; [apply omap_length_le|].
  intros src (h & Hh & Hsrc)%elem_of_omap_source.
  unfold source_of in Hsrc.
  destruct (Nat.eqb (size (metadata h)) 0) eqn:Hsize; [done|].
  injection Hsrc as <-. simpl. split.
  { rewrite string_length_append. simpl.
    pose proof (substring_length_le 0 100 (text h)). lia. }
  exists h. repeat split; try done.
  intros Hempty. apply Nat.eqb_neq in Hsize. by apply Hsize, map_size_empty_iff.
Qed.

(** X16. A model change whose construction raises is reported as done:
    the app's [update_model] returns [True], the session and the engine
    carry the new name, and the engine keeps the model object it had, so
    document answers still come from the old model while a general
    question, which constructs the model from the session's name, gets
    the error text. *)
Theorem update_model_failure_keeps_old_model name ses e :
  name <> current_model ses ->
  construct_model name = Raise e ->
  let ses' := snd (app_update_model name ses) in
  fst (app_update_model name ses) = true /\
  fst (update_model name (rag_engine ses)) = false /\
  current_model ses' = name /\
  rag_model_name (rag_engine ses') = name /\
  rag_model (rag_engine ses') = rag_model (rag_engine ses) /\
  (forall q hits,
     generate_response (rag_engine ses') q hits
       = generate_response (rag_engine ses) q hits) /\
  (forall q w,
     chat_mode ses = "general" ->
     fst (app_generate_response q (ses', w)) = Some (error_reply e)).
Proof.
  intros Hname Hfail ses'. subst ses'. unfold app_update_model, update_model.
  apply String.eqb_neq in Hname. rewrite Hname, Hfail. simpl.
  repeat split; try done.
  intros q w Hmode. unfold app_generate_response. simpl.
  by rewrite Hmode, Hfail.
Qed.

(** X17. The list of models offered is empty only when the endpoint
    answers 200 with an empty list; otherwise it is the endpoint's list,
    the cached one, or the three defaults.  Only an answer 200 with a
    list changes the session, and only its cache; once such a list is
    cached and not empty, every later call on which the endpoint fails
    returns it. *)
Theorem available_models_cache endpoint ses :
  let result := fst (get_available_models endpoint ses) in
  let ses' := snd (get_available_models endpoint ses) in
  (result = [] <-> endpoint = EndpointAnswers 200 (Ok [])) /\
  ses' = with_available_models (available_models ses') ses /\
  (available_models ses' = result \/
   available_models ses' = available_models ses /\
   (result = available_models ses \/
    available_models ses = [] /\ result = default_models)) /\
  (forall later,
     (forall models, later <> EndpointAnswers 200 (Ok models)) ->
     available_models ses' <> [] ->
     get_available_models later ses' = (available_models ses', ses')).
Proof.
  intros result ses'. subst result ses'.
  assert (forall s : Session F,
            match available_models s with
            | [] => default_models
            | _ :: _ => available_models s
            end <> []) as Hnonempty.
  { intros s. by destruct (available_models s). }
  assert (forall s : Session F,
            match available_models s with
            | [] => default_models
            | _ :: _ => available_models s
            end = available_models s \/
            available_models s = [] /\
            match available_models s with
            | [] => default_models
            | _ :: _ => available_models s
            end = default_models) as Hcases.
  { intros s. destruct (available_models s); [by right|by left]. }
  assert (forall later (s : Session F),
            (forall models, later <> EndpointAnswers 200 (Ok models)) ->
            available_models s <> [] ->
            get_available_models later s = (available_models s, s)) as Hlater.
  { intros later s Hfails Hcached. unfold get_available_models.
    destruct (available_models s) as [|m ms] eqn:Hm; [done|].
    destruct later as [|status [models|e]]; [done| |by destruct (Z.eqb _ _)].
    destruct (Z.eqb_spec status 200) as [->|]; [|done].
    by destruct (Hfails models). }
  split; [|split; [|split]]; [| | |intros later; apply Hlater].
  - unfold get_available_models.
    destruct endpoint as [|status [models|e]]; simpl.
    + split; [by intros ?%Hnonempty|done].
    + destruct (Z.eqb_spec status 200) as [->|Hs]; simpl.
      * split; [by intros ->|by intros [= ->]].
      * split; [by intros ?%Hnonempty|]. intros [= ? ?]. done.
    + destruct (Z.eqb status 200); simpl;
        (split; [by intros ?%Hnonempty|done]).
  - unfold get_available_models.
    destruct endpoint as [|status [models|e]]; simpl; try by destruct ses.
    + destruct (Z.eqb status 200); simpl; by destruct ses.
    + destruct (Z.eqb status 200); simpl; by destruct ses.
  - unfold get_available_models.
    destruct endpoint as [|status [models|e]]; simpl.
    + right. split; [done|]. apply Hcases.
    + destruct (Z.eqb status 200); simpl; [by left|].
      right. split; [done|]. apply Hcases.
    + destruct (Z.eqb status 200); simpl; (right; split; [done|apply Hcases]).
Qed.

(** A construction whose directory and model are there succeeds and
    touches no file. *)
Lemma init_fresh provider name dir w p n (m : Model) :
  makedirs_ok dir = true ->
  init_model provider name = Ok (p, n, m) ->
  exists fresh,
    init provider name dir w = (Ok fresh, w) /\
    storage_dir fresh = dir /\
    embedding_provider fresh = p /\
    model_name fresh = n.
Proof.
  intros Hdir Hmodel. unfold init. rewrite Hdir, Hmodel. simpl.
  rewrite load_database_cases.
  destruct (files w !! _) as [[db|]|]; simpl; eauto.
Qed.

(** X18. The store that the app starts with exists exactly when the
    directory [./vector_db] can be created and one of three models can be
    constructed: the hosted one, [all-MiniLM-L6-v2] or
    [paraphrase-MiniLM-L3-v2].  Constructing it touches no file.  It is
    on the hosted provider exactly when the hosted model can be
    constructed, and it is on [paraphrase-MiniLM-L3-v2] only when neither
    of the other two can. *)
Theorem app_store_needs_one_model w :
  is_ok (fst (app_new_store w))
    = makedirs_ok "./vector_db"
      && (genai_available || st_available "all-MiniLM-L6-v2"
          || st_available "paraphrase-MiniLM-L3-v2") /\
  snd (app_new_store w) = w /\
  forall store,
    fst (app_new_store w) = Ok store ->
    storage_dir store = "./vector_db" /\
    (embedding_provider store = "google" <-> genai_available = true) /\
    (embedding_provider store = "google"
     \/ embedding_provider store = "sentence_transformer") /\
    (model_name store = "all-MiniLM-L6-v2" \/
     model_name store = "paraphrase-MiniLM-L3-v2" /\
     genai_available = false /\ st_available "all-MiniLM-L6-v2" = false).
Proof.
  unfold app_new_store.
  destruct (makedirs_ok "./vector_db") eqn:Hdir.
  2:{ unfold init. by rewrite Hdir. }
  destruct genai_available eqn:Hg.
  { destruct (init_fresh "google" "all-MiniLM-L6-v2" "./vector_db" w
                "google" "all-MiniLM-L6-v2" GenaiEmbedding)
      as (fresh & -> & Hd & Hp & Hn); [done|unfold init_model; by rewrite Hg|].
    simpl. split; [done|]. split; [done|]. intros store [= <-].
    rewrite Hp, Hn. split; [done|]. split; [done|]. split; by left. }
  destruct (st_available "all-MiniLM-L6-v2") eqn:Hmini.
  { destruct (init_fresh "google" "all-MiniLM-L6-v2" "./vector_db" w
                "sentence_transformer" "all-MiniLM-L6-v2"
                (SentenceTransformer "all-MiniLM-L6-v2"))
      as (fresh & -> & Hd & Hp & Hn);
      [done|unfold init_model; by rewrite Hg, Hmini|].
    simpl. split; [done|]. split; [done|]. intros store [= <-].
    rewrite Hp, Hn. split; [done|]. split; [done|]. split; [by right|by left]. }
  assert (init "google" "all-MiniLM-L6-v2" "./vector_db" w = (Raise OSError, w))
    as ->.
  { unfold init, init_model. by rewrite Hdir, Hg, Hmini. }
  destruct (st_available "paraphrase-MiniLM-L3-v2") eqn:Hpara.
  2:{ unfold init, init_model. by rewrite Hdir, Hmini, Hpara. }
  destruct (init_fresh "sentence_transformer" "all-MiniLM-L6-v2" "./vector_db" w
              "sentence_transformer" "paraphrase-MiniLM-L3-v2"
              (SentenceTransformer "paraphrase-MiniLM-L3-v2"))
    as (fresh & -> & Hd & Hp & Hn);
    [done|unfold init_model; by rewrite Hmini, Hpara|].
  simpl. split; [done|]. split; [done|]. intros store [= <-].
  rewrite Hp, Hn. split; [done|]. split; [done|]. split; by right.
Qed.


End AppProperties.

(** ** The PDF processor *)

Lemma occurs_in_spec (chunk txt : string) :
  occurs_in chunk txt = true <-> substring_of chunk txt.
Proof.
  unfold occurs_in, substring_of.
  destruct (index 0 chunk txt) as [m|] eqn:Hindex.
  - split; [intros _|done]. exists m. by apply index_correct1 in Hindex.
  - split; [done|]. intros [m Hm]. exfalso.
    destruct chunk as [|c chunk].
    + apply index_correct4 in Hindex. lia.
    + by apply (index_correct3 0 m _ _ Hindex); [|lia|].
Qed.

Lemma find_first {A} (f : A -> bool) (l : list A) (x : A) :
  List.find f l = Some x <->
  exists pre post, l = pre ++ x :: post /\ f x = true /\
                   forall y, y ∈ pre -> f y = false.
Proof.
  induction l as [|a l IH]; simpl.
  { split; [done|]. intros (pre & post & Heq & _). by destruct pre. }
  destruct (f a) eqn:Ha.
  - split.
    + intros [= ->]. exists [], l. repeat split; [done|]. by intros y ?%elem_of_nil.
    + intros ([|y pre] & post & Heq & Hx & Hpre); simpl in Heq; simplify_eq;
        [done|].
      rewrite Hpre in Ha by left. done.
  - rewrite IH. split.
    + intros (pre & post & -> & Hx & Hpre). exists (a :: pre), post.
      repeat split; [done|]. intros y [->|Hy]%elem_of_cons; auto.
    + intros ([|y pre] & post & Heq & Hx & Hpre); simpl in Heq; simplify_eq.
      { congruence. }
      exists pre, post. repeat split; [done|]. intros z Hz. apply Hpre. by right.
Qed.

Lemma find_nothing {A} (f : A -> bool) (l : list A) :
  List.find f l = None <-> forall y, y ∈ l -> f y = false.
Proof.
  induction l as [|a l IH]; simpl.
  { split; [|done]. by intros _ y ?%elem_of_nil. }
  destruct (f a) eqn:Ha.
  - split; [done|]. intros Hall. rewrite Hall in Ha by left. done.
  - rewrite IH. split.
    + intros Hall y [->|Hy]%elem_of_cons; auto.
    + intros Hall y Hy. apply Hall. by right.
Qed.

Lemma string_append_assoc (a b c : string) :
  String.append (String.append a b) c = String.append a (String.append b c).
Proof.
  induction a as [|x a IH]; [done|].
  change (String x (String.append (String.append a b) c)
          = String x (String.append a (String.append b c))).
  by rewrite IH.
Qed.

Lemma string_append_empty (a : string) : String.append a "" = a.
Proof.
  induction a as [|x a IH]; [done|].
  change (String x (String.append a "") = String x a). by rewrite IH.
Qed.

(** The page loop on pages that can all be read. *)
Lemma read_pages_all (k : nat) (texts : list string) (txt : string)
    (gathered : list Page) :
  read_pages k (map Ok texts) txt gathered
    = (String.append txt (joined_pages texts),
       Some (gathered ++ imap (fun i t => mkPage (k + i + 1) t) texts)).
Proof.
  revert k txt gathered. induction texts as [|t texts IH]; intros k txt gathered.
  { simpl. by rewrite string_append_empty, app_nil_r. }
  simpl. rewrite IH. f_equal.
  - by rewrite !string_append_assoc.
  - f_equal. rewrite <- app_assoc. simpl. rewrite Nat.add_0_r. do 2 f_equal.
    apply imap_ext. intros i x _. simpl. f_equal. lia.
Qed.

(** The page loop stopped by a page that raises. *)
Lemma read_pages_stopped (k : nat) (texts : list string) e
    (rest : list (Exc string)) (txt : string) (gathered : list Page) :
  read_pages k (map Ok texts ++ Raise e :: rest) txt gathered
    = (String.append txt (joined_pages texts), None).
Proof.
  revert k txt gathered. induction texts as [|t texts IH]; intros k txt gathered.
  { simpl. by rewrite string_append_empty. }
  simpl. rewrite IH. f_equal. by rewrite !string_append_assoc.
Qed.

Section PdfProperties.
Context {F : Type} {BE : Backend F} {PL : PdfLibrary}.
Implicit Types (w : World F) (doc : DocMetadata) (chunk k : string).
Implicit Types (md : Metadata) (items : list (string * Value)).

Lemma doc_set_pages key v doc :
  doc_pages (doc_set key v doc)
    = if String.eqb key "pages" then Some (NotPages v) else doc_pages doc.
Proof. unfold doc_set. by destruct (String.eqb key "pages"). Qed.

Lemma doc_set_fields key v doc k :
  k <> "pages" ->
  doc_fields (doc_set key v doc) !! k
    = if String.eqb key k then Some v else doc_fields doc !! k.
Proof.
  intros Hk. unfold doc_set.
  destruct (String.eqb key "pages") eqn:Hpages; simpl.
  - apply String.eqb_eq in Hpages. subst key.
    destruct (String.eqb_spec "pages" k); [by subst|done].
  - destruct (String.eqb_spec key k) as [->|Hne].
    + apply lookup_insert_eq.
    + by apply lookup_insert_ne.
Qed.

(** What the loop over the PDF's own metadata leaves. *)
Lemma copy_info_pages items doc :
  doc_pages (copy_info items doc)
    = match info_value "pages" items with
      | Some v => Some (NotPages v)
      | None => doc_pages doc
      end.
Proof.
  revert doc. induction items as [|[key value] items IH]; intros doc; [done|].
  simpl. rewrite IH. destruct (info_value "pages" items); [done|].
  destruct key as [|c clean]; [done|].
  destruct (Ascii.eqb_spec c "/"%char) as [->|Hc].
  - rewrite doc_set_pages. by destruct (String.eqb _ _).
  - destruct c as [[] [] [] [] [] [] [] []]; try done.
Qed.

Lemma copy_info_fields items doc k :
  k <> "pages" ->
  doc_fields (copy_info items doc) !! k
    = match info_value k items with
      | Some v => Some v
      | None => doc_fields doc !! k
      end.
Proof.
  intros Hk. revert doc.
  induction items as [|[key value] items IH]; intros doc; [done|].
  simpl. rewrite IH. destruct (info_value k items); [done|].
  destruct key as [|c clean]; [done|].
  destruct (Ascii.eqb_spec c "/"%char) as [->|Hc].
  - rewrite doc_set_fields by done. by destruct (String.eqb _ _).
  - destruct c as [[] [] [] [] [] [] [] []]; try done.
Qed.

Lemma extract_text_from_pdf_world pdf_path w :
  snd (extract_text_from_pdf pdf_path w)
    = mkWorld (files w) (uuids_drawn w + 1).
Proof.
  unfold extract_text_from_pdf.
  destruct (read_pdf pdf_path) as [|pages info]; [done|].
  destruct (read_pages 0 pages "" []) as [txt [gathered|]]; [|done].
  by destruct info.
Qed.

Ltac in_keys :=
  repeat match goal with H : _ ∈ _ |- _ => apply list_elem_of_In in H end;
  apply list_elem_of_In; simpl in *; tauto.

Ltac lookup_key :=
  simpl; repeat (rewrite lookup_insert_ne by done);
  first [apply lookup_insert_eq | apply lookup_empty].

(** The metadata of one chunk, key by key. *)
Lemma chunk_metadata_returned doc (drawn i n : nat) chunk md :
  chunk_metadata doc drawn i n chunk = Returned md ->
  md !! "chunk_id" = Some (VStr (uuid4 drawn)) /\
  md !! "chunk_index" = Some (VInt (Z.of_nat i)) /\
  md !! "document_id" = Some (default VNone (doc_fields doc !! "id")) /\
  md !! "source" = Some (default VNone (doc_fields doc !! "source")) /\
  md !! "total_chunks" = Some (VInt (Z.of_nat n)) /\
  md !! "page_num"
    = match doc_pages doc with
      | Some (PageList pages) =>
          (fun p => VInt (Z.of_nat p)) <$> page_of chunk pages
      | _ => None
      end /\
  (forall k, is_Some (md !! k) -> k ∈ chunk_keys).
Proof.
  unfold chunk_metadata, chunk_keys, Metadata in *.
  assert (forall base : gmap string Value,
            base = <["chunk_id" := VStr (uuid4 drawn)]>
                     (<["chunk_index" := VInt (Z.of_nat i)]>
                        (<["document_id" := default VNone (doc_fields doc !! "id")]>
                           (<["source" := default VNone (doc_fields doc !! "source")]>
                              (<["total_chunks" := VInt (Z.of_nat n)]> ∅)))) ->
            forall k, is_Some (base !! k) ->
            k ∈ ["chunk_id"; "chunk_index"; "document_id"; "source";
                 "total_chunks"]) as Hkeys.
  { intros base -> k [v Hk].
    destruct (decide (k = "chunk_id")) as [->|H1]; [in_keys|].
    destruct (decide (k = "chunk_index")) as [->|H2]; [in_keys|].
    destruct (decide (k = "document_id")) as [->|H3]; [in_keys|].
    destruct (decide (k = "source")) as [->|H4]; [in_keys|].
    destruct (decide (k = "total_chunks")) as [->|H5]; [in_keys|].
    exfalso. rewrite !lookup_insert_ne in Hk by done.
    by rewrite lookup_empty in Hk. }
  destruct (doc_pages doc) as [[pages|v]|].
  - destruct (page_of chunk pages) as [p|]; intros [= <-]; simpl;
      (repeat split; [lookup_key..|]).
    + intros k [v Hk].
      destruct (decide (k = "page_num")) as [->|Hp]; [in_keys|].
      rewrite lookup_insert_ne in Hk by done.
      specialize (Hkeys _ eq_refl k (mk_is_Some _ _ Hk)). in_keys.
    + intros k Hk. specialize (Hkeys _ eq_refl k Hk). in_keys.
  - destruct v as [|[|]|]; try done; intros [= <-];
      (repeat split; [lookup_key..|]).
    intros k Hk. specialize (Hkeys _ eq_refl k Hk). in_keys.
  - intros [= <-]; (repeat split; [lookup_key..|]).
    intros k Hk. specialize (Hkeys _ eq_refl k Hk). in_keys.
Qed.

(** The loop over the chunks when it returns: one metadata per chunk, one
    id drawn per chunk. *)
Lemma chunks_metadata_returned doc (i n : nat) (chunks : list string) w
    (mds : list Metadata) w' :
  chunks_metadata doc i n chunks w = (Returned mds, w') ->
  w' = mkWorld (files w) (uuids_drawn w + length chunks) /\
  length mds = length chunks /\
  forall j chunk,
    chunks !! j = Some chunk ->
    exists md,
      mds !! j = Some md /\
      chunk_metadata doc (uuids_drawn w + j) (i + j) n chunk = Returned md.
Proof.
  revert i w mds w'.
  induction chunks as [|c chunks IH]; intros i w mds w'; simpl.
  { intros [= <- <-]. destruct w. simpl. rewrite Nat.add_0_r.
    repeat split; done. }
  destruct (chunk_metadata doc (uuids_drawn w) i n c) as [md|f] eqn:Hmd; [|done].
  destruct (chunks_metadata doc (S i) n chunks _) as [[rest|f] w''] eqn:Hrest;
    [|done].
  intros [= <- <-].
  apply IH in Hrest as (-> & Hlen & Hall). simpl.
  split; [f_equal; lia|]. split; [by rewrite Hlen|].
  intros [|j] chunk Hj; simpl in *.
  - injection Hj as <-. exists md. by rewrite !Nat.add_0_r.
  - destruct (Hall j chunk Hj) as (md' & Hmd' & Hmeta). exists md'.
    split; [done|]. rewrite <- Hmeta. f_equal; lia.
Qed.

(** The loop returns unless the entry under ["pages"] is a value that
    cannot be iterated as a list of pages. *)
Lemma chunks_metadata_total doc (i n : nat) (chunks : list string) w :
  (forall v, doc_pages doc = Some (NotPages v) -> v = VStr "") ->
  exists mds, fst (chunks_metadata doc i n chunks w) = Returned mds.
Proof.
  intros Hpages. revert i w.
  induction chunks as [|c chunks IH]; intros i w; simpl; [eauto|].
  assert (exists md, chunk_metadata doc (uuids_drawn w) i n c = Returned md)
    as [md ->].
  { unfold chunk_metadata.
    destruct (doc_pages doc) as [[pages|v]|]; [|rewrite (Hpages v eq_refl)|];
      eauto.
    destruct (page_of c pages); eauto. }
  destruct (IH (S i) (mkWorld (files w) (uuids_drawn w + 1))) as [mds Hmds].
  destruct (chunks_metadata doc (S i) n chunks _) as [[rest|f] w'']; simpl in *;
    [eauto|done].
Qed.

Lemma chunks_metadata_type_error doc (i n : nat) c (chunks : list string) w v :
  doc_pages doc = Some (NotPages v) ->
  v <> VStr "" ->
  chunks_metadata doc i n (c :: chunks) w
    = (Failed TypeError, mkWorld (files w) (uuids_drawn w + 1)).
Proof.
  intros Hpages Hv. simpl. unfold chunk_metadata. rewrite Hpages.
  by destruct v as [|[|]|].
Qed.

Lemma chunks_metadata_files doc (i n : nat) (chunks : list string) w :
  files (snd (chunks_metadata doc i n chunks w)) = files w.
Proof.
  revert i w. induction chunks as [|c chunks IH]; intros i w; simpl; [done|].
  destruct (chunk_metadata doc (uuids_drawn w) i n c); [|done].
  specialize (IH (S i) (mkWorld (files w) (uuids_drawn w + 1))).
  by destruct (chunks_metadata doc (S i) n chunks _) as [[rest|f] w''].
Qed.

Lemma split_text_into_chunks_files (text_data : TextData)
    (chunk_size chunk_overlap : nat) w :
  files (snd (split_text_into_chunks text_data chunk_size chunk_overlap w))
    = files w.
Proof.
  unfold split_text_into_chunks.
  destruct (split_text _ _ _) as [found|e]; [|done].
  pose proof (chunks_metadata_files (td_metadata text_data) 0 (length found)
                found w) as Hfiles.
  by destruct (chunks_metadata _ 0 _ found w) as [[made|f] w1].
Qed.

Lemma split_text_into_chunks_returned (text_data : TextData)
    (chunk_size chunk_overlap : nat) w (chunks : list string)
    (mds : list Metadata) w' :
  split_text_into_chunks text_data chunk_size chunk_overlap w
    = (Returned (chunks, mds), w') ->
  split_text chunk_size chunk_overlap (td_text text_data) = Ok chunks /\
  length mds = length chunks /\
  w' = mkWorld (files w) (uuids_drawn w + length chunks).
Proof.
  unfold split_text_into_chunks.
  destruct (split_text _ _ _) as [found|e]; [|done].
  destruct (chunks_metadata _ 0 _ found w) as [[made|f] w1] eqn:Hloop; [|done].
  intros [= <- <- <-].
  by apply chunks_metadata_returned in Hloop as (-> & Hlen & _).
Qed.


(** X20. When [split_text_into_chunks] returns, the chunks are the
    splitter's and there is exactly one metadata dictionary per chunk, in
    the same order (so that [add_documents] never rejects the pair for
    its lengths): the chunk's index, the number of chunks, the id and the
    source of the document ([None] where the document has none), and an
    id that is the next one drawn, one per chunk; no other key but
    ["page_num"], which only a list of pages can give.  No file is
    touched. *)
Theorem split_text_into_chunks_parallel (text_data : TextData)
    (chunk_size chunk_overlap : nat) w (chunks : list string)
    (mds : list Metadata) w' :
  split_text_into_chunks text_data chunk_size chunk_overlap w
    = (Returned (chunks, mds), w') ->
  split_text chunk_size chunk_overlap (td_text text_data) = Ok chunks /\
  length mds = length chunks /\
  files w' = files w /\
  uuids_drawn w' = uuids_drawn w + length chunks /\
  forall j chunk,
    chunks !! j = Some chunk ->
    exists md,
      mds !! j = Some md /\
      md !! "chunk_index" = Some (VInt (Z.of_nat j)) /\
      md !! "total_chunks" = Some (VInt (Z.of_nat (length chunks))) /\
      md !! "chunk_id" = Some (VStr (uuid4 (uuids_drawn w + j))) /\
      md !! "document_id"
        = Some (default VNone (doc_fields (td_metadata text_data) !! "id")) /\
      md !! "source"
        = Some (default VNone (doc_fields (td_metadata text_data) !! "source")) /\
      (forall k, is_Some (md !! k) -> k ∈ chunk_keys) /\
      ((forall pages, doc_pages (td_metadata text_data) <> Some (PageList pages)) ->
       md !! "page_num" = None).
Proof.
  unfold split_text_into_chunks.
  destruct (split_text _ _ _) as [found|e]; [|done].
  destruct (chunks_metadata _ 0 _ found w) as [[made|f] w1] eqn:Hloop; [|done].
  intros [= <- <- <-].
  apply chunks_metadata_returned in Hloop as (-> & Hlen & Hall).
  repeat split; try done.
  intros j chunk Hj. destruct (Hall j chunk Hj) as (md & Hmd & Hmeta).
  apply chunk_metadata_returned in Hmeta
    as (Hid & Hindex & Hdoc & Hsource & Htotal & Hpage & Hkeys).
  exists md. repeat split; try done.
  intros Hnone. rewrite Hpage.
  destruct (doc_pages _) as [[pages|v]|]; [|done..]. by destruct (Hnone pages).
Qed.

(** X21. The page recorded for a chunk is the number of the first page,
    in the order of the list under ["pages"], whose text contains the
    chunk as a substring; a chunk that no single page contains (one that
    runs over a page break, for one) gets no page. *)
Theorem chunk_page_is_first_containing (text_data : TextData)
    (chunk_size chunk_overlap : nat) w (chunks : list string)
    (mds : list Metadata) w' (pages : list Page) (j : nat) chunk md :
  split_text_into_chunks text_data chunk_size chunk_overlap w
    = (Returned (chunks, mds), w') ->
  doc_pages (td_metadata text_data) = Some (PageList pages) ->
  chunks !! j = Some chunk ->
  mds !! j = Some md ->
  (forall v,
     md !! "page_num" = Some v <->
     exists before p after,
       pages = before ++ p :: after /\
       v = VInt (Z.of_nat (page_num p)) /\
       substring_of chunk (page_text p) /\
       forall earlier, earlier ∈ before ->
                       ~ substring_of chunk (page_text earlier)) /\
  (md !! "page_num" = None <->
   forall p, p ∈ pages -> ~ substring_of chunk (page_text p)).
Proof.
  unfold split_text_into_chunks.
  destruct (split_text _ _ _) as [found|e]; [|done].
  destruct (chunks_metadata _ 0 _ found w) as [[made|f] w1] eqn:Hloop; [|done].
  intros [= <- <- <-] Hpages Hj Hmd.
  apply chunks_metadata_returned in Hloop as (_ & _ & Hall).
  destruct (Hall j chunk Hj) as (md' & Hmd' & Hmeta).
  assert (md' = md) as -> by congruence.
  apply chunk_metadata_returned in Hmeta as (_ & _ & _ & _ & _ & Hpage & _).
  rewrite Hpages in Hpage. rewrite Hpage. unfold page_of.
  assert (forall p : Page,
            occurs_in chunk (page_text p) = false
            <-> ~ substring_of chunk (page_text p)) as Hnot.
  { intros p. rewrite <- occurs_in_spec. by destruct (occurs_in _ _). }
  split.
  - intros v. destruct (List.find _ pages) as [p|] eqn:Hfind; simpl.
    + pose proof Hfind as (before & after & Heq & Hp & Hbefore)%find_first.
      split.
      * intros [= <-]. exists before, p, after. repeat split; try done.
        { by apply occurs_in_spec. }
        intros earlier Hin. by apply Hnot, Hbefore.
      * intros (before' & p' & after' & Heq' & -> & Hp' & Hbefore').
        assert (List.find (fun p => occurs_in chunk (page_text p)) pages
                = Some p') as Hfind'.
        { apply find_first. exists before', after'. repeat split; try done.
          - by apply occurs_in_spec.
          - intros y Hy. by apply Hnot, Hbefore'. }
        congruence.
    + split; [done|].
      intros (before' & p' & after' & Heq' & _ & Hp' & _). exfalso.
      apply find_nothing with (y := p') in Hfind.
      * apply Hnot in Hfind. done.
      * rewrite Heq'. apply elem_of_app. right. by left.
  - destruct (List.find _ pages) as [p|] eqn:Hfind; simpl.
    + split; [done|]. intros Hall'. exfalso.
      apply find_first in Hfind as (before & after & Heq & Hp & _).
      apply (Hall' p); [|by apply occurs_in_spec].
      rewrite Heq. apply elem_of_app. right. by left.
    + split; [intros _|done]. intros p Hp. apply Hnot.
      by apply (proj1 (find_nothing _ _) Hfind).
Qed.

(** X22. [split_text_into_chunks] raises in two cases only: the splitter
    raises, or there is a chunk and the document's ["pages"] entry is not
    a list of pages (and not the empty string), which gives a TypeError
    at the first chunk, after one id was drawn.  No file is touched. *)
Theorem split_text_into_chunks_failures (text_data : TextData)
    (chunk_size chunk_overlap : nat) w :
  files (snd (split_text_into_chunks text_data chunk_size chunk_overlap w))
    = files w /\
  forall f,
    fst (split_text_into_chunks text_data chunk_size chunk_overlap w) = Failed f
    <->
    (exists e,
       split_text chunk_size chunk_overlap (td_text text_data) = Raise e /\
       f = LibraryError e) \/
    (exists c chunks v,
       split_text chunk_size chunk_overlap (td_text text_data) = Ok (c :: chunks) /\
       doc_pages (td_metadata text_data) = Some (NotPages v) /\
       v <> VStr "" /\ f = TypeError /\
       uuids_drawn
         (snd (split_text_into_chunks text_data chunk_size chunk_overlap w))
         = uuids_drawn w + 1).
Proof.
  unfold split_text_into_chunks.
  destruct (split_text _ _ _) as [[|c chunks]|e]; [simpl| |simpl].
  - split; [done|]. intros f. split; [done|].
    by intros [(e & [=] & _)|(c & chunks & v & [=] & _)].
  - assert ((exists v, doc_pages (td_metadata text_data) = Some (NotPages v)
                       /\ v <> VStr "") \/
            (forall v, doc_pages (td_metadata text_data) = Some (NotPages v)
                       -> v = VStr "")) as [(v & Hv & Hne)|Hpages].
    { destruct (doc_pages _) as [[pages|v]|];
        [right; by intros ? [=]| |right; by intros ? [=]].
      destruct v as [|s|z]; [left; by eauto| |left; by eauto].
      destruct s; [right; by intros ? [= <-]|left; by eauto]. }
    + rewrite (chunks_metadata_type_error _ _ _ _ _ _ v) by done. simpl.
      split; [done|]. intros f. split.
      * intros [= <-]. right. by exists c, chunks, v.
      * by intros [(e & [=] & _)|(c' & chunks' & v' & _ & _ & _ & -> & _)].
    + destruct (chunks_metadata_total (td_metadata text_data) 0
                  (length (c :: chunks)) (c :: chunks) w Hpages) as [mds Hmds].
      destruct (chunks_metadata _ 0 _ (c :: chunks) w) as [[made|f'] w1] eqn:Hloop;
        simpl in Hmds; [|done].
      apply chunks_metadata_returned in Hloop as (-> & _).
      split; [done|]. intros f. split; [done|].
      intros [(e & [=] & _)|(c' & chunks' & v' & _ & Hv' & Hne' & _)].
      by apply Hpages in Hv'.
  - split; [done|]. intros f. split.
    + intros [= <-]. left. eauto.
    + intros [(e' & [= <-] & ->)|(c & chunks & v & [=] & _)]. done.
Qed.

(** X23. For a PDF whose pages can all be read, the text is the page
    texts in order, each followed by two newlines, and the pages are
    numbered from 1.  The entries of the PDF's own metadata whose name
    starts with a slash are stored under the rest of the name in lower
    case, the last one winning, and they overwrite the bookkeeping of the
    extraction: the id, the source, the path, the page count, and the
    list of pages itself. *)
Theorem extract_text_from_pdf_readable pdf_path w (texts : list string)
    (info : Exc (list (string * Value))) :
  read_pdf pdf_path = PdfDocument (map Ok texts) info ->
  let items := match info with Ok items => items | Raise _ => [] end in
  let text_data := fst (extract_text_from_pdf pdf_path w) in
  let fields := doc_fields (td_metadata text_data) in
  td_text text_data = joined_pages texts /\
  doc_pages (td_metadata text_data)
    = Some match info_value "pages" items with
           | Some v => NotPages v
           | None => PageList (numbered_pages texts)
           end /\
  fields !! "id"
    = Some (default (VStr (uuid4 (uuids_drawn w))) (info_value "id" items)) /\
  fields !! "source"
    = Some (default (VStr (basename pdf_path)) (info_value "source" items)) /\
  fields !! "path"
    = Some (default (VStr pdf_path) (info_value "path" items)) /\
  fields !! "total_pages"
    = Some (default (VInt (Z.of_nat (length texts)))
              (info_value "total_pages" items)) /\
  (forall k,
     k ∉ ["id"; "source"; "path"; "total_pages"; "pages"] ->
     fields !! k = info_value k items).
Proof.
  intros Hread items text_data fields. subst items text_data fields.
  unfold extract_text_from_pdf. rewrite Hread, read_pages_all.
  rewrite List.length_map.
  set (base := mkDocMetadata _ (Some (PageList _))).
  assert (fst (match info with
               | Ok items =>
                   (mkTextData (String.append "" (joined_pages texts))
                      (copy_info items base),
                    mkWorld (files w) (uuids_drawn w + 1))
               | Raise _ =>
                   (mkTextData (String.append "" (joined_pages texts)) base,
                    mkWorld (files w) (uuids_drawn w + 1))
               end)
          = mkTextData (joined_pages texts)
              (copy_info match info with Ok items => items | Raise _ => [] end
                 base)) as ->.
  { by destruct info. }
  simpl. rewrite copy_info_pages.
  split; [done|]. split.
  { destruct (info_value "pages" _); [done|]. subst base. simpl.
    unfold numbered_pages. do 2 f_equal. }
  assert (forall k, k <> "pages" ->
            doc_fields base !! k
            = (<["total_pages" := VInt (Z.of_nat (length texts))]>
                 (<["id" := VStr (uuid4 (uuids_drawn w))]>
                    (<["path" := VStr pdf_path]>
                       (<["source" := VStr (basename pdf_path)]>
                          (∅ : gmap string Value))))) !! k) as Hbase.
  { intros k Hk. subst base. simpl. unfold doc_set. by simpl. }
  repeat split.
  - rewrite copy_info_fields, Hbase by done.
    destruct (info_value "id" _); [done|]. lookup_key.
  - rewrite copy_info_fields, Hbase by done.
    destruct (info_value "source" _); [done|]. lookup_key.
  - rewrite copy_info_fields, Hbase by done.
    destruct (info_value "path" _); [done|]. lookup_key.
  - rewrite copy_info_fields, Hbase by done.
    destruct (info_value "total_pages" _); [done|]. lookup_key.
  - intros k Hk.
    assert (k <> "pages") as Hpages by (intros ->; apply Hk; in_keys).
    rewrite copy_info_fields, Hbase by done.
    destruct (info_value k _); [done|].
    rewrite !lookup_insert_ne; [apply lookup_empty|..];
      intros <-; apply Hk; in_keys.
Qed.

(** X24. When a page of the PDF cannot be read, the extraction keeps the
    text of the pages before it and the page count, but no list of pages
    and nothing of the PDF's own metadata; the chunks made from that text
    carry no page number, and the missing list never makes the split
    raise. *)
Theorem unreadable_page_drops_page_numbers pdf_path w (texts : list string) e
    (rest : list (Exc string)) (info : Exc (list (string * Value))) :
  read_pdf pdf_path = PdfDocument (map Ok texts ++ Raise e :: rest) info ->
  let text_data := fst (extract_text_from_pdf pdf_path w) in
  td_text text_data = joined_pages texts /\
  doc_pages (td_metadata text_data) = None /\
  doc_fields (td_metadata text_data) !! "total_pages"
    = Some (VInt (Z.of_nat (length texts + 1 + length rest))) /\
  (forall k, is_Some (doc_fields (td_metadata text_data) !! k) ->
             k ∈ ["total_pages"; "id"; "path"; "source"]) /\
  forall (chunk_size chunk_overlap : nat) w1,
    (forall f,
       fst (split_text_into_chunks text_data chunk_size chunk_overlap w1)
         = Failed f ->
       exists e', f = LibraryError e') /\
    (forall (chunks : list string) (mds : list Metadata) w2 md,
       split_text_into_chunks text_data chunk_size chunk_overlap w1
         = (Returned (chunks, mds), w2) ->
       md ∈ mds -> md !! "page_num" = None).
Proof.
  intros Hread text_data. subst text_data.
  unfold extract_text_from_pdf. rewrite Hread, read_pages_stopped. simpl.
  split; [done|]. split; [done|]. split.
  { unfold doc_set. simpl. rewrite lookup_insert_eq.
    rewrite length_app, List.length_map. simpl. do 3 f_equal. lia. }
  split.
  { intros k [v Hk]. unfold doc_set in Hk. simpl in Hk.
    destruct (decide (k = "total_pages")) as [->|H1]; [in_keys|].
    destruct (decide (k = "id")) as [->|H2]; [in_keys|].
    destruct (decide (k = "path")) as [->|H3]; [in_keys|].
    destruct (decide (k = "source")) as [->|H4]; [in_keys|].
    exfalso. rewrite !lookup_insert_ne in Hk by done.
    by rewrite lookup_empty in Hk. }
  intros chunk_size chunk_overlap w1.
  set (text_data := mkTextData _ _).
  assert (doc_pages (td_metadata text_data) = None) as Hnone by done.
  split.
  - intros f Hf. unfold split_text_into_chunks in Hf.
    destruct (split_text _ _ _) as [found|e']; [|injection Hf as <-; eauto].
    destruct (chunks_metadata_total (td_metadata text_data) 0 (length found)
                found w1) as [mds Hmds].
    { intros v Hv. by rewrite Hnone in Hv. }
    destruct (chunks_metadata _ 0 _ found w1) as [[made|f'] w2]; simpl in *;
      done.
  - intros chunks mds w2 md Hsplit Hmd. unfold split_text_into_chunks in Hsplit.
    destruct (split_text _ _ _) as [found|e']; [|done].
    destruct (chunks_metadata _ 0 _ found w1) as [[made|f'] w3] eqn:Hloop;
      [|done].
    injection Hsplit as <- <- <-.
    apply chunks_metadata_returned in Hloop as (_ & Hlen & Hall).
    apply list_elem_of_lookup in Hmd as [j Hj].
    destruct (lookup_lt_is_Some_2 found j) as [chunk Hchunk].
    { rewrite <- Hlen. by apply lookup_lt_Some in Hj. }
    destruct (Hall j chunk Hchunk) as (md' & Hmd' & Hmeta).
    assert (md' = md) as -> by congruence.
    apply chunk_metadata_returned in Hmeta as (_ & _ & _ & _ & _ & Hpage & _).
    by rewrite Hnone in Hpage.
Qed.

End PdfProperties.

(** ** Uploads *)

Section UploadProperties.
Context {F : Type} {SF : Scalar F} {NU : Numeric F} {BE : Backend F}.
Context {GE : Generative} {PL : PdfLibrary} {TF : TempFiles}.
Implicit Types (ses : Session F) (w : World F) (name : string).

Lemma well_formed_state_files (store : VectorStore F) w w2 :
  files w2 = files w ->
  well_formed_state (store, w) -> well_formed_state (store, w2).
Proof.
  intros Hfiles [Hstore Hworld]. split; [done|].
  unfold well_formed_world in *. simpl in *. by rewrite Hfiles.
Qed.

(** [process_pdf] once the upload is written to its temporary file. *)
Lemma process_pdf_run name ses w pdf_path :
  write_temp name = Ok pdf_path ->
  process_pdf name (ses, w) =
    match split_text_into_chunks (fst (extract_text_from_pdf pdf_path w))
            1000 200 (mkWorld (files w) (uuids_drawn w + 1)) with
    | (Failed _, w2) => process_failed ses w2
    | (Returned (chunks, metadata_list), w2) =>
        match add_documents chunks (Some metadata_list) (vector_store ses, w2) with
        | (Raise _, (store, w3)) =>
            process_failed (with_vector_store store ses) w3
        | (Ok _, (store, w3)) =>
            let ses1 := with_vector_store store ses in
            let ses2 :=
              if bool_decide (name ∈ uploaded_pdfs ses1) then ses1
              else with_uploaded_pdfs (uploaded_pdfs ses1 ++ [name]) ses1 in
            match unlink pdf_path with
            | Raise _ => process_failed ses2 w3
            | Ok _ =>
                (true,
                 (with_processing_status None (with_chat_mode "pdf" ses2), w3))
            end
        end
    end.
Proof.
  intros Hwrite. unfold process_pdf. simpl. rewrite Hwrite.
  pose proof (extract_text_from_pdf_world pdf_path w) as Hworld.
  destruct (extract_text_from_pdf pdf_path w) as [text_data w1].
  simpl in *. by subst w1.
Qed.

(** A store that reports itself empty answers every search with no
    hit. *)
Lemma search_on_empty q top_k (self : VectorStore F) w w' :
  fst (is_empty (self, w)) = Ok true ->
  fst (search q top_k (self, w')) = Ok [].
Proof.
  unfold is_empty. run_monad. intros Hempty. rewrite search_result.
  destruct (documents self); [done|].
  by destruct (embeddings self) as [[|row stored]|].
Qed.

(** X25. An upload that is reported as processed has appended to the
    store exactly the chunks that the splitter made of the extracted
    text, in order, with one metadata dictionary and one row each; the
    app is then in PDF mode, the file name is listed once more at most,
    the status line is cleared, and the engine, the history and the
    models are untouched.  A store that was well formed, over well-formed
    files, is so afterwards. *)
Theorem upload_appends_the_chunks name ses w ses' w' :
  process_pdf name (ses, w) = (true, (ses', w')) ->
  exists pdf_path (chunks : list string) (mds : list Metadata),
    write_temp name = Ok pdf_path /\
    split_text 1000 200 (td_text (fst (extract_text_from_pdf pdf_path w)))
      = Ok chunks /\
    length mds = length chunks /\
    documents (vector_store ses') = documents (vector_store ses) ++ chunks /\
    document_metadata (vector_store ses')
      = document_metadata (vector_store ses) ++ mds /\
    rows (embeddings (vector_store ses'))
      = rows (embeddings (vector_store ses)) + length chunks /\
    chat_mode ses' = "pdf" /\
    processing_status ses' = None /\
    name ∈ uploaded_pdfs ses' /\
    (uploaded_pdfs ses' = uploaded_pdfs ses \/
     (name ∉ uploaded_pdfs ses) /\
     uploaded_pdfs ses' = uploaded_pdfs ses ++ [name]) /\
    rag_engine ses' = rag_engine ses /\
    chat_history ses' = chat_history ses /\
    current_model ses' = current_model ses /\
    available_models ses' = available_models ses /\
    (well_formed_state (vector_store ses, w) ->
     well_formed_state (vector_store ses', w')).
Proof.
  intros Hrun.
  destruct (write_temp name) as [pdf_path|e] eqn:Hwrite.
  2:{ unfold process_pdf in Hrun. by rewrite Hwrite in Hrun. }
  rewrite (process_pdf_run _ _ _ pdf_path Hwrite) in Hrun.
  pose proof (split_text_into_chunks_files
                (fst (extract_text_from_pdf pdf_path w)) 1000 200
                (mkWorld (files w) (uuids_drawn w + 1))) as Hfiles.
  destruct (split_text_into_chunks _ 1000 200 _) as [[[chunks mds]|f] w2]
    eqn:Hsplit; [|done].
  apply split_text_into_chunks_returned in Hsplit as (Hchunks & Hlen & _).
  simpl in Hfiles.
  pose proof (add_documents_well_formed chunks (Some mds) (vector_store ses, w2))
    as Hwf.
  destruct (add_documents chunks (Some mds) (vector_store ses, w2))
    as [[[]|e] [store w3]] eqn:Hadd; [|done].
  simpl in Hrun.
  destruct (unlink pdf_path) as [[]|e]; [|done].
  injection Hrun as <- <-.
  exists pdf_path, chunks, mds.
  split; [done|]. split; [done|]. split; [done|].
  assert (documents store = documents (vector_store ses) ++ chunks /\
          document_metadata store = document_metadata (vector_store ses) ++ mds /\
          rows (embeddings store)
            = rows (embeddings (vector_store ses)) + length chunks)
    as (Hdocs & Hmeta & Hrows).
  { destruct chunks as [|c chunks].
    - destruct mds; [|done]. injection Hadd as <- <-.
      rewrite !app_nil_r. simpl. by rewrite Nat.add_0_r.
    - by destruct (add_documents_appends (c :: chunks) (Some mds)
                     (vector_store ses) w2 store w3) as (? & ? & ?). }
  assert (well_formed_state (vector_store ses, w) -> well_formed_state (store, w3))
    as Hkept.
  { intros Hstate. apply Hwf; [|done].
    by apply (well_formed_state_files _ w). }
  case_bool_decide as Hlisted; simpl.
  - split_and!; try done. by left.
  - split_and!; try done.
    + apply elem_of_app. right. by left.
    + by right.
Qed.

(** X26. An upload that is reported as failed leaves the chat mode, the
    engine, the history and the models as they were and clears the status
    line.  It never removes or reorders what the store holds, but it may
    have appended to it; and the file name is listed all the same when
    only the removal of the temporary file failed. *)
Theorem failed_upload_keeps_session name ses w ses' w' :
  process_pdf name (ses, w) = (false, (ses', w')) ->
  chat_mode ses' = chat_mode ses /\
  processing_status ses' = None /\
  rag_engine ses' = rag_engine ses /\
  chat_history ses' = chat_history ses /\
  current_model ses' = current_model ses /\
  available_models ses' = available_models ses /\
  storage_dir (vector_store ses') = storage_dir (vector_store ses) /\
  (exists tail,
     documents (vector_store ses') = documents (vector_store ses) ++ tail) /\
  (exists tail,
     document_metadata (vector_store ses')
       = document_metadata (vector_store ses) ++ tail) /\
  (uploaded_pdfs ses' = uploaded_pdfs ses \/
   exists pdf_path e,
     write_temp name = Ok pdf_path /\ unlink pdf_path = Raise e /\
     (name ∉ uploaded_pdfs ses) /\
     uploaded_pdfs ses' = uploaded_pdfs ses ++ [name]).
Proof.
  intros Hrun.
  assert (exists tail : list string,
            documents (vector_store ses) = documents (vector_store ses) ++ tail)
    as Hsame_docs by (exists []; by rewrite app_nil_r).
  assert (exists tail : list Metadata,
            document_metadata (vector_store ses)
            = document_metadata (vector_store ses) ++ tail)
    as Hsame_meta by (exists []; by rewrite app_nil_r).
  destruct (write_temp name) as [pdf_path|e] eqn:Hwrite.
  2:{ unfold process_pdf in Hrun. rewrite Hwrite in Hrun.
      injection Hrun as <- <-. simpl. split_and!; try done. by left. }
  rewrite (process_pdf_run _ _ _ pdf_path Hwrite) in Hrun.
  destruct (split_text_into_chunks _ 1000 200 _) as [[[chunks mds]|f] w2].
  2:{ injection Hrun as <- <-. simpl. split_and!; try done. by left. }
  destruct (add_documents_final chunks (Some mds) (vector_store ses) w2)
    as (self' & w3' & Hfinal & Hdir & _ & _ & Hdocs & Hmeta & _).
  destruct (add_documents chunks (Some mds) (vector_store ses, w2))
    as [[[]|e] [store w3]]; simpl in Hfinal; injection Hfinal as <- <-.
  2:{ injection Hrun as <- <-. simpl. split_and!; try done. by left. }
  simpl in Hrun.
  destruct (unlink pdf_path) as [[]|e] eqn:Hunlink; [done|].
  injection Hrun as <- <-.
  case_bool_decide as Hlisted; simpl.
  - split_and!; try done. by left.
  - split_and!; try done. right. by exists pdf_path, e.
Qed.

(** X27. A file that cannot be opened or parsed as a PDF is reported as
    processed when the splitter makes no chunk of the empty text: the
    extraction swallows the error, nothing is added to the store and no
    file is written, yet the name is listed and the app switches to PDF
    mode, where an empty store answers every question with the request to
    upload a PDF. *)
Theorem unreadable_pdf_is_accepted name ses w pdf_path :
  write_temp name = Ok pdf_path ->
  read_pdf pdf_path = PdfUnreadable ->
  split_text 1000 200 "" = Ok [] ->
  unlink pdf_path = Ok tt ->
  let result := process_pdf name (ses, w) in
  fst result = true /\
  vector_store (fst (snd result)) = vector_store ses /\
  files (snd (snd result)) = files w /\
  chat_mode (fst (snd result)) = "pdf" /\
  name ∈ uploaded_pdfs (fst (snd result)) /\
  (fst (is_empty (vector_store ses, w)) = Ok true ->
   forall q,
     fst (app_generate_response q (snd result))
       = Some (mkReply upload_first None)).
Proof.
  intros Hwrite Hread Hsplit Hunlink result. subst result.
  rewrite (process_pdf_run _ _ _ pdf_path Hwrite).
  unfold split_text_into_chunks, extract_text_from_pdf.
  rewrite Hread. simpl. rewrite Hsplit. simpl. rewrite Hunlink.
  assert (forall ses2 : Session F,
            vector_store ses2 = vector_store ses ->
            fst (is_empty (vector_store ses, w)) = Ok true ->
            forall q w2,
              fst (app_generate_response q
                     (with_processing_status None (with_chat_mode "pdf" ses2),
                      w2))
              = Some (mkReply upload_first None)) as Hanswer.
  { intros ses2 Hstore Hempty q w2.
    rewrite app_generate_response_pdf by done. simpl. rewrite Hstore.
    by rewrite (search_on_empty q 5 _ w w2). }
  case_bool_decide as Hlisted; simpl; split_and!; try done;
    try (intros Hempty q; by apply Hanswer).
  apply elem_of_app. right. by left.
Qed.


End UploadProperties.

(** ** The test instance obeys the laws *)

Section StableArgsortLaws.
Context {F : Type} {SF : Scalar F} {SO : ScalarOrder F}.

Lemma insert_index_perm (s : Vector F) i l : insert_index s i l ≡ₚ i :: l.
Proof.
  induction l as [|j l IH]; simpl; [done|].
  destruct (fle _ _); [done|].
  rewrite IH. apply Permutation_swap.
Qed.

Lemma sort_indices_perm (s : Vector F) l : sort_indices s l ≡ₚ l.
Proof.
  induction l as [|i l IH]; simpl; [done|].
  by rewrite insert_index_perm, IH.
Qed.

Lemma insert_index_sorted (s : Vector F) i l :
  Sorted fleP (map (fun k => nth k s fzero) l) ->
  Sorted fleP (map (fun k => nth k s fzero) (insert_index s i l)).
Proof.
  induction l as [|j l IH]; simpl; intros Hs.
  - by repeat constructor.
  - destruct (fle (nth i s fzero) (nth j s fzero)) eqn:Hij; simpl.
    + constructor; [done|]. by constructor.
    + inversion Hs as [|? ? Hs' Hhd]; subst.
      constructor; [by apply IH|].
      assert (fleP (nth j s fzero) (nth i s fzero)) as Hji.
      { destruct (fle_total (nth i s fzero) (nth j s fzero)); [congruence|done]. }
      destruct l as [|k l]; simpl in *.
      * by constructor.
      * destruct (fle (nth i s fzero) (nth k s fzero)); simpl; constructor;
          [done|]. by inversion Hhd.
Qed.

Lemma sort_indices_sorted (s : Vector F) l :
  Sorted fleP (map (fun k => nth k s fzero) (sort_indices s l)).
Proof.
  induction l as [|i l IH]; simpl; [constructor|].
  by apply insert_index_sorted.
Qed.

End StableArgsortLaws.

Lemma Qle_bool_total (a b : Q) : Qle_bool a b = true \/ Qle_bool b a = true.
Proof.
  rewrite !Qle_bool_iff.
  destruct (Qlt_le_dec a b) as [H|H]; [left; by apply Qlt_le_weak | by right].
Qed.

Lemma Qle_bool_trans (a b c : Q) :
  Qle_bool a b = true -> Qle_bool b c = true -> Qle_bool a c = true.
Proof. rewrite !Qle_bool_iff. apply Qle_trans. Qed.

#[export] Instance Q_order : ScalarOrder Q.
Proof. split; [apply Qle_bool_total|apply Qle_bool_trans]. Qed.

Lemma cosine_rows_shape (X Y : Matrix Q) :
  length (map (fun x => map (cosine x) Y) X) = length X /\
  Forall (fun r => length r = length Y) (map (fun x => map (cosine x) Y) X).
Proof.
  split; [apply List.length_map|].
  induction X as [|x X IH]; simpl; constructor; [apply List.length_map|done].
Qed.

Lemma pairwise_cosine_shape (X Y S : Matrix Q) :
  pairwise_cosine X Y = Ok S ->
  length S = length X /\ Forall (fun r => length r = length Y) S.
Proof.
  unfold pairwise_cosine.
  destruct (_ && _); [|done].
  intros [= <-]. apply cosine_rows_shape.
Qed.

#[export] Instance Q_numeric_laws : NumericLaws Q.
Proof.
  split.
  - apply pairwise_cosine_shape.
  - intros s. apply sort_indices_perm.
  - intros s. apply sort_indices_sorted.
Qed.

Lemma Q_numeric_reversed_laws : NumericLaws Q (NU := Q_Numeric_reversed).
Proof.
  split.
  - apply pairwise_cosine_shape.
  - intros s. simpl. unfold reversed_argsort.
    by rewrite sort_indices_perm, <- Permutation_rev.
  - intros s. apply sort_indices_sorted.
Qed.

(** ** The properties on the test backend *)

(** The scenario: the text about cats comes first, with the higher
    score. *)
Example search_cats_first :
  fst (search "tell me about animals" 5 pets_state) =
    Ok [mkHit "cats are mammals" 1%Q (source "pets.pdf");
        mkHit "the stock market fell today" 0%Q (source "news.pdf")].
Proof. vm_compute. reflexivity. Qed.

(** C1, counterexample. Two records with equal scores come back with the
    later-inserted one first: the ascending argsort is reversed, and with
    it the order of the ties.  The order is that of the argsort and of
    nothing else: with the other argsort, as lawful as the first, the same
    search on the same store lists the two records the other way round. *)
Lemma search_ties_later_record_first :
  fst (search "tell me about animals" 2 twin_state) =
    Ok [mkHit "cats purr" 1%Q (source "b.pdf");
        mkHit "cats are mammals" 1%Q (source "a.pdf")] /\
  ~ ties_by_insertion_order (fst twin_state)
      [mkHit "cats purr" 1%Q (source "b.pdf");
       mkHit "cats are mammals" 1%Q (source "a.pdf")] /\
  NumericLaws Q (NU := Q_Numeric_reversed) /\
  fst (search (NU := Q_Numeric_reversed) "tell me about animals" 2 twin_state) =
    Ok [mkHit "cats are mammals" 1%Q (source "a.pdf");
        mkHit "cats purr" 1%Q (source "b.pdf")].
Proof.
  split; [vm_compute; reflexivity|]. split.
  - intros Hties.
    specialize (Hties 0 1 _ _ 1 0 ltac:(lia)
                  eq_refl eq_refl eq_refl eq_refl eq_refl).
    lia.
  - split; [apply Q_numeric_reversed_laws|vm_compute; reflexivity].
Qed.

(** With [top_k = 0] the slice [[-0:]] is the whole array: every record
    is returned, not none. *)
Example search_top_k_zero_returns_all :
  length (documents (fst twin_state)) = 2 /\
  exists hits, fst (search "tell me about animals" 0 twin_state) = Ok hits /\
               length hits = 2.
Proof. split; [done|]. eexists. split; [vm_compute; reflexivity|done]. Qed.

(** The ranking theorem on the scenario, with the laws of the test
    instance. *)
Lemma search_returns_top_k_descending_witness :
  ScalarOrder Q /\ NumericLaws Q /\ (1 <= 5)%Z /\
  top_k_descending "tell me about animals" 5 pets_state
    [mkHit "cats are mammals" 1%Q (source "pets.pdf");
     mkHit "the stock market fell today" 0%Q (source "news.pdf")].
Proof.
  split; [exact Q_order|]. split; [exact Q_numeric_laws|]. split; [lia|].
  apply (search_returns_top_k_descending (SO := Q_order) (NL := Q_numeric_laws)
           "tell me about animals" 5 pets_state);
    [lia | vm_compute; reflexivity].
Defined.

(** ** A failed embedding inside a batch *)

(** C3, the code at the failing input. A store on the default local
    model, whose vectors have 384 entries, holds one record and ingests
    three texts of which the second cannot be embedded.  The loop puts a
    zero vector of 768 entries in its place, the ragged rows cannot be
    stacked, and [add_documents] raises: no vector is stored and the file
    is not rewritten, while the three texts are already appended. *)
Theorem zero_vector_placeholder_is_768_wide :
  encode "all-MiniLM-L6-v2" "beta" = Ok (repeat 1%Q 384) /\
  fst (embed_documents ["beta"; "corrupt chunk"; "gamma"] minilm_one_state)
    = Ok [repeat 1%Q 384; np_zeros 768; repeat 1%Q 384] /\
  fst (add_documents ["beta"; "corrupt chunk"; "gamma"] None minilm_one_state)
    = Raise ValueError /\
  embeddings (fst (snd (add_documents ["beta"; "corrupt chunk"; "gamma"] None
                          minilm_one_state)))
    = Some [repeat 1%Q 384] /\
  documents (fst (snd (add_documents ["beta"; "corrupt chunk"; "gamma"] None
                         minilm_one_state)))
    = ["alpha"; "beta"; "corrupt chunk"; "gamma"] /\
  files (snd (snd (add_documents ["beta"; "corrupt chunk"; "gamma"] None
                     minilm_one_state)))
    = files (snd minilm_one_state).
Proof. repeat split; vm_compute; reflexivity. Qed.

(** C2, the code at the failing input. A store that holds two records,
    with two texts, two metadata and two vectors, ingests three texts of
    which the second cannot be embedded: the call raises and leaves five
    texts and five metadata against two vectors. *)
Theorem add_documents_breaks_length_invariant :
  length (documents (fst minilm_state)) = 2 /\
  length (document_metadata (fst minilm_state)) = 2 /\
  rows (embeddings (fst minilm_state)) = 2 /\
  fst (add_documents ["gamma"; "corrupt chunk"; "delta"] None minilm_state)
    = Raise ValueError /\
  length (documents (fst (snd (add_documents ["gamma"; "corrupt chunk"; "delta"]
                                 None minilm_state)))) = 5 /\
  length (document_metadata
            (fst (snd (add_documents ["gamma"; "corrupt chunk"; "delta"]
                         None minilm_state)))) = 5 /\
  rows (embeddings (fst (snd (add_documents ["gamma"; "corrupt chunk"; "delta"]
                               None minilm_state)))) = 2.
Proof. repeat split; vm_compute; reflexivity. Qed.

(** The growth theorem on a batch that embeds. *)
Lemma add_documents_grows_by_batch_witness :
  ["gamma"; "delta"] <> [] /\
  rows (embeddings (fst (snd (add_documents ["gamma"; "delta"] None minilm_state))))
    = rows (embeddings (fst minilm_state)) + 2.
Proof.
  split; [done|].
  apply (add_documents_grows_by_batch ["gamma"; "delta"] None minilm_state);
    [done | vm_compute; reflexivity].
Defined.

(** ** Provider fallback *)

(** C4, counterexample. With the local model active, a failing embedding
    is not followed by any downgrade or second attempt: [embed_text]
    raises and the store is as before.  With the hosted model active, a
    failing query embedding inside [search] is absorbed into an empty
    result, and the hosted model stays active. *)
Lemma embed_failure_without_downgrade :
  model_encode (embedding_model minilm_store) "corrupt chunk"
    = Raise ProviderError /\
  embed_text "corrupt chunk" (minilm_store, empty_world)
    = (Raise ProviderError, (minilm_store, empty_world)) /\
  embedding_provider (fst google_state) = "google" /\
  model_embed_content (embedding_model (fst google_state))
    "[offline] what is alpha" retrieval_query = Raise ProviderError /\
  search "[offline] what is alpha" 5 google_state = (Ok [], google_state).
Proof. repeat split; vm_compute; reflexivity. Qed.

(** The downgrade on the hosted store. *)
Lemma embed_text_downgrades_once_witness :
  embedding_provider google_store = "google" /\
  embed_text "[offline] alpha" (google_store, empty_world) =
    (Ok (repeat 1%Q 384), (downgraded google_store, empty_world)) /\
  embed_text "beta" (downgraded google_store, empty_world) =
    (Ok (repeat 1%Q 384), (downgraded google_store, empty_world)).
Proof.
  destruct (embed_text_downgrades_once (BE := demo_backend) "[offline] alpha"
              (google_store, empty_world) ProviderError
              eq_refl eq_refl eq_refl eq_refl) as (Hfirst & _ & Hlater).
  split; [reflexivity|]. split; [exact Hfirst|exact (Hlater "beta")].
Defined.

(** ** Metadata of the wrong length *)

(** C5, counterexample. One metadata record for no text: the lengths
    differ, and the call returns normally instead of raising. *)
Lemma add_documents_no_texts_not_rejected :
  length [source "a.pdf"] <> length ([] : list string) /\
  add_documents [] (Some [source "a.pdf"]) (test_store, empty_world)
    = (Ok tt, (test_store, empty_world)).
Proof. split; [done|reflexivity]. Qed.

(** The rejection on two texts with one metadata record. *)
Lemma add_documents_length_mismatch_witness :
  length [source "a.pdf"] <> length ["cats are mammals"; "cats purr"] /\
  snd (add_documents ["cats are mammals"; "cats purr"] (Some [source "a.pdf"])
         twin_state) = twin_state /\
  fst (add_documents ["cats are mammals"; "cats purr"] (Some [source "a.pdf"])
         twin_state) = Raise ValueError.
Proof.
  destruct (add_documents_length_mismatch (BE := demo_backend)
              ["cats are mammals"; "cats purr"] [source "a.pdf"] twin_state)
    as (Hsame & Hraise & _); [done|].
  split; [done|]. split; [exact Hsame|]. by apply Hraise.
Defined.

(** ** Persistence *)

(** The round trip on the two-record store, into a newly constructed
    store on the same directory. *)
Lemma save_then_load_roundtrip_witness :
  write_outcome (db_path (fst twin_state)) = Written /\
  forall fresh w',
    init "sentence_transformer" "test-2d" (storage_dir (fst twin_state))
      (snd (snd (save_database twin_state))) = (Ok fresh, w') ->
    documents fresh = documents (fst twin_state) /\
    document_metadata fresh = document_metadata (fst twin_state) /\
    embeddings fresh = embeddings (fst twin_state) /\
    w' = snd (snd (save_database twin_state)).
Proof.
  split; [reflexivity|].
  exact (proj2 (proj2 (proj2 (save_then_load_roundtrip twin_state eq_refl)))
           "sentence_transformer" "test-2d").
Defined.

(** C8, counterexample. A store on the 2-entry test model is constructed
    over a directory that holds a collection of one 3-entry vector: the
    load succeeds and the store holds the 3-entry matrix.  Nothing is
    reported; afterwards every search comes back empty and an append
    raises, leaving two texts against one vector. *)
Lemma load_accepts_other_dimension :
  encode "test-2d" "old text" = Ok [0%Q; 1%Q] /\
  init "sentence_transformer" "test-2d" "./vector_db" foreign_world =
    (Ok (mkVectorStore "sentence_transformer" "test-2d" "./vector_db"
           ["old text"] [source "old.pdf"] (Some [[1%Q; 0%Q; 0%Q]])
           (SentenceTransformer "test-2d")),
     foreign_world) /\
  fst (search "old text" 5 (installed foreign_database test_store, foreign_world))
    = Ok [] /\
  fst (add_documents ["cats purr"] None
         (installed foreign_database test_store, foreign_world))
    = Raise ValueError /\
  documents (fst (snd (add_documents ["cats purr"] None
                         (installed foreign_database test_store, foreign_world))))
    = ["old text"; "cats purr"] /\
  embeddings (fst (snd (add_documents ["cats purr"] None
                          (installed foreign_database test_store, foreign_world))))
    = Some [[1%Q; 0%Q; 0%Q]].
Proof. repeat split; vm_compute; reflexivity. Qed.

(** ** Clearing *)

(** Clearing the two-record store. *)
Lemma clear_empties_store_and_file_witness :
  remove_ok (db_path (fst twin_state)) = true /\
  files (snd twin_state) !! db_path (fst twin_state)
    = Some (Pickle (database_of (fst twin_state))) /\
  is_empty (snd (clear twin_state)) = (Ok true, snd (clear twin_state)) /\
  files (snd (snd (clear twin_state))) !! db_path (fst (snd (clear twin_state)))
    = None /\
  search "tell me about animals" 5 (snd (clear twin_state))
    = (Ok [], snd (clear twin_state)).
Proof.
  destruct (clear_empties_store_and_file (BE := demo_backend) twin_state eq_refl)
    as (_ & _ & _ & _ & Hempty & Hgone & _ & Hsearch).
  split; [reflexivity|]. split; [vm_compute; reflexivity|].
  split; [exact Hempty|]. split; [exact Hgone|apply Hsearch].
Defined.

(** When the operating system refuses the removal, [clear] absorbs the
    error: the store is empty in memory and the file is still there. *)
Example clear_keeps_file_when_removal_fails :
  fst (clear (BE := readonly_backend) twin_state) = Ok tt /\
  documents (fst (snd (clear (BE := readonly_backend) twin_state))) = [] /\
  files (snd (snd (clear (BE := readonly_backend) twin_state)))
    !! db_path (fst twin_state)
    = Some (Pickle (database_of (fst twin_state))).
Proof. repeat split; vm_compute; reflexivity. Qed.

(** ** The store under sequences of calls *)

Lemma reachable_states_well_formed_witness :
  well_formed_world empty_world /\
  exists s,
    run_all [call_add_documents ["cats are mammals"] None;
             call_search "tell me about animals" 5;
             call_save_database; call_clear;
             call_add_documents ["cats purr"] (Some [source "b.pdf"])]
      (test_store, empty_world) = Some s /\
    well_formed_state s.
Proof.
  assert (well_formed_world empty_world) as Hworld.
  { intros p c Hp. unfold empty_world in Hp. simpl in Hp.
    rewrite lookup_empty in Hp. discriminate Hp. }
  split; [exact Hworld|].
  eexists. split; [vm_compute; reflexivity|].
  apply (reachable_states_well_formed (BE := demo_backend)
           "sentence_transformer" "test-2d" "./vector_db" empty_world
           test_store empty_world
           [call_add_documents ["cats are mammals"] None;
            call_search "tell me about animals" 5;
            call_save_database; call_clear;
            call_add_documents ["cats purr"] (Some [source "b.pdf"])]);
    [exact Hworld | vm_compute; reflexivity | vm_compute; reflexivity].
Defined.

Lemma interrupted_write_loses_file_witness :
  write_outcome (Backend := dumpfail_backend) (db_path (fst pets_state))
    = DumpFails /\
  files (snd (snd (save_database (BE := dumpfail_backend) pets_state)))
    !! db_path (fst pets_state) = Some Unreadable.
Proof.
  split; [reflexivity|].
  exact (proj1 (proj2 (proj2
           (interrupted_write_loses_file (BE := dumpfail_backend) pets_state
              eq_refl)))).
Defined.

Lemma add_documents_persists_witness :
  ["cats purr"] <> [] /\
  write_outcome (db_path (fst pets_state)) = Written /\
  files (snd (snd (add_documents ["cats purr"] None pets_state)))
    !! db_path (fst pets_state)
    = Some (Pickle (database_of
                      (fst (snd (add_documents ["cats purr"] None pets_state))))).
Proof.
  split; [done|]. split; [reflexivity|].
  apply (add_documents_persists (BE := demo_backend) ["cats purr"] None pets_state);
    [done | vm_compute; reflexivity | reflexivity].
Defined.

Lemma add_documents_rows_on_local_provider_witness :
  String.eqb (embedding_provider (fst pets_state)) "google" = false /\
  ["cats purr"] <> [] /\
  embeddings (fst (snd (add_documents ["cats purr"] None pets_state)))
    = Some (default [] (embeddings (fst pets_state))
            ++ map (local_row (fst pets_state)) ["cats purr"]).
Proof.
  split; [reflexivity|]. split; [done|].
  apply (add_documents_rows_on_local_provider (BE := demo_backend)
           ["cats purr"] None pets_state);
    [reflexivity | done | vm_compute; reflexivity].
Defined.

Lemma search_nonpositive_top_k_witness :
  ScalarOrder Q /\ NumericLaws Q /\ (-1 <= 0)%Z /\
  fst (search "tell me about animals" (-1) pets_state)
    = Ok [mkHit "cats are mammals" 1%Q (source "pets.pdf")] /\
  length [mkHit "cats are mammals" 1%Q (source "pets.pdf")]
    = length (documents (fst pets_state)) - Z.to_nat (- -1).
Proof.
  split; [exact Q_order|]. split; [exact Q_numeric_laws|]. split; [lia|].
  split; [vm_compute; reflexivity|].
  apply (search_nonpositive_top_k (SO := Q_order) (NL := Q_numeric_laws)
           (BE := demo_backend)
           "tell me about animals" (-1) pets_state
           [mkHit "cats are mammals" 1%Q (source "pets.pdf")] [1%Q; 0%Q]);
    [lia | vm_compute; reflexivity | | reflexivity | reflexivity].
  exists [[1%Q; 0%Q]], [[1%Q; 0%Q]; [0%Q; 1%Q]], [[1%Q; 0%Q]].
  repeat split; vm_compute; reflexivity.
Defined.

(** ** The app on the test instance *)

Lemma pdf_mode_asks_for_upload_witness :
  chat_mode empty_pdf_session = "pdf" /\
  fst (is_empty (vector_store empty_pdf_session, empty_world)) = Ok true /\
  fst (app_generate_response "what do cats do?" (empty_pdf_session, empty_world))
    = Some (mkReply upload_first None).
Proof.
  split; [reflexivity|]. split; [reflexivity|].
  apply (pdf_mode_asks_for_upload (BE := demo_backend) (GE := demo_generative)
           "what do cats do?" empty_pdf_session empty_world);
    [reflexivity | left; reflexivity].
Defined.

Lemma pdf_mode_sources_witness :
  chat_mode pets_session = "pdf" /\
  exists hits,
    fst (search "tell me about animals" 5 (vector_store pets_session, empty_world))
      = Ok hits /\
    length hits <= 5.
Proof.
  split; [reflexivity|].
  destruct (pdf_mode_sources (BE := demo_backend) (GE := demo_generative)
              "tell me about animals" pets_session empty_world eq_refl)
    as (hits & Hsearch & Hfive & _).
  exists hits. split; [exact Hsearch | exact Hfive].
Defined.

Lemma update_model_failure_keeps_old_model_witness :
  "broken-model" <> current_model demo_session /\
  construct_model "broken-model" = Raise ProviderError /\
  fst (app_update_model "broken-model" demo_session) = true /\
  rag_model (rag_engine (snd (app_update_model "broken-model" demo_session)))
    = "gemini-1.5-flash".
Proof.
  split; [discriminate|]. split; [reflexivity|].
  destruct (update_model_failure_keeps_old_model (GE := demo_generative)
              "broken-model" demo_session ProviderError
              ltac:(discriminate) eq_refl)
    as (Hdone & _ & _ & _ & Hmodel & _).
  split; [exact Hdone | exact Hmodel].
Defined.

(** ** The PDF processor on the test instance *)

Lemma split_text_into_chunks_parallel_witness :
  split_text_into_chunks notes_text_data 1000 200 notes_world
    = (Returned (notes_chunks, notes_metadata), mkWorld ∅ 3) /\
  length notes_metadata = length notes_chunks /\
  uuids_drawn (mkWorld (F := Q) ∅ 3)
    = uuids_drawn notes_world + length notes_chunks.
Proof.
  assert (split_text_into_chunks notes_text_data 1000 200 notes_world
          = (Returned (notes_chunks, notes_metadata), mkWorld ∅ 3)) as Hsplit.
  { vm_compute. reflexivity. }
  split; [exact Hsplit|].
  pose proof (split_text_into_chunks_parallel (BE := demo_backend)
                (PL := demo_pdf) notes_text_data 1000 200 notes_world
                notes_chunks notes_metadata (mkWorld ∅ 3) Hsplit)
    as (_ & Hlen & _ & Hdrawn & _).
  split; [exact Hlen | exact Hdrawn].
Defined.

Lemma chunk_page_is_first_containing_witness :
  split_text_into_chunks notes_text_data 1000 200 notes_world
    = (Returned (notes_chunks, notes_metadata), mkWorld ∅ 3) /\
  doc_pages (td_metadata notes_text_data) = Some (PageList notes_pages) /\
  notes_chunks !! 1 = Some "the stock market fell today" /\
  (forall v,
     market_metadata !! "page_num" = Some v <->
     exists before p after,
       notes_pages = before ++ p :: after /\
       v = VInt (Z.of_nat (page_num p)) /\
       substring_of "the stock market fell today" (page_text p) /\
       forall earlier,
         earlier ∈ before ->
         ~ substring_of "the stock market fell today" (page_text earlier)).
Proof.
  assert (split_text_into_chunks notes_text_data 1000 200 notes_world
          = (Returned (notes_chunks, notes_metadata), mkWorld ∅ 3)) as Hsplit.
  { vm_compute. reflexivity. }
  assert (doc_pages (td_metadata notes_text_data) = Some (PageList notes_pages))
    as Hpages.
  { vm_compute. reflexivity. }
  split; [exact Hsplit|]. split; [exact Hpages|]. split; [reflexivity|].
  exact (proj1 (chunk_page_is_first_containing (BE := demo_backend)
                  (PL := demo_pdf) notes_text_data 1000 200 notes_world
                  notes_chunks notes_metadata (mkWorld ∅ 3) notes_pages 1
                  "the stock market fell today" market_metadata Hsplit Hpages eq_refl
                  eq_refl)).
Defined.

Lemma extract_text_from_pdf_readable_witness :
  read_pdf "/tmp/notes.pdf"
    = PdfDocument (map Ok ["cats are mammals"; "the stock market fell today"])
        (Ok [("/Author", VStr "A. Writer"); ("Producer", VStr "none")]) /\
  td_text notes_text_data
    = joined_pages ["cats are mammals"; "the stock market fell today"] /\
  doc_fields (td_metadata notes_text_data) !! "author"
    = Some (VStr "A. Writer").
Proof.
  split; [reflexivity|].
  pose proof (extract_text_from_pdf_readable (BE := demo_backend)
                (PL := demo_pdf) "/tmp/notes.pdf" empty_world
                ["cats are mammals"; "the stock market fell today"]
                (Ok [("/Author", VStr "A. Writer"); ("Producer", VStr "none")])
                eq_refl)
    as (Htext & _ & _ & _ & _ & _ & Hother).
  split; [exact Htext|].
  apply (Hother "author"). vm_compute. intros Hin.
  repeat (apply elem_of_cons in Hin as [Hin|Hin]; [discriminate Hin|]).
  by apply elem_of_nil in Hin.
Defined.

Lemma unreadable_page_drops_page_numbers_witness :
  read_pdf "/tmp/scan.pdf"
    = PdfDocument (map Ok ["cats are mammals"] ++ Raise ProviderError
                   :: [Ok "cats purr"])
        (Ok [("/Author", VStr "A. Writer")]) /\
  td_text (fst (extract_text_from_pdf "/tmp/scan.pdf" empty_world))
    = joined_pages ["cats are mammals"] /\
  doc_pages (td_metadata (fst (extract_text_from_pdf "/tmp/scan.pdf" empty_world)))
    = None.
Proof.
  split; [reflexivity|].
  pose proof (unreadable_page_drops_page_numbers (BE := demo_backend)
                (PL := demo_pdf) "/tmp/scan.pdf" empty_world
                ["cats are mammals"] ProviderError [Ok "cats purr"]
                (Ok [("/Author", VStr "A. Writer")]) eq_refl)
    as (Htext & Hpages & _).
  split; [exact Htext | exact Hpages].
Defined.

(** ** Uploads on the test instance *)

Lemma upload_appends_the_chunks_witness :
  fst (process_pdf "notes.pdf" (demo_session, empty_world)) = true /\
  chat_mode (fst (snd (process_pdf "notes.pdf" (demo_session, empty_world))))
    = "pdf" /\
  "notes.pdf"
    ∈ uploaded_pdfs
        (fst (snd (process_pdf "notes.pdf" (demo_session, empty_world)))).
Proof.
  split; [vm_compute; reflexivity|].
  assert (process_pdf "notes.pdf" (demo_session, empty_world)
          = (true,
             (fst (snd (process_pdf "notes.pdf" (demo_session, empty_world))),
              snd (snd (process_pdf "notes.pdf" (demo_session, empty_world))))))
    as Hrun.
  { vm_compute. reflexivity. }
  destruct (upload_appends_the_chunks (BE := demo_backend) (PL := demo_pdf)
              (TF := demo_temp) "notes.pdf" demo_session empty_world _ _ Hrun)
    as (pdf_path & chunks & mds & _ & _ & _ & _ & _ & _ & Hmode & _ & Hlisted
        & _).
  split; [exact Hmode | exact Hlisted].
Defined.

Lemma failed_upload_keeps_session_witness :
  process_pdf "locked.pdf" (demo_session, empty_world)
    = (false, (demo_session, empty_world)) /\
  chat_mode demo_session = "general".
Proof.
  split; [vm_compute; reflexivity|].
  destruct (failed_upload_keeps_session (BE := demo_backend) (PL := demo_pdf)
              (TF := demo_temp) "locked.pdf" demo_session empty_world
              demo_session empty_world ltac:(vm_compute; reflexivity))
    as (Hmode & _).
  reflexivity.
Defined.

Lemma unreadable_pdf_is_accepted_witness :
  write_temp "broken.pdf" = Ok "/tmp/broken.pdf" /\
  read_pdf "/tmp/broken.pdf" = PdfUnreadable /\
  split_text 1000 200 "" = Ok [] /\
  unlink "/tmp/broken.pdf" = Ok tt /\
  fst (process_pdf "broken.pdf" (demo_session, empty_world)) = true /\
  chat_mode (fst (snd (process_pdf "broken.pdf" (demo_session, empty_world))))
    = "pdf".
Proof.
  split; [reflexivity|]. split; [reflexivity|]. split; [reflexivity|].
  split; [reflexivity|].
  pose proof (unreadable_pdf_is_accepted (BE := demo_backend)
                (GE := demo_generative) (PL := demo_pdf) (TF := demo_temp)
                "broken.pdf" demo_session empty_world "/tmp/broken.pdf"
                eq_refl eq_refl eq_refl eq_refl)
    as (Hdone & _ & _ & Hmode & _).
  split; [exact Hdone | exact Hmode].
Defined.

